(** * time_accessibility_map: a shallow embedding and its properties

    The development follows [time_accessibility_map.py]: the classes [City],
    [Connection] and [Connections] become records, the methods become
    functions.  A Python [float] is represented by the real number it
    denotes; [float('inf')] and the IEEE not-a-number keep constructors of
    their own.  Scores and colours are computed with exact arithmetic.  The
    great-circle formula of [set_distance] is given twice: with exact
    arithmetic ([Connection.set_distance]), and with the rounding of the
    machine left open ([Connection.set_distance_float]), where the square
    root of line 191 can be refused.  Exceptions are values of [exn]; code
    that catches exceptions while mutating [self] runs in a
    state-and-exception monad whose state survives a raise, as Python's
    does. *)

From Stdlib Require Import ZArith List String Ascii Bool Reals Lra Lia Psatz.
From Stdlib Require Import DecimalString.
Import ListNotations.

Open Scope string_scope.
Open Scope Z_scope.

(** ** Exceptions and outcomes *)

Inductive exn : Type :=
| IndexError (msg : string)
| AttributeError
| TypeError
| IOError (msg : string)
| ValueError
| ZeroDivisionError
| StatisticsError.

Inductive outcome (A : Type) : Type :=
| Return (a : A)
| Raise (e : exn).
Arguments Return {A} a.
Arguments Raise {A} e.

Definition obind {A B} (m : outcome A) (k : A -> outcome B) : outcome B :=
  match m with
  | Return a => k a
  | Raise e => Raise e
  end.

Declare Scope outcome_scope.
Delimit Scope outcome_scope with outcome.
Notation "'let!' x ':=' m 'in' k" := (obind m (fun x => k))
  (at level 10, x pattern, m at level 100, k at level 200) : outcome_scope.

(** An attribute of a Python object: never assigned, assigned [None], or
    holding a value. *)
Inductive attr (A : Type) : Type :=
| Unset
| PyNone
| Val (a : A).
Arguments Unset {A}.
Arguments PyNone {A}.
Arguments Val {A} a.

(** ** Python sequences *)

Module Py.

(** [len(l)] as an integer. *)
Definition len {A} (l : list A) : Z := Z.of_nat (List.length l).

(** [l[0:stop]]: a negative [stop] counts from the end, and the bounds are
    clamped, so the slice never raises. *)
Definition slice0 {A} (l : list A) (stop : Z) : list A :=
  if stop <? 0
  then firstn (Z.to_nat (Z.max 0 (len l + stop))) l
  else firstn (Z.to_nat stop) l.

(** [l[i]]: a negative index counts from the end; out of range raises. *)
Definition index {A} (l : list A) (i : Z) : outcome A :=
  let j := if i <? 0 then len l + i else i in
  if j <? 0 then Raise (IndexError "list index out of range")
  else match nth_error l (Z.to_nat j) with
       | Some a => Return a
       | None => Raise (IndexError "list index out of range")
       end.

(** [sum(l)] over integers. *)
Definition sum (l : list Z) : Z := fold_left Z.add l 0.

End Py.

(** ** Regular expressions used by the program

    The program uses three patterns, all of the shape [[0-9]+] followed by a
    literal, plus one with a literal in front.  [re.search] returns the
    leftmost match; the digit group is greedy, and giving digits back never
    helps because the character after a shorter group would still be a
    digit. *)

Module Re.

Definition is_digit (c : ascii) : bool :=
  let n := nat_of_ascii c in (48 <=? n)%nat && (n <=? 57)%nat.

(** The longest run of digits at the front of [s], and what follows it. *)
Fixpoint span_digits (s : string) : string * string :=
  match s with
  | String c s' =>
      if is_digit c
      then let (run, rest) := span_digits s' in (String c run, rest)
      else (EmptyString, s)
  | EmptyString => (EmptyString, EmptyString)
  end.

(** A match of [([0-9]+)<lit>] anchored at the front of [s]; the result is
    group 1. *)
Definition match_here (lit s : string) : option string :=
  let (run, rest) := span_digits s in
  match run with
  | EmptyString => None
  | _ => if prefix lit rest then Some run else None
  end.

(** [re.search(r'([0-9]+)<lit>', s)], giving [group(1)] of the match. *)
Fixpoint search_number (lit s : string) : option string :=
  match match_here lit s with
  | Some g => Some g
  | None =>
      match s with
      | String _ s' => search_number lit s'
      | EmptyString => None
      end
  end.

(** [re.compile('connectionBox-[0-9]+').search(s)] as a boolean. *)
Fixpoint search_box_id (s : string) : bool :=
  match s with
  | String _ s' =>
      (if prefix "connectionBox-" s
       then match substring 14 1 s with
            | String c _ => is_digit c
            | EmptyString => false
            end
       else false) || search_box_id s'
  | EmptyString => false
  end.

(** [int(s)] for a string of decimal digits. *)
Definition int_of_digits (s : string) : Z :=
  fold_left (fun acc c => 10 * acc + (Z.of_nat (nat_of_ascii c) - 48))
            (list_ascii_of_string s) 0.

End Re.

(** ** Markup documents

    What [BeautifulSoup] hands to the program: a tree of tags and strings.
    Of a tag's attributes only [id] is ever looked at. *)

Inductive PageElement : Type :=
| NavigableString (s : string)
| Tag (name : string) (id : option string) (contents : list PageElement).

Module Bs4.

(** All elements below [e], in document order. *)
Fixpoint descendants (e : PageElement) : list PageElement :=
  match e with
  | NavigableString _ => []
  | Tag _ _ cs =>
      (fix below (l : list PageElement) : list PageElement :=
         match l with
         | [] => []
         | c :: l' => c :: descendants c ++ below l'
         end) cs
  end.

Definition named (n : string) (e : PageElement) : bool :=
  match e with
  | Tag m _ _ => String.eqb n m
  | NavigableString _ => false
  end.

(** [tag.find_all(name)]. *)
Definition find_all (n : string) (e : PageElement) : list PageElement :=
  filter (named n) (descendants e).

(** [tag.<name>], which is [tag.find(name)]: the first such descendant or
    [None]. *)
Definition find (n : string) (e : PageElement) : option PageElement :=
  hd_error (find_all n e).

(** Attribute access [x.<name>] where [x] may be [None]. *)
Definition dot (n : string) (x : option PageElement)
  : outcome (option PageElement) :=
  match x with
  | Some e => Return (find n e)
  | None => Raise AttributeError
  end.

Definition own_text (e : PageElement) : string :=
  match e with
  | NavigableString s => s
  | Tag _ _ _ => EmptyString
  end.

(** [tag.getText()]: the strings below the tag, joined. *)
Definition text (e : PageElement) : string :=
  String.concat EmptyString (map own_text (descendants e)).

(** [x.getText()] where [x] may be [None]. *)
Definition getText (x : option PageElement) : outcome string :=
  match x with
  | Some e => Return (text e)
  | None => Raise AttributeError
  end.

Definition has_box_id (e : PageElement) : bool :=
  match e with
  | Tag _ (Some i) _ => Re.search_box_id i
  | _ => false
  end.

(** [soup.find_all(id=re.compile('connectionBox-[0-9]+'))]. *)
Definition find_all_boxes (soup : PageElement) : list PageElement :=
  filter has_box_id (descendants soup).

End Bs4.

(** ** Standard-library helpers: [print], [quote], [strftime], [math] *)

Module Lib.

(** The line written by [print(a, b, ...)]. *)
Definition print (args : list string) : string := String.concat " " args.

Definition hex_digit (n : nat) : ascii :=
  match get n "0123456789ABCDEF" with
  | Some c => c
  | None => "0"%char
  end.

Definition always_safe (c : ascii) : bool :=
  let n := nat_of_ascii c in
  ((65 <=? n) && (n <=? 90) || (97 <=? n) && (n <=? 122) ||
   (48 <=? n) && (n <=? 57))%nat
  || existsb (Ascii.eqb c) (list_ascii_of_string "_.-~/").

(** [urllib.parse.quote(s)] on the bytes of [s], with the default
    [safe='/']. *)
Fixpoint quote (s : string) : string :=
  match s with
  | EmptyString => EmptyString
  | String c s' =>
      if always_safe c then String c (quote s')
      else
        let n := nat_of_ascii c in
        String "%" (String (hex_digit (n / 16))
                      (String (hex_digit (n mod 16)) (quote s')))
  end.

Definition digit (n : Z) : ascii :=
  ascii_of_nat (48 + Z.to_nat (n mod 10)).

Definition pad2 (n : Z) : string :=
  String (digit (n / 10)) (String (digit n) EmptyString).

(** The decimal digits of a number that is not negative, without leading
    zeros. *)
Definition decimal (n : Z) : string :=
  NilZero.string_of_uint (N.to_uint (Z.to_N n)).

Record datetime : Type := mkdatetime
  { year : Z; month : Z; day : Z; hour : Z; minute : Z; second : Z }.

(** [datetime.strftime(d, "%d.%m.%Y&time=%H:%M")]: day, month, hour and
    minute are padded to two digits; the year is printed as it is (the C
    library does not pad a year below 1000). *)
Definition strftime (d : datetime) : string :=
  pad2 (day d) ++ "." ++ pad2 (month d) ++ "." ++ decimal (year d)
  ++ "&time=" ++ pad2 (hour d) ++ ":" ++ pad2 (minute d).

Local Open Scope R_scope.

(** [math.radians]. *)
Definition radians (x : R) : R := x * (PI / 180).

(** [math.sqrt], which refuses a negative argument. *)
Definition sqrt (x : R) : outcome R :=
  if Rlt_dec x 0 then Raise ValueError else Return (R_sqrt.sqrt x).

(** [math.atan2(y, x)] on the reals (signed zeros are not distinguished). *)
Definition atan2 (y x : R) : R :=
  if Rlt_dec 0 x then atan (y / x)
  else if Rlt_dec x 0
       then (if Rle_dec 0 y then atan (y / x) + PI else atan (y / x) - PI)
       else if Rlt_dec 0 y then PI / 2
            else if Rlt_dec y 0 then - (PI / 2)
                 else 0.

(** [statistics.mean] of a list of integers: exact, and an error on an
    empty list. *)
Definition mean (l : list Z) : outcome R :=
  match l with
  | [] => Raise StatisticsError
  | _ => Return (IZR (Py.sum l) / IZR (Py.len l))
  end.

(** Float division [x / y]. *)
Definition div (x y : R) : outcome R :=
  if Req_EM_T y 0 then Raise ZeroDivisionError else Return (x / y).

End Lib.

(** ** Floating-point arithmetic

    What the machine does to the exact result of an operation is kept open
    in a record: [rnd] is the rounding applied after every [+], [-], [*],
    [/] and [math.sqrt]; [sin], [cos], [atan2], [pow2] (the power [x ** 2])
    and [radians] are the functions of the C library behind [math], whose
    results are not specified to the last bit. *)

Module Float.

Local Open Scope R_scope.

Record arith : Type := mkarith
  { rnd : R -> R;
    sin : R -> R;
    cos : R -> R;
    atan2 : R -> R -> R;
    pow2 : R -> R;
    radians : R -> R }.

Section Operations.

Variable F : arith.

Definition add (x y : R) : R := rnd F (x + y).

Definition sub (x y : R) : R := rnd F (x - y).

Definition mul (x y : R) : R := rnd F (x * y).

(** [x / y] for a divisor that is not zero (the program divides by the
    literal 2 only). *)
Definition div (x y : R) : R := rnd F (x / y).

(** [math.sqrt]: a negative argument is refused with a [ValueError]. *)
Definition sqrt (x : R) : outcome R :=
  if Rlt_dec x 0 then Raise ValueError else Return (rnd F (R_sqrt.sqrt x)).

End Operations.

(** Exact arithmetic: nothing is rounded. *)
Definition exact : arith :=
  mkarith (fun x => x) Rtrigo_def.sin Rtrigo_def.cos Lib.atan2
    (fun x => x ^ 2) Lib.radians.

(** What is used of IEEE 754 arithmetic and of the C library: rounding to
    nearest is odd and monotone and leaves 1 alone; the sine is odd and the
    square even; [sin(0) = 0], [0 ** 2 = 0] and [atan2(0, 1) = 0] are exact;
    [atan2] of two numbers that are not negative is not negative. *)
Record ieee (F : arith) : Prop := mkieee
  { rnd_opp : forall x, rnd F (- x) = - rnd F x;
    rnd_1 : rnd F 1 = 1;
    rnd_le : forall x y, x <= y -> rnd F x <= rnd F y;
    sin_opp : forall x, sin F (- x) = - sin F x;
    sin_0 : sin F 0 = 0;
    pow2_opp : forall x, pow2 F (- x) = pow2 F x;
    pow2_0 : pow2 F 0 = 0;
    atan2_0_1 : atan2 F 0 1 = 0;
    atan2_pos : forall y x, 0 <= y -> 0 <= x -> 0 <= atan2 F y x }.

End Float.

(** ** class City *)

Module City.

Record t : Type := mk
  { name : string;
    district : string;
    population : Z;
    coordinates : attr (list R) }.

(** [City.__init__]: the coordinates are only annotated, not assigned. *)
Definition init (name district : string) (population : Z) : t :=
  mk name district population Unset.

(** [City.__eq__]. *)
Definition eq (self other : t) : bool := String.eqb (name self) (name other).

(** [City.__str__]. *)
Definition str (self : t) : string := name self.

(** [City._get_address_formatted]. *)
Definition _get_address_formatted (self : t) : string :=
  name self ++ ", " ++ district self ++ ", Czechia".

(** [len(city.coordinates)]. *)
Definition len_coordinates (c : t) : outcome Z :=
  match coordinates c with
  | Unset => Raise AttributeError
  | PyNone => Raise TypeError
  | Val l => Return (Py.len l)
  end.

(** [city.coordinates[i]]. *)
Definition coordinate (c : t) (i : Z) : outcome R :=
  match coordinates c with
  | Unset => Raise AttributeError
  | PyNone => Raise TypeError
  | Val l => Py.index l i
  end.

Section Geocoder.

(** [Nominatim.geocode]: a location, [None] when the address is not found,
    or an exception of the service. *)
Variable geocode : string -> outcome (option (R * R)).

(** [City.load_coordinates]; the pair of the geocoder is (longitude,
    latitude), and a [None] answer fails on [location.longitude]. *)
Definition load_coordinates (self : t) : outcome t :=
  obind (geocode (_get_address_formatted self)) (fun location =>
  match location with
  | None => Raise AttributeError
  | Some (longitude, latitude) =>
      Return (mk (name self) (district self) (population self)
                (Val [longitude; latitude]))
  end).

End Geocoder.

End City.

(** ** class Connection *)

(** What [urlopen] hands back: the status code and the document, already
    decoded and parsed. *)
Record response : Type := mkresponse
  { getcode : Z; soup : PageElement }.

Module Connection.

Record t : Type := mk
  { from_city : City.t;
    to_city : City.t;
    veh_type : string;
    date_time : Lib.datetime;
    connections : list PageElement;
    connections_times : list Z;
    connections_distances : list Z;
    distance : R;
    ratio_absolute : attr R }.

(** [Connection.__init__] with its default arguments. *)
Definition init (from_city to_city : City.t) (veh_type : option string)
  (date_time : option Lib.datetime) : t :=
  mk from_city to_city
     (match veh_type with Some v => v | None => "vlaky" end)
     (match date_time with
      | Some d => d
      | None => Lib.mkdatetime 2020 9 15 7 0 0
      end)
     [] [] [] 0%R Unset.

Definition with_connections (l : list PageElement) (c : t) : t :=
  mk (from_city c) (to_city c) (veh_type c) (date_time c)
     l (connections_times c) (connections_distances c)
     (distance c) (ratio_absolute c).

Definition with_connections_times (l : list Z) (c : t) : t :=
  mk (from_city c) (to_city c) (veh_type c) (date_time c)
     (connections c) l (connections_distances c)
     (distance c) (ratio_absolute c).

Definition with_connections_distances (l : list Z) (c : t) : t :=
  mk (from_city c) (to_city c) (veh_type c) (date_time c)
     (connections c) (connections_times c) l
     (distance c) (ratio_absolute c).

Definition with_distance (d : R) (c : t) : t :=
  mk (from_city c) (to_city c) (veh_type c) (date_time c)
     (connections c) (connections_times c) (connections_distances c)
     d (ratio_absolute c).

Definition with_ratio_absolute (r : R) (c : t) : t :=
  mk (from_city c) (to_city c) (veh_type c) (date_time c)
     (connections c) (connections_times c) (connections_distances c)
     (distance c) (Val r).

(** *** set_distance *)

Local Open Scope outcome_scope.

(** The great-circle distance of lines 177-193, from the four coordinates
    in degrees, with exact arithmetic: [a] then stays between 0 and 1 and
    neither square root is refused.  [great_circle_float] below is the same
    formula with the rounding of the machine, under which the square root
    of [1 - a] can be refused. *)
Definition great_circle (lon1 lat1 lon2 lat2 : R) : outcome R :=
  let R_ := 6373%R in
  let lat1 := Lib.radians lat1 in
  let lon1 := Lib.radians lon1 in
  let lat2 := Lib.radians lat2 in
  let lon2 := Lib.radians lon2 in
  let dlon := (lon2 - lon1)%R in
  let dlat := (lat2 - lat1)%R in
  let a := (sin (dlat / 2) ^ 2 + cos lat1 * cos lat2 * sin (dlon / 2) ^ 2)%R in
  let! sa := Lib.sqrt a in
  let! sb := Lib.sqrt (1 - a) in
  let c := (2 * Lib.atan2 sa sb)%R in
  Return (R_ * c)%R.

(** [Connection.set_distance]: the result is [self] with its [distance]
    assigned. *)
Definition set_distance (self : t) (from_city to_city : option City.t)
  : outcome t :=
  let from_city :=
    match from_city with None => Connection.from_city self | Some c => c end in
  let to_city :=
    match to_city with None => Connection.to_city self | Some c => c end in
  let! lt := City.len_coordinates to_city in
  let! unset :=
    (if negb (lt =? 2)
     then let! lf := City.len_coordinates from_city in
          Return (negb (lf =? 2))
     else Return false) in
  if (unset : bool) then Raise (IndexError "City coordinates are not set")
  else
    let! lat1 := City.coordinate from_city 1 in
    let! lon1 := City.coordinate from_city 0 in
    let! lat2 := City.coordinate to_city 1 in
    let! lon2 := City.coordinate to_city 0 in
    let! d := great_circle lon1 lat1 lon2 lat2 in
    Return (with_distance d self).

Section Rounding.

Variable F : Float.arith.

(** The quantity [a] of lines 182-190 as the machine computes it. *)
Definition haversine (lon1 lat1 lon2 lat2 : R) : R :=
  let lat1 := Float.radians F lat1 in
  let lon1 := Float.radians F lon1 in
  let lat2 := Float.radians F lat2 in
  let lon2 := Float.radians F lon2 in
  let dlon := Float.sub F lon2 lon1 in
  let dlat := Float.sub F lat2 lat1 in
  Float.add F
    (Float.pow2 F (Float.sin F (Float.div F dlat 2)))
    (Float.mul F
       (Float.mul F (Float.cos F lat1) (Float.cos F lat2))
       (Float.pow2 F (Float.sin F (Float.div F dlon 2)))).

(** Lines 177-193 with the arithmetic [F]: either square root of line 191
    is refused when rounding has taken its argument below zero. *)
Definition great_circle_float (lon1 lat1 lon2 lat2 : R) : outcome R :=
  let R_ := 6373%R in
  let a := haversine lon1 lat1 lon2 lat2 in
  let! sa := Float.sqrt F a in
  let! sb := Float.sqrt F (Float.sub F 1 a) in
  let c := Float.mul F 2 (Float.atan2 F sa sb) in
  Return (Float.mul F R_ c).

(** [Connection.set_distance] with the arithmetic [F]. *)
Definition set_distance_float (self : t) (from_city to_city : option City.t)
  : outcome t :=
  let from_city :=
    match from_city with None => Connection.from_city self | Some c => c end in
  let to_city :=
    match to_city with None => Connection.to_city self | Some c => c end in
  let! lt := City.len_coordinates to_city in
  let! unset :=
    (if negb (lt =? 2)
     then let! lf := City.len_coordinates from_city in
          Return (negb (lf =? 2))
     else Return false) in
  if (unset : bool) then Raise (IndexError "City coordinates are not set")
  else
    let! lat1 := City.coordinate from_city 1 in
    let! lon1 := City.coordinate from_city 0 in
    let! lat2 := City.coordinate to_city 1 in
    let! lon2 := City.coordinate to_city 0 in
    let! d := great_circle_float lon1 lat1 lon2 lat2 in
    Return (with_distance d self).

End Rounding.

(** *** The monad of [load_idos]: the object and the standard output are
    state, and both keep what was done to them when an exception flies. *)

Record state : Type := mkstate { self : t; stdout : list string }.

Definition M (A : Type) : Type := state -> state * outcome A.

Definition ret {A} (a : A) : M A := fun s => (s, Return a).

Definition bind {A B} (m : M A) (k : A -> M B) : M B :=
  fun s =>
    match m s with
    | (s', Return a) => k a s'
    | (s', Raise e) => (s', Raise e)
    end.

Definition raise {A} (e : exn) : M A := fun s => (s, Raise e).

Definition lift {A} (o : outcome A) : M A := fun s => (s, o).

Definition get : M t := fun s => (s, Return (self s)).

Definition modify (f : t -> t) : M unit :=
  fun s => (mkstate (f (self s)) (stdout s), Return tt).

Definition print (args : list string) : M unit :=
  fun s => (mkstate (self s) (stdout s ++ [Lib.print args]), Return tt).

(** [try: body  except <catches>: handler]. *)
Definition try_except {A} (body : M A) (catches : exn -> bool)
  (handler : M A) : M A :=
  fun s =>
    match body s with
    | (s', Raise e) => if catches e then handler s' else (s', Raise e)
    | r => r
    end.

(** [for x in l: body]. *)
Fixpoint for_each {X} (l : list X) (body : X -> M unit) : M unit :=
  match l with
  | [] => ret tt
  | x :: l' => bind (body x) (fun _ => for_each l' body)
  end.

Declare Scope M_scope.
Delimit Scope M_scope with M.
Notation "x <- m ;; k" := (bind m (fun x => k))
  (at level 61, m at next level, right associativity) : M_scope.
Notation "m ;; k" := (bind m (fun _ => k))
  (at level 61, right associativity) : M_scope.

Definition is_IndexError (e : exn) : bool :=
  match e with IndexError _ => true | _ => false end.

Definition is_IOError_or_IndexError (e : exn) : bool :=
  match e with IndexError _ | IOError _ => true | _ => false end.

(** *** load_idos *)

(** The search address of lines 85-89. *)
Definition url_of (self : t) : string :=
  "https://idos.idnes.cz/" ++
  veh_type self ++ "/spojeni/vysledky/?date=" ++
  Lib.strftime (date_time self) ++ "&f=" ++
  Lib.quote (City.name (from_city self)) ++ "&fc=1&t=" ++
  Lib.quote (City.name (to_city self)) ++ "&tc=1".

(** [connection.div.div.label.p]. *)
Definition box_p (connection : PageElement) : outcome (option PageElement) :=
  let! a := Bs4.dot "div" (Some connection) in
  let! b := Bs4.dot "div" a in
  let! c := Bs4.dot "label" b in
  Bs4.dot "p" c.

(** Line 126. *)
Definition box_time (connection : PageElement) : outcome string :=
  let! p := box_p connection in
  let! s := Bs4.dot "strong" p in
  Bs4.getText s.

(** Line 127. *)
Definition box_distance (connection : PageElement) : outcome string :=
  let! p := box_p connection in
  match p with
  | None => Raise AttributeError
  | Some p =>
      let! s := Py.index (Bs4.find_all "strong" p) 1 in
      Bs4.getText (Some s)
  end.

(** [int(re.search(pattern, s).group(1))]. *)
Definition group1_int (lit s : string) : outcome Z :=
  match Re.search_number lit s with
  | Some g => Return (Re.int_of_digits g)
  | None => Raise AttributeError
  end.

(** Lines 132-140. *)
Definition total_seconds_of (time : string) : Z :=
  let total_seconds := 0 in
  let hours := Re.search_number " hod" time in
  let minutes := Re.search_number " min" time in
  let total_seconds :=
    match hours with
    | Some g => total_seconds + Re.int_of_digits g * 60 * 60
    | None => total_seconds
    end in
  match minutes with
  | Some g => total_seconds + Re.int_of_digits g * 60
  | None => total_seconds
  end.

Local Open Scope M_scope.

(** The body of the inner [try], lines 126-142. *)
Definition parse_connection (connection : PageElement) : M unit :=
  time <- lift (box_time connection) ;;
  distance <- lift (box_distance connection) ;;
  km <- lift (group1_int " km" distance) ;;
  modify (fun c =>
    with_connections_distances (connections_distances c ++ [km]) c) ;;
  let total_seconds := total_seconds_of time in
  modify (fun c =>
    with_connections_times (connections_times c ++ [total_seconds]) c).

(** The inner [try] of lines 123-147 for one box. *)
Definition try_connection (url : string) (connection : PageElement)
  : M unit :=
  try_except (parse_connection connection) is_IndexError
    (self <- get ;;
     print ["Bad formatted connection box for stops:";
            City.name (from_city self); "--"; City.name (to_city self);
            "for URL:"; url]).

(** The outer [try] of lines 110-164, on the parsed document. *)
Definition extraction (soup : PageElement) (url : string) : M (option t) :=
  try_except
    (modify (with_connections (Bs4.find_all_boxes soup)) ;;
     self <- get ;;
     (if Py.len (connections self) =? 0
      then raise (IOError "Not enough connections")
      else ret tt) ;;
     for_each (connections self) (try_connection url) ;;
     (* line 151 replaces every tag by its text form; the model keeps the
        tag as its own snapshot *)
     self <- get ;;
     if (Py.len (connections self) =? 0)
        || (Py.len (connections_times self) =? 0)
        || (Py.len (connections_distances self) =? 0)
     then ret None
     else ret (Some self))
    is_IOError_or_IndexError
    (self <- get ;;
     print ["Bad formatted HTML for stops:";
            City.name (from_city self); "--"; City.name (to_city self);
            "for URL:"; url] ;;
     ret None).

Section Network.

Variable urlopen : string -> outcome response.

(** [Connection.load_idos]; the result is [Some self] for [return self]
    and [None] for a bare [return], [return None] or falling off the
    end. *)
Definition load_idos : M (option t) :=
  self <- get ;;
  if City.eq (from_city self) (to_city self)
  then print ["Cannot find connection to the same city."] ;; ret None
  else
    self <- lift (set_distance self None None) ;;
    modify (fun _ => self) ;;
    let url := url_of self in
    print ["Getting connection for";
           City.str (from_city self); "--"; City.str (to_city self);
           "URL: "; url] ;;
    webURL <- lift (urlopen url) ;;
    soup <- (if (200 <=? getcode webURL) && (getcode webURL <? 400)
             then ret (soup webURL)
             else raise (IOError "IDOS does not load for URL:")) ;;
    extraction soup url.

End Network.

End Connection.

(** ** class Connections *)

(** A float that may be infinite or not a number. *)
Inductive pyfloat : Type :=
| Finite (r : R)
| PosInf
| NaN.

(** [Color(hsl=(h, s, l))]; turning it into a hex string is left to the
    [colour] library. *)
Record color : Type := hsl
  { hue : pyfloat; saturation : R; luminance : R }.

(** One entry of ["features"]; the constant members ["type": "Feature"] and
    the geometry's ["type": "Point"] are left out. *)
Record feature : Type := mkfeature
  { marker_size : string;
    marker_color : color;
    name : string;
    connections_times : list Z;
    connections_distances : list Z;
    mean_time : R;
    distance : R;
    connections_details : list PageElement;
    coordinates : option (list R) }.

Record geojson : Type := mkgeojson
  { type : string; features : list feature }.

Module Connections.

Record t : Type := mk { connections : list Connection.t }.

Section Network.

Variable urlopen : string -> outcome response.

(** The loop of [Connections.__init__]: [acc] is [self.connections],
    [out] the standard output so far.  [time.sleep] has no effect on
    either. *)
Fixpoint load_cities (cities : list City.t) (origin : City.t)
  (veh_type : string) (acc : list Connection.t) (out : list string)
  : list string * outcome (list Connection.t) :=
  match cities with
  | [] => (out, Return acc)
  | city :: cities' =>
      let connection := Connection.init origin city (Some veh_type) None in
      match Connection.load_idos urlopen
              (Connection.mkstate connection out) with
      | (s, Return loaded_connection) =>
          load_cities cities' origin veh_type
            (match loaded_connection with
             | Some c => acc ++ [c]
             | None => acc
             end)
            (Connection.stdout s)
      | (s, Raise e) => (Connection.stdout s, Raise e)
      end
  end.

(** [Connections.__init__], with the standard output it produces. *)
Definition init (cities : list City.t) (limit : Z) (origin : City.t)
  (veh_type : string) : list string * outcome t :=
  match load_cities (Py.slice0 cities limit) origin veh_type [] [] with
  | (out, Return l) => (out, Return (mk l))
  | (out, Raise e) => (out, Raise e)
  end.

End Network.

Local Open Scope outcome_scope.

(** Lines 304-307: the value assigned to [connection.ratio_absolute]. *)
Definition score (connection : Connection.t) (ratio_absolute : bool)
  : outcome R :=
  if ratio_absolute
  then let! m := Lib.mean (Connection.connections_times connection) in
       Lib.div m (Connection.distance connection)
  else Lib.mean (Connection.connections_times connection).

(** [x < min] where [min] started as [float('inf')]. *)
Definition lt_pyfloat (x : R) (m : pyfloat) : bool :=
  match m with
  | Finite y => if Rlt_dec x y then true else false
  | PosInf => true
  | NaN => false
  end.

(** The first loop, lines 297-313, over the window; it hands back the
    connections of the window with [ratio_absolute] assigned, and the
    final [max] and [min]. *)
Fixpoint first_loop (window : list Connection.t) (ratio_absolute : bool)
  (max : R) (min : pyfloat)
  : outcome (list Connection.t * R * pyfloat) :=
  match window with
  | [] => Return ([], max, min)
  | connection :: window' =>
      let! s := score connection ratio_absolute in
      let connection := Connection.with_ratio_absolute s connection in
      let max := if Rgt_dec s max then s else max in
      let min := if lt_pyfloat s min then Finite s else min in
      let! (rest, max, min) := first_loop window' ratio_absolute max min in
      Return (connection :: rest, max, min)
  end.

(** Lines 328-334. *)
Definition icon_size (self : list Connection.t) (limit : Z)
  (connection : Connection.t) : outcome string :=
  let population c := City.population (Connection.to_city c) in
  let icon_size := "small" in
  let! medium := Py.index (Py.slice0 self limit) (((limit - 1) * 2) / 3) in
  let icon_size :=
    if population connection >? population medium
    then "medium" else icon_size in
  let! large := Py.index (Py.slice0 self limit) ((limit - 1) / 3) in
  let icon_size :=
    if population connection >? population large
    then "large" else icon_size in
  Return icon_size.

(** Line 337; with [min] still infinite the quotient of two infinities is
    not a number. *)
Definition color_index (ratio_absolute : attr R) (max : R) (min : pyfloat)
  : outcome pyfloat :=
  match ratio_absolute with
  | Val s =>
      match min with
      | Finite mn => let! q := Lib.div (s - mn) (max - mn) in Return (Finite q)
      | PosInf => Return NaN
      | NaN => Return NaN
      end
  | _ => Raise AttributeError
  end.

(** Line 341. *)
Definition color_of (color_index : pyfloat) : color :=
  hsl (match color_index with
       | Finite t => Finite (0.3333 - 0.3333 * t)
       | _ => NaN
       end) 1 0.5.

(** [connection.to_city.coordinates] as a JSON value. *)
Definition geometry (c : City.t) : outcome (option (list R)) :=
  match City.coordinates c with
  | Unset => Raise AttributeError
  | PyNone => Return None
  | Val l => Return (Some l)
  end.

(** The second loop, lines 319-364; [limit] is the loop's own variable,
    lowered to the number of connections on the way. *)
Fixpoint second_loop (self : list Connection.t) (window : list Connection.t)
  (limit : Z) (max : R) (min : pyfloat) (acc : list feature)
  : outcome (list feature) :=
  match window with
  | [] => Return acc
  | connection :: window' =>
      let limit := if limit >? Py.len self then Py.len self else limit in
      let! size := icon_size self limit connection in
      let! ci := color_index (Connection.ratio_absolute connection) max min in
      let color := color_of ci in
      let! m := Lib.mean (Connection.connections_times connection) in
      let! xy := geometry (Connection.to_city connection) in
      second_loop self window' limit max min
        (acc ++ [mkfeature size color
                   (City.name (Connection.to_city connection))
                   (Connection.connections_times connection)
                   (Connection.connections_distances connection)
                   m
                   (Connection.distance connection)
                   (Connection.connections connection)
                   xy])
  end.

(** The connections after the first loop: the window's objects carry
    their score, the others are untouched. *)
Definition scored (self window' : list Connection.t) (limit : Z)
  : list Connection.t :=
  window' ++ skipn (List.length (Py.slice0 self limit)) self.

(** [Connections.get_geojson]; the result pairs the object as the method
    leaves it with the value it returns. *)
Definition get_geojson (self : t) (limit : Z) (ratio_absolute : bool)
  : outcome (t * geojson) :=
  let max := 0%R in
  let min := PosInf in
  let! (window', max, min) :=
    first_loop (Py.slice0 (connections self) limit) ratio_absolute max min in
  let self' := scored (connections self) window' limit in
  let! fs := second_loop self' (Py.slice0 self' limit) limit max min [] in
  Return (mk self', mkgeojson "FeatureCollection" fs).

(** The first loop with the objects it leaves behind when a score cannot
    be computed: the connections before that one carry their score, the
    others are as they were. *)
Fixpoint first_loop_run (window : list Connection.t) (ratio_absolute : bool)
  (max : R) (min : pyfloat)
  : list Connection.t * outcome (R * pyfloat) :=
  match window with
  | [] => ([], Return (max, min))
  | connection :: window' =>
      match score connection ratio_absolute with
      | Raise e => (connection :: window', Raise e)
      | Return s =>
          let connection := Connection.with_ratio_absolute s connection in
          let max := if Rgt_dec s max then s else max in
          let min := if lt_pyfloat s min then Finite s else min in
          let (rest, r) := first_loop_run window' ratio_absolute max min in
          (connection :: rest, r)
      end
  end.

(** [Connections.get_geojson] as a run: the object as the method leaves it,
    also when it raises, and the value returned or the exception. *)
Definition get_geojson_run (self : t) (limit : Z) (ratio_absolute : bool)
  : t * outcome geojson :=
  let max := 0%R in
  let min := PosInf in
  let (window', r) :=
    first_loop_run (Py.slice0 (connections self) limit) ratio_absolute
      max min in
  let self' := scored (connections self) window' limit in
  (mk self',
   let! (max, min) := r in
   let! fs := second_loop self' (Py.slice0 self' limit) limit max min [] in
   Return (mkgeojson "FeatureCollection" fs)).

(** [Connections.append]. *)
Definition append (self : t) (other : Connection.t) : t :=
  mk (connections self ++ [other]).

End Connections.

(** ** class Cities *)

Module Cities.

Record t : Type := mk { cities : list City.t }.

Section Geocoder.

Variable geocode : string -> outcome (option (R * R)).

(** The loop of [set_all_coordinates] over the cities, which are changed in
    place: a city without the attribute, or with [None] in it, is sent to
    the geocoder. *)
Fixpoint load_missing (l : list City.t) : outcome (list City.t) :=
  match l with
  | [] => Return []
  | city :: l' =>
      obind (match City.coordinates city with
             | Unset | PyNone => City.load_coordinates geocode city
             | Val _ => Return city
             end) (fun city' =>
      obind (load_missing l') (fun rest => Return (city' :: rest)))
  end.

(** [Cities.set_all_coordinates], with the line it prints first. *)
Definition set_all_coordinates (self : t) : list string * outcome t :=
  ([Lib.print ["Get all coordinates may take some time..."]],
   obind (load_missing (cities self)) (fun l => Return (mk l))).

End Geocoder.

(** [Cities.get_city_by_name]; falling off the loop gives [None]. *)
Definition get_city_by_name (self : t) (name : string) : option City.t :=
  List.find (fun city => String.eqb (City.name city) name) (cities self).

(** [Cities.__getitem__] with an integer and with a slice [0:stop]. *)
Definition getitem (self : t) (item : Z) : outcome City.t :=
  Py.index (cities self) item.

Definition getslice (self : t) (stop : Z) : list City.t :=
  Py.slice0 (cities self) stop.

End Cities.

(** * Vocabulary of the specification

    Definitions that follow the words of the specification, or that read a
    stateful piece of the program as a pure function; each is related to the
    program by a lemma below. *)

Module Spec.

(** The arithmetic mean of a list of durations. *)
Definition arithmetic_mean (durations : list Z) : R :=
  (IZR (fold_right Z.add 0%Z durations) / INR (List.length durations))%R.

(** The normalized position of a score between the bounds. *)
Definition position (score min_score max_score : R) : R :=
  ((score - min_score) / (max_score - min_score))%R.

(** The hue for a normalized position. *)
Definition hue_at (t : R) : R := (0.3333 * (1 - t))%R.

(** The two threshold ranks for a window of [L] entries. *)
Definition large_rank (L : Z) : Z := (L - 1) / 3.
Definition medium_rank (L : Z) : Z := (2 * (L - 1)) / 3.

(** The display-size label from a population and the two threshold
    populations. *)
Definition size_label (population large_threshold medium_threshold : Z)
  : string :=
  if population >? large_threshold then "large"
  else if population >? medium_threshold then "medium"
  else "small".

(** What one box yields when lines 126-142 are read without the appends:
    the record (seconds, kilometres), or the exception that stops the
    box. *)
Definition box_record (connection : PageElement) : outcome (Z * Z) :=
  obind (Connection.box_time connection) (fun time =>
  obind (Connection.box_distance connection) (fun distance =>
  obind (Connection.group1_int " km" distance) (fun km =>
  Return (Connection.total_seconds_of time, km)))).

(** A box is malformed in the tolerated way when reading it stops with an
    [IndexError]. *)
Definition skipped (connection : PageElement) : bool :=
  match box_record connection with
  | Raise (IndexError _) => true
  | _ => false
  end.

(** The records of the boxes that yield one, in document order. *)
Definition records (boxes : list PageElement) : list (Z * Z) :=
  flat_map (fun b => match box_record b with
                     | Return r => [r]
                     | Raise _ => []
                     end) boxes.

(** The limit as the second loop uses it: lowered to the number of
    connections. *)
Definition clamp (self : list Connection.t) (limit : Z) : Z :=
  if limit >? Py.len self then Py.len self else limit.

(** Feature [f] is what one turn of the second loop appends for the
    connection [c]. *)
Definition feature_of (self : list Connection.t) (limit : Z) (max : R)
  (min : pyfloat) (c : Connection.t) (f : feature) : Prop :=
  Connections.icon_size self (clamp self limit) c = Return (marker_size f) /\
  (exists ci,
      Connections.color_index (Connection.ratio_absolute c) max min
      = Return ci /\
      marker_color f = Connections.color_of ci) /\
  name f = City.name (Connection.to_city c) /\
  connections_times f = Connection.connections_times c /\
  connections_distances f = Connection.connections_distances c /\
  Lib.mean (Connection.connections_times c) = Return (mean_time f) /\
  distance f = Connection.distance c /\
  connections_details f = Connection.connections c /\
  Connections.geometry (Connection.to_city c) = Return (coordinates f).

(** The exception of the first box that stops with something other than
    an [IndexError], if there is one. *)
Fixpoint first_fatal (boxes : list PageElement) : option exn :=
  match boxes with
  | [] => None
  | b :: boxes' =>
      match box_record b with
      | Raise e =>
          if Connection.is_IndexError e then first_fatal boxes' else Some e
      | Return _ => first_fatal boxes'
      end
  end.

(** A connection with the records [rs] appended to its two lists. *)
Definition with_records (rs : list (Z * Z)) (c : Connection.t)
  : Connection.t :=
  Connection.mk (Connection.from_city c) (Connection.to_city c)
    (Connection.veh_type c) (Connection.date_time c)
    (Connection.connections c)
    (Connection.connections_times c ++ map fst rs)
    (Connection.connections_distances c ++ map snd rs)
    (Connection.distance c) (Connection.ratio_absolute c).

(** The lines the program prints. *)
Definition same_city_line : string :=
  Lib.print ["Cannot find connection to the same city."].

Definition getting_line (c : Connection.t) : string :=
  Lib.print ["Getting connection for";
             City.str (Connection.from_city c); "--";
             City.str (Connection.to_city c);
             "URL: "; Connection.url_of c].

Definition bad_box_line (c : Connection.t) : string :=
  Lib.print ["Bad formatted connection box for stops:";
             City.name (Connection.from_city c); "--";
             City.name (Connection.to_city c);
             "for URL:"; Connection.url_of c].

Definition bad_html_line (c : Connection.t) : string :=
  Lib.print ["Bad formatted HTML for stops:";
             City.name (Connection.from_city c); "--";
             City.name (Connection.to_city c);
             "for URL:"; Connection.url_of c].

(** A destination is unusable when it is the origin itself, or when the
    document fetched for it yields no trip record: either no box is
    matched or no matched box yields a record. *)
Definition unusable (urlopen : string -> outcome response)
  (origin : City.t) (veh_type : string) (city : City.t) : Prop :=
  City.eq origin city = true \/
  exists resp,
    urlopen (Connection.url_of
               (Connection.init origin city (Some veh_type) None))
    = Return resp /\
    records (Bs4.find_all_boxes (soup resp)) = [].

(** The lines that report a skipped destination. *)
Definition diagnostics (origin : City.t) (veh_type : string)
  (city : City.t) : list string :=
  let c := Connection.init origin city (Some veh_type) None in
  [same_city_line; bad_html_line c; bad_box_line c].

(** The three labels in their order of size. *)
Definition tier (label : string) : Z :=
  if String.eqb label "large" then 2
  else if String.eqb label "medium" then 1
  else 0.

(** [l1] is [l2] with some elements left out, the others in their order. *)
Inductive subsequence {A : Type} : list A -> list A -> Prop :=
| subsequence_nil : subsequence [] []
| subsequence_skip (x : A) (l1 l2 : list A) :
    subsequence l1 l2 -> subsequence l1 (x :: l2)
| subsequence_keep (x : A) (l1 l2 : list A) :
    subsequence l1 l2 -> subsequence (x :: l1) (x :: l2).

(** A string of decimal digits. *)
Definition digits (s : string) : Prop :=
  Forall (fun c => Re.is_digit c = true) (list_ascii_of_string s).

End Spec.

(** * Sample data *)

Module Sample.

Definition praha : City.t :=
  City.mk "Praha" "Hlavni mesto Praha" 1300000 (Val [14.4378; 50.0755]%R).

Definition brno : City.t :=
  City.mk "Brno" "Brno-mesto" 380000 (Val [16.6068; 49.1951]%R).

(** Brno with a third number (an altitude) after the pair. *)
Definition brno_with_altitude : City.t :=
  City.mk "Brno" "Brno-mesto" 380000 (Val [16.6068; 49.1951; 237]%R).

Definition ostrava : City.t :=
  City.mk "Ostrava" "Ostrava-mesto" 290000 (Val [18.2625; 49.8209]%R).

(** A loaded connection from Praha, as [load_idos] leaves it. *)
Definition connection (to : City.t) (times distances : list Z)
  (distance : R) : Connection.t :=
  Connection.mk praha to "vlaky" (Lib.mkdatetime 2020 9 15 7 0 0)
    [] times distances distance Unset.

(** Two trips of 3600 s and 1800 s over 100 km each; the cities are taken
    to be 50 km apart. *)
Definition to_brno : Connection.t :=
  connection brno [3600; 1800] [100; 100] 50.

Definition to_ostrava : Connection.t :=
  connection ostrava [12600] [356] 280.

Definition one_destination : Connections.t := Connections.mk [to_brno].

Definition two_destinations : Connections.t :=
  Connections.mk [to_brno; to_ostrava].

(** Nine destinations in descending order of population. *)
Definition nine_destinations : Connections.t :=
  Connections.mk
    (map (fun '(n, p, t) =>
            connection (City.mk n "" p (Val [15; 50]%R)) [t] [100] 100)
       [("Brno", 380000, 9000); ("Ostrava", 290000, 12600);
        ("Plzen", 170000, 5400); ("Liberec", 104000, 7200);
        ("Olomouc", 100000, 8100); ("Ceske Budejovice", 94000, 7800);
        ("Usti nad Labem", 93000, 4800); ("Hradec Kralove", 92000, 6000);
        ("Pardubice", 90000, 3600)]).

(** A connection box in the nesting the program walks through; every
    text of [strongs] sits in a [strong] element of its own. *)
Definition box (id : string) (strongs : list string) : PageElement :=
  Tag "div" (Some id)
    [Tag "div" None
       [Tag "div" None
          [Tag "label" None
             [Tag "p" None
                (map (fun s => Tag "strong" None [NavigableString s])
                   strongs)]]]].

Definition page (boxes : list PageElement) : PageElement :=
  Tag "[document]" None [Tag "html" None [Tag "body" None boxes]].

Definition good_box : PageElement :=
  box "connectionBox-1" ["1 hod 30 min"; "100 km"].

(** The distance element is there but holds no number of kilometres. *)
Definition bad_distance_box : PageElement :=
  box "connectionBox-2" ["2 hod 5 min"; "n/a"].

(** The distance element is missing. *)
Definition no_distance_box : PageElement :=
  box "connectionBox-2" ["2 hod 5 min"].

(** The duration text has neither hours nor minutes. *)
Definition no_duration_box : PageElement :=
  box "connectionBox-3" ["soon"; "12 km"].

Definition another_good_box : PageElement :=
  box "connectionBox-4" ["45 min"; "60 km"].

(** A network that answers every request with the same document. *)
Definition serve (doc : PageElement) : string -> outcome response :=
  fun _ => Return (mkresponse 200 doc).

(** The connection object [Connections.__init__] builds for Brno. *)
Definition praha_brno : Connection.t :=
  Connection.init praha brno (Some "vlaky") None.

(** A network with an empty result page for Brno and two trips for every
    other destination. *)
Definition network : string -> outcome response :=
  fun url =>
    if String.eqb url (Connection.url_of praha_brno)
    then Return (mkresponse 200 (page []))
    else Return (mkresponse 200 (page [good_box; another_good_box])).

(** A network whose result page for Brno holds a single box, with a
    distance text that has no number of kilometres. *)
Definition network_with_bad_distance : string -> outcome response :=
  fun url =>
    if String.eqb url (Connection.url_of praha_brno)
    then Return (mkresponse 200 (page [bad_distance_box]))
    else Return (mkresponse 200 (page [good_box; another_good_box])).

(** A geocoder that knows Praha and Brno and nothing else. *)
Definition geocoder : string -> outcome (option (R * R)) :=
  fun address =>
    if String.eqb address "Praha, Hlavni mesto Praha, Czechia"
    then Return (Some (14.4378, 50.0755)%R)
    else if String.eqb address "Brno, Brno-mesto, Czechia"
         then Return (Some (16.6068, 49.1951)%R)
         else Return None.

(** Two cities as [Cities.__init__] builds them, without coordinates. *)
Definition registry : Cities.t :=
  Cities.mk [City.init "Praha" "Hlavni mesto Praha" 1300000;
             City.init "Brno" "Brno-mesto" 380000].

(** The same with a second city that the geocoder does not know. *)
Definition registry_with_unknown : Cities.t :=
  Cities.mk [City.init "Praha" "Hlavni mesto Praha" 1300000;
             City.init "Kocourkov" "Nikde" 1;
             City.init "Brno" "Brno-mesto" 380000].

End Sample.

(** * Properties *)

(** ** The great-circle distance *)

Section GreatCircle.

Local Open Scope R_scope.

(** The quantity [a] of line 190 in half-angle form: with [x] half the
    difference of the latitudes, [u] half their sum and [y] half the
    difference of the longitudes. *)
Lemma haversine_form (x u y : R) :
  sin x ^ 2 + cos (u - x) * cos (u + x) * sin y ^ 2
  = sin x ^ 2 * (1 - sin y ^ 2) + cos u ^ 2 * sin y ^ 2.
Proof.
  rewrite cos_minus, cos_plus.
  pose proof (sin2_cos2 x) as Hx. pose proof (sin2_cos2 u) as Hu.
  unfold Rsqr in Hx, Hu.
  assert (Ex : cos x * cos x = 1 - sin x * sin x) by lra.
  assert (Eu : sin u * sin u = 1 - cos u * cos u) by lra.
  transitivity
    (sin x ^ 2
     + ((cos u * cos u) * (cos x * cos x)
        - (sin u * sin u) * (sin x * sin x)) * sin y ^ 2); [ring|].
  rewrite Ex, Eu. ring.
Qed.

Lemma sin_sq_range (x : R) : 0 <= sin x ^ 2 <= 1.
Proof.
  pose proof (sin2_cos2 x) as H. unfold Rsqr in H.
  pose proof (pow2_ge_0 (sin x)). pose proof (pow2_ge_0 (cos x)).
  split; [assumption|]. nra.
Qed.

Lemma cos_sq_range (x : R) : 0 <= cos x ^ 2 <= 1.
Proof.
  pose proof (sin2_cos2 x) as H. unfold Rsqr in H.
  pose proof (pow2_ge_0 (sin x)). pose proof (pow2_ge_0 (cos x)).
  split; [assumption|]. nra.
Qed.

(** [a] never leaves the unit interval, so neither square root is
    refused. *)
Lemma haversine_range (lat1 lat2 dlon : R) :
  0 <= sin ((lat2 - lat1) / 2) ^ 2
       + cos lat1 * cos lat2 * sin (dlon / 2) ^ 2 <= 1.
Proof.
  set (x := (lat2 - lat1) / 2). set (u := (lat2 + lat1) / 2).
  replace lat1 with (u - x) by (unfold u, x; lra).
  replace lat2 with (u + x) by (unfold u, x; lra).
  rewrite haversine_form.
  pose proof (sin_sq_range x). pose proof (sin_sq_range (dlon / 2)).
  pose proof (cos_sq_range u).
  split; nra.
Qed.

Lemma lib_sqrt_nonneg (x : R) : 0 <= x -> Lib.sqrt x = Return (sqrt x).
Proof.
  intros H. unfold Lib.sqrt. destruct (Rlt_dec x 0); [lra | reflexivity].
Qed.

Lemma atan2_nonneg (y x : R) : 0 <= y -> 0 <= x -> 0 <= Lib.atan2 y x.
Proof.
  intros Hy Hx. unfold Lib.atan2.
  destruct (Rlt_dec 0 x) as [Hpos|Hnpos].
  - destruct Hy as [Hy|<-].
    + rewrite <- atan_0. left. apply atan_increasing.
      apply Rdiv_lt_0_compat; assumption.
    + unfold Rdiv. rewrite Rmult_0_l, atan_0. lra.
  - destruct (Rlt_dec x 0); [lra|].
    pose proof PI_RGT_0.
    destruct (Rlt_dec 0 y); [lra|].
    destruct (Rlt_dec y 0); lra.
Qed.

(** The formula always yields a distance, and it is not negative. *)
Lemma great_circle_total (lon1 lat1 lon2 lat2 : R) :
  exists d, Connection.great_circle lon1 lat1 lon2 lat2 = Return d /\ 0 <= d.
Proof.
  unfold Connection.great_circle.
  set (a := sin _ ^ 2 + _).
  assert (Ha : 0 <= a <= 1) by apply haversine_range.
  rewrite (lib_sqrt_nonneg a) by lra. cbn [obind].
  rewrite (lib_sqrt_nonneg (1 - a)) by lra. cbn [obind].
  eexists. split; [reflexivity|].
  pose proof (atan2_nonneg (sqrt a) (sqrt (1 - a))
                (sqrt_pos _) (sqrt_pos _)).
  nra.
Qed.

(** Swapping the two points does not change the formula's value. *)
Lemma great_circle_sym (lon1 lat1 lon2 lat2 : R) :
  Connection.great_circle lon1 lat1 lon2 lat2
  = Connection.great_circle lon2 lat2 lon1 lat1.
Proof.
  unfold Connection.great_circle.
  set (p1 := Lib.radians lat1). set (p2 := Lib.radians lat2).
  set (l1 := Lib.radians lon1). set (l2 := Lib.radians lon2).
  assert (E : sin ((p2 - p1) / 2) ^ 2
              + cos p1 * cos p2 * sin ((l2 - l1) / 2) ^ 2
              = sin ((p1 - p2) / 2) ^ 2
                + cos p2 * cos p1 * sin ((l1 - l2) / 2) ^ 2).
  { replace ((p1 - p2) / 2) with (- ((p2 - p1) / 2)) by lra.
    replace ((l1 - l2) / 2) with (- ((l2 - l1) / 2)) by lra.
    rewrite !sin_neg. ring. }
  rewrite E. reflexivity.
Qed.

(** A point is at distance zero from itself. *)
Lemma great_circle_refl (lon lat : R) :
  Connection.great_circle lon lat lon lat = Return 0.
Proof.
  unfold Connection.great_circle.
  set (a := sin _ ^ 2 + _).
  assert (Ha : a = 0).
  { unfold a. rewrite !Rminus_diag. unfold Rdiv. rewrite !Rmult_0_l.
    rewrite sin_0. ring. }
  rewrite Ha, Rminus_0_r.
  rewrite (lib_sqrt_nonneg 0) by lra. cbn [obind].
  rewrite (lib_sqrt_nonneg 1) by lra. cbn [obind].
  rewrite sqrt_0, sqrt_1. unfold Lib.atan2.
  destruct (Rlt_dec 0 1); [|lra].
  unfold Rdiv. rewrite Rmult_0_l, atan_0. f_equal. ring.
Qed.

End GreatCircle.

(** ** set_distance *)

(** With both coordinate pairs in place, [set_distance] is the great-circle
    formula on them. *)
Lemma set_distance_pairs (self : Connection.t) (A B : City.t)
  (lonA latA lonB latB : R) :
  City.coordinates A = Val [lonA; latA] ->
  City.coordinates B = Val [lonB; latB] ->
  Connection.set_distance self (Some A) (Some B)
  = obind (Connection.great_circle lonA latA lonB latB)
      (fun d => Return (Connection.with_distance d self)).
Proof.
  intros HA HB. unfold Connection.set_distance.
  unfold City.len_coordinates, City.coordinate. rewrite HA, HB.
  reflexivity.
Qed.

(** The guard of line 174 fires exactly when both lists have a length other
    than two. *)
Lemma set_distance_guard (self : Connection.t) (A B : City.t)
  (cA cB : list R) :
  City.coordinates A = Val cA ->
  City.coordinates B = Val cB ->
  Py.len cA <> 2 -> Py.len cB <> 2 ->
  Connection.set_distance self (Some A) (Some B)
  = Raise (IndexError "City coordinates are not set").
Proof.
  intros HA HB NA NB. unfold Connection.set_distance.
  unfold City.len_coordinates. rewrite HA, HB. cbn [obind].
  apply Z.eqb_neq in NA, NB. rewrite NA, NB. reflexivity.
Qed.

(** When only the destination lacks its pair, the guard stays silent and the
    failure comes from the subscript of line 184. *)
Lemma set_distance_guard_silent (self : Connection.t) (A B : City.t)
  (lonA latA : R) :
  City.coordinates A = Val [lonA; latA] ->
  City.coordinates B = Val [] ->
  Connection.set_distance self (Some A) (Some B)
  = Raise (IndexError "list index out of range").
Proof.
  intros HA HB. unfold Connection.set_distance.
  unfold City.len_coordinates, City.coordinate. rewrite HA, HB.
  reflexivity.
Qed.

(** A city straight from its constructor has no [coordinates] attribute at
    all, and [set_distance] stops on the attribute access. *)
Lemma set_distance_unset (self : Connection.t) (A : City.t)
  (n d : string) (p : Z) :
  Connection.set_distance self (Some A) (Some (City.init n d p))
  = Raise AttributeError.
Proof. reflexivity. Qed.

(** ** set_distance with rounding *)

Section Rounded.

Local Open Scope R_scope.

(** Exact arithmetic has the properties asked of the machine's. *)
Lemma exact_ieee : Float.ieee Float.exact.
Proof.
  constructor; cbn.
  - reflexivity.
  - reflexivity.
  - intros x y H. exact H.
  - apply sin_neg.
  - apply sin_0.
  - intros x. ring.
  - ring.
  - unfold Lib.atan2. destruct (Rlt_dec 0 1); [|lra].
    unfold Rdiv. rewrite Rmult_0_l. apply atan_0.
  - apply atan2_nonneg.
Qed.

(** With exact arithmetic the two readings of the formula coincide. *)
Lemma great_circle_float_exact (lon1 lat1 lon2 lat2 : R) :
  Connection.great_circle_float Float.exact lon1 lat1 lon2 lat2
  = Connection.great_circle lon1 lat1 lon2 lat2.
Proof. reflexivity. Qed.

Lemma set_distance_float_exact (self : Connection.t)
  (from_city to_city : option City.t) :
  Connection.set_distance_float Float.exact self from_city to_city
  = Connection.set_distance self from_city to_city.
Proof. reflexivity. Qed.

Variable F : Float.arith.
Hypothesis HF : Float.ieee F.

Lemma float_rnd_0 : Float.rnd F 0 = 0.
Proof.
  pose proof (Float.rnd_opp F HF 0) as H. rewrite Ropp_0 in H. lra.
Qed.

Lemma float_rnd_nonneg (x : R) : 0 <= x -> 0 <= Float.rnd F x.
Proof.
  intros H. rewrite <- float_rnd_0. apply (Float.rnd_le F HF). exact H.
Qed.








(** With both coordinate pairs in place, [set_distance] is the formula on
    them. *)
Lemma set_distance_float_pairs (self : Connection.t) (A B : City.t)
  (lonA latA lonB latB : R) :
  City.coordinates A = Val [lonA; latA] ->
  City.coordinates B = Val [lonB; latB] ->
  Connection.set_distance_float F self (Some A) (Some B)
  = obind (Connection.great_circle_float F lonA latA lonB latB)
      (fun d => Return (Connection.with_distance d self)).
Proof.
  intros HA HB. unfold Connection.set_distance_float.
  unfold City.len_coordinates, City.coordinate. rewrite HA, HB.
  reflexivity.
Qed.

(** The formula returns a distance exactly when neither square root is
    refused, and the distance is not negative. *)
Lemma great_circle_float_cases (lon1 lat1 lon2 lat2 : R) :
  let a := Connection.haversine F lon1 lat1 lon2 lat2 in
  (0 <= a -> 0 <= Float.sub F 1 a ->
   exists d, Connection.great_circle_float F lon1 lat1 lon2 lat2 = Return d /\
             0 <= d) /\
  (a < 0 \/ Float.sub F 1 a < 0 ->
   Connection.great_circle_float F lon1 lat1 lon2 lat2 = Raise ValueError).
Proof.
  intros a. unfold Connection.great_circle_float. cbn zeta. fold a.
  unfold Float.sqrt. split.
  - intros Ha Hb.
    destruct (Rlt_dec a 0); [lra|]. cbn [obind].
    destruct (Rlt_dec (Float.sub F 1 a) 0); [lra|]. cbn [obind].
    eexists. split; [reflexivity|].
    unfold Float.mul. apply float_rnd_nonneg.
    apply Rmult_le_pos; [lra|]. apply float_rnd_nonneg.
    apply Rmult_le_pos; [lra|].
    apply (Float.atan2_pos F HF); apply float_rnd_nonneg; apply sqrt_pos.
  - intros [Ha|Hb].
    + destruct (Rlt_dec a 0); [reflexivity | lra].
    + destruct (Rlt_dec a 0); [reflexivity|]. cbn [obind].
      destruct (Rlt_dec (Float.sub F 1 a) 0); [reflexivity | lra].
Qed.

(** The formula fails only with a [ValueError], and only when [a] is
    outside the unit interval. *)
Lemma great_circle_float_raises (lon1 lat1 lon2 lat2 : R) (e : exn) :
  Connection.great_circle_float F lon1 lat1 lon2 lat2 = Raise e ->
  e = ValueError /\
  (Connection.haversine F lon1 lat1 lon2 lat2 < 0 \/
   1 < Connection.haversine F lon1 lat1 lon2 lat2).
Proof.
  intros H.
  destruct (great_circle_float_cases lon1 lat1 lon2 lat2) as [Hr Hf].
  cbn zeta in Hr, Hf.
  set (a := Connection.haversine F lon1 lat1 lon2 lat2) in *.
  destruct (Rlt_dec a 0) as [Ha|Ha].
  { rewrite (Hf (or_introl Ha)) in H. inversion H. split; [reflexivity|].
    left. exact Ha. }
  destruct (Rlt_dec (Float.sub F 1 a) 0) as [Hb|Hb].
  { rewrite (Hf (or_intror Hb)) in H. inversion H. split; [reflexivity|].
    right. destruct (Rlt_dec 1 a) as [Hgt|Hgt]; [exact Hgt|].
    exfalso. apply (Rle_not_lt _ _ (float_rnd_nonneg (1 - a) ltac:(lra))).
    exact Hb. }
  destruct Hr as [d [Hd _]]; [lra | lra |]. rewrite Hd in H. discriminate.
Qed.

End Rounded.



(** C3, at the failing input: the destination's coordinates are a list of
    three numbers, not a pair, and [set_distance] computes a distance from
    the first two instead of failing. *)
Theorem set_distance_accepts_three_coordinates :
  exists d : R,
    Connection.set_distance
      (Connection.init Sample.praha Sample.brno_with_altitude None None)
      None None
    = Return (Connection.with_distance d
                (Connection.init Sample.praha Sample.brno_with_altitude
                   None None)).
Proof.
  destruct (great_circle_total 14.4378 50.0755 16.6068 49.1951)
    as [d [Hd _]].
  exists d. unfold Connection.set_distance.
  cbn -[Connection.great_circle]. rewrite Pos2Nat.inj_1.
  cbn -[Connection.great_circle]. rewrite Hd. reflexivity.
Qed.

(** ** Python slices and subscripts *)

Lemma slice0_positive {A} (l : list A) (stop : Z) :
  0 <= stop -> Py.slice0 l stop = firstn (Z.to_nat stop) l.
Proof.
  intros H. unfold Py.slice0.
  destruct (stop <? 0) eqn:E; [apply Z.ltb_lt in E; lia | reflexivity].
Qed.

Lemma slice0_length {A} (l : list A) (stop : Z) :
  0 <= stop -> Py.len (Py.slice0 l stop) = Z.min stop (Py.len l).
Proof.
  intros H. rewrite slice0_positive by assumption.
  unfold Py.len. rewrite length_firstn. lia.
Qed.

(** A slice only depends on the list through its length and is a prefix. *)
Lemma slice0_prefix {A} (l : list A) (stop : Z) :
  exists n, Py.slice0 l stop = firstn n l /\
            forall l' : list A, List.length l' = List.length l ->
                                Py.slice0 l' stop = firstn n l'.
Proof.
  unfold Py.slice0, Py.len. destruct (stop <? 0).
  - eexists. split; [reflexivity|]. intros l' ->. reflexivity.
  - eexists. split; [reflexivity|]. intros l' _. reflexivity.
Qed.

(** Lowering the limit to the number of entries leaves the window alone. *)
Lemma slice0_clamp {A} (l : list A) (limit : Z) :
  0 <= limit ->
  Py.slice0 l (if limit >? Py.len l then Py.len l else limit)
  = Py.slice0 l limit.
Proof.
  intros H. destruct (limit >? Py.len l) eqn:E; [|reflexivity].
  apply Z.gtb_lt in E.
  rewrite !slice0_positive by (unfold Py.len in *; lia).
  unfold Py.len in *. rewrite Nat2Z.id.
  rewrite firstn_all. symmetry. apply firstn_all2. lia.
Qed.

Lemma index_in_range {A} (l : list A) (i : Z) :
  0 <= i < Py.len l ->
  exists a, Py.index l i = Return a /\ nth_error l (Z.to_nat i) = Some a.
Proof.
  intros [H0 H1]. unfold Py.index.
  destruct (i <? 0) eqn:E; [apply Z.ltb_lt in E; lia|]. rewrite E.
  destruct (nth_error l (Z.to_nat i)) as [a|] eqn:N.
  - exists a. split; reflexivity.
  - apply nth_error_None in N. unfold Py.len in H1. lia.
Qed.

(** ** The first loop of get_geojson *)

Lemma lt_pyfloat_true (s : R) (mn : pyfloat) :
  Connections.lt_pyfloat s mn = true ->
  mn = PosInf \/ exists m, mn = Finite m /\ (s < m)%R.
Proof.
  destruct mn as [m| |]; cbn; intros H; try discriminate.
  - right. exists m. split; [reflexivity|].
    destruct (Rlt_dec s m); [assumption | discriminate].
  - left. reflexivity.
Qed.

Lemma lt_pyfloat_false (s : R) (mn : pyfloat) :
  Connections.lt_pyfloat s mn = false ->
  mn = NaN \/ exists m, mn = Finite m /\ (m <= s)%R.
Proof.
  destruct mn as [m| |]; cbn; intros H; try discriminate.
  - right. exists m. split; [reflexivity|].
    destruct (Rlt_dec s m); [discriminate | lra].
  - left. reflexivity.
Qed.

(** Every connection of the window leaves the loop with its score
    assigned and nothing else changed. *)
Lemma first_loop_scores (window : list Connection.t) (ratio : bool) :
  forall (mx : R) (mn : pyfloat) w' mx' mn',
    Connections.first_loop window ratio mx mn = Return (w', mx', mn') ->
    Forall2 (fun c c' => exists s, Connections.score c ratio = Return s /\
                                   c' = Connection.with_ratio_absolute s c)
            window w'.
Proof.
  induction window as [|c window IH]; intros mx mn w' mx' mn' H; cbn in H.
  - inversion H; subst. constructor.
  - destruct (Connections.score c ratio) as [s|e] eqn:Es; cbn in H;
      [|discriminate].
    destruct (Connections.first_loop window ratio _ _)
      as [[[rest mx1] mn1]|e] eqn:Er; cbn in H; [|discriminate].
    inversion H; subst. constructor.
    + exists s. split; [exact Es | reflexivity].
    + eapply IH. exact Er.
Qed.

(** Conversely the loop succeeds as soon as every score can be computed. *)
Lemma first_loop_total (window : list Connection.t) (ratio : bool) :
  (forall c, In c window -> exists s, Connections.score c ratio = Return s) ->
  forall (mx : R) (mn : pyfloat),
  exists w' mx' mn',
    Connections.first_loop window ratio mx mn = Return (w', mx', mn').
Proof.
  induction window as [|c window IH]; intros Hs mx mn; cbn.
  - do 3 eexists. reflexivity.
  - destruct (Hs c (or_introl eq_refl)) as [s Es]. rewrite Es. cbn.
    edestruct IH as [w' [mx' [mn' E]]].
    + intros c' Hc'. apply Hs. right. exact Hc'.
    + rewrite E. cbn. do 3 eexists. reflexivity.
Qed.

(** The final [max] is above the initial one and above every score. *)
Lemma first_loop_max (window : list Connection.t) (ratio : bool) :
  forall (mx : R) (mn : pyfloat) w' mx' mn',
    Connections.first_loop window ratio mx mn = Return (w', mx', mn') ->
    (mx <= mx')%R /\
    forall c' s, In c' w' -> Connection.ratio_absolute c' = Val s ->
                 (s <= mx')%R.
Proof.
  induction window as [|c window IH]; intros mx mn w' mx' mn' H; cbn in H.
  - inversion H; subst. split; [lra|]. intros c' s [].
  - destruct (Connections.score c ratio) as [s|e] eqn:Es; cbn in H;
      [|discriminate].
    destruct (Connections.first_loop window ratio _ _)
      as [[[rest mx1] mn1]|e] eqn:Er; cbn in H; [|discriminate].
    inversion H; subst. apply IH in Er. destruct Er as [Hle Hall].
    destruct (Rgt_dec s mx) as [Hgt|Hngt].
    + split; [lra|]. intros c' s' [<-|Hin] Hs'.
      * cbn in Hs'. inversion Hs'; subst. lra.
      * eapply Hall; eassumption.
    + split; [lra|]. intros c' s' [<-|Hin] Hs'.
      * cbn in Hs'. inversion Hs'; subst. lra.
      * eapply Hall; eassumption.
Qed.

(** The final [min], started at infinity or at a number, is a number below
    every score once the window is not empty, and one of the scores unless
    it is the initial value. *)
Lemma first_loop_min (window : list Connection.t) (ratio : bool) :
  forall (mx : R) (mn : pyfloat) w' mx' mn',
    mn <> NaN ->
    Connections.first_loop window ratio mx mn = Return (w', mx', mn') ->
    mn' <> NaN /\
    (w' <> [] -> exists m', mn' = Finite m') /\
    (forall m, mn = Finite m -> exists m', mn' = Finite m' /\ (m' <= m)%R) /\
    (forall m' c' s, mn' = Finite m' -> In c' w' ->
                     Connection.ratio_absolute c' = Val s -> (m' <= s)%R) /\
    (mn' = mn \/
     exists c' m', In c' w' /\ mn' = Finite m' /\
                   Connection.ratio_absolute c' = Val m').
Proof.
  induction window as [|c window IH]; intros mx mn w' mx' mn' Hnan H;
    cbn in H.
  - inversion H; subst. repeat split.
    + assumption.
    + intros C. contradiction.
    + intros m ->. exists m. split; [reflexivity | lra].
    + intros m' c' s _ [].
    + left. reflexivity.
  - destruct (Connections.score c ratio) as [s|e] eqn:Es; cbn in H;
      [|discriminate].
    destruct (Connections.first_loop window ratio _ _)
      as [[[rest mx1] mn1]|e] eqn:Er; cbn in H; [|discriminate].
    inversion H; subst. clear H.
    destruct (Connections.lt_pyfloat s mn) eqn:Elt.
    + apply IH in Er; [|discriminate].
      destruct Er as [N [_ [Hfin [Hall Hatt]]]].
      destruct (Hfin s eq_refl) as [m' [-> Hm']].
      repeat split.
      * discriminate.
      * intros _. exists m'. reflexivity.
      * intros m ->. exists m'. split; [reflexivity|].
        apply lt_pyfloat_true in Elt.
        destruct Elt as [C|[m0 [E0 Hlt]]]; [discriminate|].
        inversion E0; subst. lra.
      * intros m0 c' s' E0 [<-|Hin] Hs'.
        -- cbn in Hs'. inversion Hs'; inversion E0; subst. assumption.
        -- eapply Hall; eassumption.
      * right. destruct Hatt as [E|[c' [m0 [Hin [E0 Hs']]]]].
        -- inversion E; subst.
           exists (Connection.with_ratio_absolute s c), s.
           repeat split. left. reflexivity.
        -- exists c', m0. repeat split; [right|..]; assumption.
    + apply lt_pyfloat_false in Elt.
      destruct Elt as [C|[m0 [-> Hle]]]; [contradiction|].
      apply IH in Er; [|discriminate].
      destruct Er as [N [_ [Hfin [Hall Hatt]]]].
      destruct (Hfin m0 eq_refl) as [m' [-> Hm']].
      repeat split.
      * discriminate.
      * intros _. exists m'. reflexivity.
      * intros m E. inversion E; subst. exists m'. split; [reflexivity|lra].
      * intros m1 c' s' E1 [<-|Hin] Hs'.
        -- cbn in Hs'. inversion Hs'; inversion E1; subst. lra.
        -- eapply Hall; eassumption.
      * destruct Hatt as [E|[c' [m1 [Hin [E1 Hs']]]]].
        -- left. assumption.
        -- right. exists c', m1. repeat split; [right|..]; assumption.
Qed.

(** ** The second loop of get_geojson *)

Lemma clamp_idem (self : list Connection.t) (limit : Z) :
  Spec.clamp self (Spec.clamp self limit) = Spec.clamp self limit.
Proof.
  unfold Spec.clamp. destruct (limit >? Py.len self) eqn:E.
  - rewrite Z.gtb_ltb, Z.ltb_irrefl. reflexivity.
  - rewrite E. reflexivity.
Qed.

(** The loop appends one feature per connection of the window, in order. *)
Lemma second_loop_features (self window : list Connection.t) :
  forall (limit : Z) (mx : R) (mn : pyfloat) (acc fs : list feature),
    Connections.second_loop self window limit mx mn acc = Return fs ->
    exists fs', fs = (acc ++ fs')%list /\
                Forall2 (Spec.feature_of self limit mx mn) window fs'.
Proof.
  induction window as [|c window IH]; intros limit mx mn acc fs H; cbn in H.
  - inversion H; subst. exists []. rewrite app_nil_r. split; constructor.
  - fold (Spec.clamp self limit) in H.
    destruct (Connections.icon_size self _ c) as [size|e] eqn:Ei; cbn in H;
      [|discriminate].
    destruct (Connections.color_index _ mx mn) as [ci|e] eqn:Ec; cbn in H;
      [|discriminate].
    destruct (Lib.mean _) as [m|e] eqn:Em; cbn in H; [|discriminate].
    destruct (Connections.geometry _) as [xy|e] eqn:Eg; cbn in H;
      [|discriminate].
    apply IH in H. destruct H as [fs' [-> HF]].
    eexists (_ :: fs'). rewrite <- app_assoc. split; [reflexivity|].
    constructor.
    + unfold Spec.feature_of; cbn. repeat split; try assumption.
      exists ci. split; [assumption | reflexivity].
    + eapply Forall2_impl; [|exact HF].
      intros c' f'. unfold Spec.feature_of. rewrite clamp_idem. tauto.
Qed.

Lemma scored_length (self w' : list Connection.t) (limit : Z) :
  List.length w' = List.length (Py.slice0 self limit) ->
  List.length (Connections.scored self w' limit) = List.length self.
Proof.
  intros E. unfold Connections.scored.
  rewrite length_app, length_skipn, E.
  destruct (slice0_prefix self limit) as [n [-> _]].
  rewrite length_firstn. lia.
Qed.

(** After the first loop the window of the second loop is the list of
    scored connections. *)
Lemma slice0_scored (self w' : list Connection.t) (limit : Z) :
  List.length w' = List.length (Py.slice0 self limit) ->
  Py.slice0 (Connections.scored self w' limit) limit = w'.
Proof.
  intros E. pose proof (scored_length self w' limit E) as EL.
  destruct (slice0_prefix self limit) as [n [Es Hn]].
  rewrite (Hn _ EL). unfold Connections.scored.
  rewrite Es in *. rewrite length_firstn in *.
  destruct (Nat.le_gt_cases n (List.length self)) as [Hle|Hgt].
  - rewrite Nat.min_l in * by assumption.
    rewrite <- E. rewrite firstn_app, Nat.sub_diag, firstn_O, app_nil_r.
    apply firstn_all.
  - rewrite Nat.min_r in * by lia.
    rewrite skipn_all, app_nil_r. apply firstn_all2. lia.
Qed.

(** What a successful [get_geojson] did. *)
Lemma get_geojson_inv (self self' : Connections.t) (limit : Z) (ratio : bool)
  (g : geojson) :
  Connections.get_geojson self limit ratio = Return (self', g) ->
  exists w' mx mn,
    Connections.first_loop
      (Py.slice0 (Connections.connections self) limit) ratio 0%R PosInf
    = Return (w', mx, mn) /\
    Connections.connections self'
    = Connections.scored (Connections.connections self) w' limit /\
    Py.slice0 (Connections.connections self') limit = w' /\
    type g = "FeatureCollection" /\
    Forall2 (Spec.feature_of (Connections.connections self') limit mx mn)
            w' (features g).
Proof.
  unfold Connections.get_geojson. intros H.
  destruct (Connections.first_loop _ ratio 0%R PosInf)
    as [[[w' mx] mn]|e] eqn:E1; cbn in H; [|discriminate].
  pose proof (first_loop_scores _ _ _ _ _ _ _ E1) as HF.
  apply Forall2_length in HF. symmetry in HF.
  rewrite (slice0_scored _ _ _ HF) in H.
  destruct (Connections.second_loop _ w' limit mx mn [])
    as [fs|e] eqn:E2; cbn in H; [|discriminate].
  inversion H; subst. cbn.
  apply second_loop_features in E2. destruct E2 as [fs' [-> HF2]].
  exists w', mx, mn. repeat split; try assumption.
  apply slice0_scored. assumption.
Qed.

(** ** Display sizes *)

Lemma Forall2_nth_error_l {A B} (P : A -> B -> Prop) (l : list A)
  (l' : list B) :
  Forall2 P l l' ->
  forall n a, nth_error l n = Some a ->
              exists b, nth_error l' n = Some b /\ P a b.
Proof.
  induction 1 as [|x y l l' Hxy HF IH]; intros n a Hn.
  - destruct n; discriminate.
  - destruct n as [|n]; cbn in *.
    + inversion Hn; subst. exists y. split; [reflexivity | assumption].
    + apply IH. assumption.
Qed.

Lemma Forall2_compose {A B C} (P : A -> B -> Prop) (Q : B -> C -> Prop)
  (R : A -> C -> Prop) :
  (forall a b c, P a b -> Q b c -> R a c) ->
  forall l l' l'', Forall2 P l l' -> Forall2 Q l' l'' -> Forall2 R l l''.
Proof.
  intros H l l' l'' HP. revert l''.
  induction HP as [|a b l l' Hab HP IH]; intros l'' HQ.
  - inversion HQ; subst. constructor.
  - inversion HQ; subst. constructor; [eapply H; eassumption|].
    apply IH. assumption.
Qed.

Lemma clamp_window (self : list Connection.t) (limit : Z) :
  0 < limit -> self <> [] ->
  0 < Spec.clamp self limit /\
  Py.len (Py.slice0 self limit) = Spec.clamp self limit /\
  Py.slice0 self (Spec.clamp self limit) = Py.slice0 self limit.
Proof.
  intros Hl Hne.
  assert (0 < Py.len self).
  { unfold Py.len. destruct self; [contradiction | cbn; lia]. }
  repeat split.
  - unfold Spec.clamp. destruct (limit >? Py.len self); lia.
  - rewrite slice0_length by lia. unfold Spec.clamp.
    destruct (limit >? Py.len self) eqn:E.
    + apply Z.gtb_lt in E. lia.
    + rewrite Z.gtb_ltb in E. apply Z.ltb_ge in E. lia.
  - apply slice0_clamp. lia.
Qed.

(** Lines 328-334 compute the label the specification describes: the
    thresholds are the populations at the two ranks of the window. *)
Lemma icon_size_label (self : list Connection.t) (limit : Z) :
  0 < limit -> self <> [] ->
  exists cl cm,
    nth_error (Py.slice0 self limit)
      (Z.to_nat (Spec.large_rank (Spec.clamp self limit))) = Some cl /\
    nth_error (Py.slice0 self limit)
      (Z.to_nat (Spec.medium_rank (Spec.clamp self limit))) = Some cm /\
    forall c,
      Connections.icon_size self (Spec.clamp self limit) c
      = Return (Spec.size_label
                  (City.population (Connection.to_city c))
                  (City.population (Connection.to_city cl))
                  (City.population (Connection.to_city cm))).
Proof.
  intros Hl Hne.
  destruct (clamp_window self limit Hl Hne) as [HL [Hlen Hw]].
  set (L := Spec.clamp self limit) in *.
  assert (Hr1 : 0 <= Spec.large_rank L < Py.len (Py.slice0 self limit)).
  { unfold Spec.large_rank. rewrite Hlen. split.
    - apply Z.div_pos; lia.
    - assert ((L - 1) / 3 <= L - 1) by (apply Z.div_le_upper_bound; lia).
      lia. }
  assert (Hr2 : 0 <= Spec.medium_rank L < Py.len (Py.slice0 self limit)).
  { unfold Spec.medium_rank. rewrite Hlen. split.
    - apply Z.div_pos; lia.
    - assert (2 * (L - 1) / 3 <= L - 1)
        by (apply Z.div_le_upper_bound; lia).
      lia. }
  destruct (index_in_range _ _ Hr1) as [cl [Il Nl]].
  destruct (index_in_range _ _ Hr2) as [cm [Im Nm]].
  exists cl, cm. repeat split; try assumption.
  intros c. unfold Connections.icon_size. rewrite Hw.
  replace ((L - 1) * 2 / 3) with (Spec.medium_rank L)
    by (unfold Spec.medium_rank; f_equal; lia).
  fold (Spec.large_rank L). rewrite Im, Il. cbn [obind].
  unfold Spec.size_label.
  destruct (City.population (Connection.to_city c)
            >? City.population (Connection.to_city cl));
    destruct (City.population (Connection.to_city c)
              >? City.population (Connection.to_city cm)); reflexivity.
Qed.

(** C7: with a positive limit and at least one connection, the window is
    the first [min(limit, len)] connections; the populations at ranks
    [(L-1)/3] and [2(L-1)/3] of that window are the thresholds; every
    connection gets the label "large" exactly when its population exceeds
    the first, "medium" when it exceeds the second without being "large",
    and "small" otherwise, and that label is the feature's marker size.
    For [L = 9] the ranks are 2 and 5. *)
Theorem marker_size_by_population_rank
  (self : Connections.t) (limit : Z) (ratio : bool) :
  0 < limit -> Connections.connections self <> [] ->
  let window := Py.slice0 (Connections.connections self) limit in
  let L := Py.len window in
  let population c := City.population (Connection.to_city c) in
  L = Z.min limit (Py.len (Connections.connections self)) /\
  (exists cl cm,
      nth_error window (Z.to_nat (Spec.large_rank L)) = Some cl /\
      nth_error window (Z.to_nat (Spec.medium_rank L)) = Some cm /\
      (forall c,
          Connections.icon_size (Connections.connections self) L c
          = Return (Spec.size_label (population c) (population cl)
                      (population cm))) /\
      (forall self' g,
          Connections.get_geojson self limit ratio = Return (self', g) ->
          Forall2 (fun c f =>
                     marker_size f
                     = Spec.size_label (population c) (population cl)
                         (population cm))
                  window (features g))) /\
  Spec.large_rank 9 = 2 /\ Spec.medium_rank 9 = 5.
Proof.
  intros Hl Hne window L population.
  destruct (clamp_window _ limit Hl Hne) as [HL [Hlen Hw]].
  split; [apply slice0_length; lia|].
  split; [|split; reflexivity].
  destruct (icon_size_label _ limit Hl Hne) as [cl [cm [Nl [Nm Hi]]]].
  unfold L, window. rewrite Hlen.
  exists cl, cm. repeat split; try assumption.
  intros self' g Hg.
  destruct (get_geojson_inv _ _ _ _ _ Hg)
    as [w' [mx [mn [E1 [Es [Ew [_ HF]]]]]]].
  pose proof (first_loop_scores _ _ _ _ _ _ _ E1) as HS.
  assert (Hlen' : List.length (Connections.connections self')
                  = List.length (Connections.connections self)).
  { rewrite Es. apply scored_length. symmetry.
    apply (Forall2_length HS). }
  assert (Hne' : Connections.connections self' <> []).
  { intros C. rewrite C in Hlen'. destruct (Connections.connections self);
      [contradiction | discriminate]. }
  destruct (icon_size_label _ limit Hl Hne') as [cl' [cm' [Nl' [Nm' Hi']]]].
  assert (Ec : Spec.clamp (Connections.connections self') limit
               = Spec.clamp (Connections.connections self) limit).
  { unfold Spec.clamp, Py.len. rewrite Hlen'. reflexivity. }
  rewrite Ew, Ec in Nl', Nm'.
  destruct (Forall2_nth_error_l _ _ _ HS _ _ Nl) as [b [Nb [s [_ Eb]]]].
  destruct (Forall2_nth_error_l _ _ _ HS _ _ Nm) as [b' [Nb' [s' [_ Eb']]]].
  rewrite Nb in Nl'. rewrite Nb' in Nm'. inversion Nl'; inversion Nm'; subst.
  clear Nl' Nm'.
  eapply Forall2_compose; [|exact HS|exact HF].
  intros c c' f [sc [_ Hc]] [Hsize _]. cbn beta in *.
  rewrite Hi' in Hsize. inversion Hsize. subst c'. reflexivity.
Qed.

(** ** Scores *)

Lemma fold_left_add (l : list Z) (a : Z) :
  fold_left Z.add l a = a + fold_right Z.add 0 l.
Proof.
  revert a. induction l as [|x l IH]; intros a; cbn.
  - lia.
  - rewrite IH. lia.
Qed.

(** [statistics.mean] is the arithmetic mean. *)
Lemma mean_arithmetic (l : list Z) :
  l <> [] -> Lib.mean l = Return (Spec.arithmetic_mean l).
Proof.
  intros H. unfold Lib.mean, Spec.arithmetic_mean, Py.sum, Py.len.
  destruct l as [|x l]; [contradiction|].
  rewrite fold_left_add, Z.add_0_l, INR_IZR_INZ. reflexivity.
Qed.

Lemma div_nonzero (x y : R) : y <> 0%R -> Lib.div x y = Return (x / y)%R.
Proof.
  intros H. unfold Lib.div. destruct (Req_EM_T y 0); [contradiction|].
  reflexivity.
Qed.

Lemma div_zero (x y : R) : y = 0%R -> Lib.div x y = Raise ZeroDivisionError.
Proof.
  intros H. unfold Lib.div. destruct (Req_EM_T y 0); [|contradiction].
  reflexivity.
Qed.

(** The score of lines 304-307 in the words of the specification. *)
Lemma score_spec (c : Connection.t) (ratio : bool) :
  Connection.connections_times c <> [] ->
  (ratio = true -> Connection.distance c <> 0%R) ->
  Connections.score c ratio
  = Return (if ratio
            then (Spec.arithmetic_mean (Connection.connections_times c)
                  / Connection.distance c)%R
            else Spec.arithmetic_mean (Connection.connections_times c)).
Proof.
  intros Ht Hd. unfold Connections.score.
  rewrite (mean_arithmetic _ Ht). destruct ratio; [|reflexivity].
  cbn [obind]. apply div_nonzero. apply Hd. reflexivity.
Qed.

(** A score can only be computed from a non-empty batch. *)
Lemma score_mean (c : Connection.t) (ratio : bool) (s : R) :
  Connections.score c ratio = Return s ->
  exists m, Lib.mean (Connection.connections_times c) = Return m.
Proof.
  unfold Connections.score. destruct ratio.
  - destruct (Lib.mean _) as [m|e]; [|discriminate]. intros _. exists m.
    reflexivity.
  - intros H. exists s. assumption.
Qed.

Lemma Forall2_impl_in {A B} (P Q : A -> B -> Prop) (l : list A)
  (l' : list B) :
  (forall a b, In a l -> P a b -> Q a b) ->
  Forall2 P l l' -> Forall2 Q l l'.
Proof.
  intros H HF. induction HF as [|a b l l' Hab HF IH]; constructor.
  - apply H; [left; reflexivity | assumption].
  - apply IH. intros a' b' Hin. apply H. right. assumption.
Qed.

Lemma score_sample_absolute (c : Connection.t) :
  Connection.connections_times c = [3600; 1800] ->
  Connections.score c false = Return 2700%R.
Proof.
  intros Hc. unfold Connections.score, Lib.mean. rewrite Hc.
  f_equal. unfold Py.sum, Py.len. cbn. lra.
Qed.

Lemma score_sample_ratio (c : Connection.t) :
  Connection.connections_times c = [3600; 1800] ->
  Connection.distance c = 50%R ->
  Connections.score c true = Return 54%R.
Proof.
  intros Hc Hd. unfold Connections.score, Lib.mean. rewrite Hc, Hd.
  cbn [obind]. rewrite div_nonzero by lra.
  f_equal. unfold Py.sum, Py.len. cbn. lra.
Qed.

(** ** The object that get_geojson leaves behind *)

(** The loop read as an outcome forgets the objects when it raises. *)
Lemma first_loop_run_outcome (window : list Connection.t) (ratio : bool) :
  forall (mx : R) (mn : pyfloat),
    Connections.first_loop window ratio mx mn
    = match Connections.first_loop_run window ratio mx mn with
      | (w', Return (mx', mn')) => Return (w', mx', mn')
      | (_, Raise e) => Raise e
      end.
Proof.
  induction window as [|c window IH]; intros mx mn; [reflexivity|].
  cbn [Connections.first_loop Connections.first_loop_run].
  destruct (Connections.score c ratio) as [s|e]; [|reflexivity].
  cbn [obind]. rewrite IH.
  destruct (Connections.first_loop_run window ratio _ _)
    as [rest [[mx' mn']|e]]; reflexivity.
Qed.

Lemma first_loop_run_length (window : list Connection.t) (ratio : bool) :
  forall (mx : R) (mn : pyfloat),
    List.length (fst (Connections.first_loop_run window ratio mx mn))
    = List.length window.
Proof.
  induction window as [|c window IH]; intros mx mn; [reflexivity|].
  cbn [Connections.first_loop_run].
  destruct (Connections.score c ratio) as [s|e]; [|reflexivity].
  specialize (IH (if Rgt_dec s mx then s else mx)
                 (if Connections.lt_pyfloat s mn then Finite s else mn)).
  destruct (Connections.first_loop_run window ratio _ _) as [rest r].
  cbn [fst List.length] in *. rewrite IH. reflexivity.
Qed.

(** [get_geojson] is the run with the object dropped on a raise. *)
Lemma get_geojson_run_outcome (self : Connections.t) (limit : Z)
  (ratio : bool) :
  Connections.get_geojson self limit ratio
  = match Connections.get_geojson_run self limit ratio with
    | (self', Return g) => Return (self', g)
    | (_, Raise e) => Raise e
    end.
Proof.
  unfold Connections.get_geojson, Connections.get_geojson_run.
  rewrite first_loop_run_outcome.
  destruct (Connections.first_loop_run _ ratio 0%R PosInf)
    as [w' [[mx mn]|e]]; [|reflexivity].
  cbn [obind].
  destruct (Connections.second_loop _ _ limit mx mn []) as [fs|e];
    reflexivity.
Qed.

(** A connection that the loop reaches leaves it with its score, whatever
    happens later. *)
Lemma first_loop_run_nth (window : list Connection.t) (ratio : bool) :
  forall (i : nat) (c : Connection.t) (mx : R) (mn : pyfloat),
    nth_error window i = Some c ->
    (forall j cj, (j <= i)%nat -> nth_error window j = Some cj ->
                  exists s, Connections.score cj ratio = Return s) ->
    exists s,
      Connections.score c ratio = Return s /\
      nth_error (fst (Connections.first_loop_run window ratio mx mn)) i
      = Some (Connection.with_ratio_absolute s c).
Proof.
  induction window as [|c0 window IH]; intros i c mx mn Hi Hpre.
  - destruct i; discriminate.
  - cbn [Connections.first_loop_run].
    destruct (Hpre O c0 (Nat.le_0_l i) eq_refl) as [s0 E0]. rewrite E0.
    destruct i as [|i].
    + cbn in Hi. inversion Hi; subst c0. exists s0. split; [exact E0|].
      destruct (Connections.first_loop_run window ratio _ _) as [rest r].
      reflexivity.
    + cbn [nth_error] in Hi.
      destruct (IH i c (if Rgt_dec s0 mx then s0 else mx)
                  (if Connections.lt_pyfloat s0 mn then Finite s0 else mn)
                  Hi) as [s [Es En]].
      { intros j cj Hj Hnj. apply (Hpre (S j) cj); [lia | exact Hnj]. }
      exists s. split; [exact Es|].
      destruct (Connections.first_loop_run window ratio _ _) as [rest r].
      exact En.
Qed.

(** C1: every connection of the window that the first loop reaches, that
    is, one with a non-empty batch (and a non-zero great-circle distance in
    ratio mode) after connections that have the same, gets the arithmetic
    mean of its durations, divided by the great-circle distance in ratio
    mode, stored in [ratio_absolute]; the score stays on the object whether
    the method later returns or raises.  Nothing else of the connection
    changes.  For the durations 3600 and 1800 the score is 2700, and 54 in
    ratio mode at distance 50. *)
Theorem score_is_mean_duration
  (self : Connections.t) (limit : Z) (ratio : bool) (i : nat)
  (c : Connection.t) :
  let window := Py.slice0 (Connections.connections self) limit in
  let mean := Spec.arithmetic_mean (Connection.connections_times c) in
  let s := if ratio then (mean / Connection.distance c)%R else mean in
  nth_error window i = Some c ->
  (forall j cj, (j <= i)%nat -> nth_error window j = Some cj ->
                Connection.connections_times cj <> [] /\
                (ratio = true -> Connection.distance cj <> 0%R)) ->
  (exists c',
      nth_error
        (Connections.connections
           (fst (Connections.get_geojson_run self limit ratio))) i
      = Some c' /\
      Connection.ratio_absolute c' = Val s /\
      c' = Connection.with_ratio_absolute s c) /\
  (forall self' g,
      Connections.get_geojson self limit ratio = Return (self', g) ->
      exists c',
        nth_error (Connections.connections self') i = Some c' /\
        Connection.ratio_absolute c' = Val s) /\
  (Connection.connections_times c = [3600; 1800] ->
   (ratio = false -> s = 2700%R) /\
   (ratio = true -> Connection.distance c = 50%R -> s = 54%R)).
Proof.
  intros window mean s Hi Hpre.
  assert (Hrun : exists c',
             nth_error
               (Connections.connections
                  (fst (Connections.get_geojson_run self limit ratio))) i
             = Some c' /\
             Connection.ratio_absolute c' = Val s /\
             c' = Connection.with_ratio_absolute s c).
  { destruct (first_loop_run_nth window ratio i c 0%R PosInf Hi)
      as [s' [Es En]].
    { intros j cj Hj Hnj. destruct (Hpre j cj Hj Hnj) as [Ht Hd].
      eexists. apply score_spec; assumption. }
    destruct (Hpre i c (Nat.le_refl i) Hi) as [Ht Hd].
    rewrite (score_spec c ratio Ht Hd) in Es. inversion Es. subst s'.
    fold mean in En. fold s in En.
    exists (Connection.with_ratio_absolute s c).
    split; [|split; reflexivity].
    unfold Connections.get_geojson_run. fold window.
    pose proof (first_loop_run_length window ratio 0%R PosInf) as Hlen.
    destruct (Connections.first_loop_run window ratio 0%R PosInf)
      as [w' r]. cbn [fst] in *. cbn [Connections.connections].
    unfold Connections.scored. rewrite nth_error_app1; [exact En|].
    apply nth_error_Some. rewrite En. discriminate. }
  split; [exact Hrun|]. split.
  - intros self' g Hg. rewrite get_geojson_run_outcome in Hg.
    destruct Hrun as [c' [Hn [Hr _]]].
    destruct (Connections.get_geojson_run self limit ratio)
      as [self1 [g1|e]]; [|discriminate].
    inversion Hg; subst. exists c'. split; assumption.
  - intros Hc. subst s mean. rewrite Hc.
    unfold Spec.arithmetic_mean. cbn [fold_right List.length INR].
    split.
    + intros ->. cbn. lra.
    + intros -> ->. cbn. lra.
Qed.

(** ** Normalization *)

Lemma Forall2_in_r {A B} (P : A -> B -> Prop) (l : list A) (l' : list B) :
  Forall2 P l l' -> forall b, In b l' -> exists a, In a l /\ P a b.
Proof.
  induction 1 as [|x y l l' Hxy HF IH]; intros b Hb.
  - destruct Hb.
  - destruct Hb as [<-|Hb].
    + exists x. split; [left; reflexivity | assumption].
    + destruct (IH b Hb) as [a [Ha Pa]]. exists a. split; [right|]; assumption.
Qed.

(** When every score of a non-empty window is the same non-negative number,
    both bounds end up equal to it. *)
Lemma first_loop_constant (window : list Connection.t) (ratio : bool)
  (s : R) :
  (forall c, In c window -> Connections.score c ratio = Return s) ->
  forall (mx : R) (mn : pyfloat),
    (mx <= s)%R ->
    (mn = PosInf \/ exists m, mn = Finite m /\ (s <= m)%R) ->
    Connections.first_loop window ratio mx mn
    = Return (map (Connection.with_ratio_absolute s) window,
              match window with [] => mx | _ => s end,
              match window with [] => mn | _ => Finite s end).
Proof.
  induction window as [|c window IH]; intros Hs mx mn Hmx Hmn.
  - reflexivity.
  - cbn [Connections.first_loop].
    rewrite (Hs c (or_introl eq_refl)). cbn [obind].
    assert (Emx : (if Rgt_dec s mx then s else mx) = s).
    { destruct (Rgt_dec s mx); [reflexivity | lra]. }
    assert (Emn : (if Connections.lt_pyfloat s mn then Finite s else mn)
                  = Finite s).
    { destruct Hmn as [->|[m [-> Hm]]]; [reflexivity|].
      cbn. destruct (Rlt_dec s m); [reflexivity|].
      f_equal. lra. }
    rewrite Emx, Emn.
    rewrite IH.
    + cbn [obind map]. destruct window; reflexivity.
    + intros c' Hc'. apply Hs. right. assumption.
    + lra.
    + right. exists s. split; [reflexivity | lra].
Qed.

(** With equal bounds the first turn of the second loop divides by zero. *)
Lemma get_geojson_equal_scores (self : Connections.t) (limit : Z)
  (ratio : bool) (s : R) :
  0 < limit -> Connections.connections self <> [] -> (0 <= s)%R ->
  (forall c, In c (Py.slice0 (Connections.connections self) limit) ->
             Connections.score c ratio = Return s) ->
  Connections.get_geojson self limit ratio = Raise ZeroDivisionError.
Proof.
  intros Hl Hne Hs Hall. unfold Connections.get_geojson.
  rewrite (first_loop_constant _ ratio s Hall) by (auto; lra).
  cbn [obind].
  set (window := Py.slice0 (Connections.connections self) limit) in *.
  set (w' := map (Connection.with_ratio_absolute s) window).
  assert (Hlen : List.length w' = List.length window)
    by apply length_map.
  assert (Hw : window <> []).
  { unfold window. rewrite slice0_positive by lia.
    destruct (Connections.connections self); [contradiction|].
    destruct (Z.to_nat limit) eqn:E; [lia | discriminate]. }
  rewrite (slice0_scored _ _ _ Hlen).
  assert (Hne' : Connections.scored (Connections.connections self) w' limit
                 <> []).
  { pose proof (scored_length _ _ _ Hlen) as EL. intros C. rewrite C in EL.
    destruct (Connections.connections self); [contradiction|discriminate]. }
  destruct (icon_size_label _ limit Hl Hne') as [cl [cm [_ [_ Hi]]]].
  destruct window as [|c window]; [contradiction|].
  cbn [map w' Connections.second_loop].
  fold (Spec.clamp (Connections.scored (Connections.connections self)
                      (map (Connection.with_ratio_absolute s) (c :: window))
                      limit) limit).
  change (Connection.with_ratio_absolute s c
          :: map (Connection.with_ratio_absolute s) window)
    with (map (Connection.with_ratio_absolute s) (c :: window)).
  fold w'. rewrite Hi. cbn [obind].
  cbn [Connection.ratio_absolute Connection.with_ratio_absolute
       Connections.color_index].
  rewrite div_zero by lra. reflexivity.
Qed.

(** C2 as the code has it: when every connection of a non-empty window has
    the same non-negative score (in particular when the window holds a
    single connection), so that the two bounds are equal, [get_geojson]
    stops with a division error and assigns no position to any entry. *)
Theorem equal_bounds_raise_division_error
  (self : Connections.t) (limit : Z) (ratio : bool) (s : R) :
  0 < limit -> Connections.connections self <> [] -> (0 <= s)%R ->
  (forall c, In c (Py.slice0 (Connections.connections self) limit) ->
             Connections.score c ratio = Return s) ->
  Connections.first_loop (Py.slice0 (Connections.connections self) limit)
    ratio 0%R PosInf
  = Return (map (Connection.with_ratio_absolute s)
              (Py.slice0 (Connections.connections self) limit),
            s, Finite s) /\
  Connections.get_geojson self limit ratio = Raise ZeroDivisionError.
Proof.
  intros Hl Hne Hs Hall. split.
  - rewrite (first_loop_constant _ ratio s Hall) by (auto; lra).
    rewrite slice0_positive by lia.
    destruct (Connections.connections self); [contradiction|].
    destruct (Z.to_nat limit) eqn:E; [lia | reflexivity].
  - apply (get_geojson_equal_scores self limit ratio s); assumption.
Qed.

Lemma equal_bounds_raise_division_error_witness :
  Connections.get_geojson Sample.one_destination 1 false
  = Raise ZeroDivisionError.
Proof.
  apply (equal_bounds_raise_division_error Sample.one_destination 1 false
           2700%R).
  - lia.
  - discriminate.
  - lra.
  - intros c [<-|[]]. apply score_sample_absolute. reflexivity.
Defined.

(** C2 fails on a window of one destination: the bounds are both 2700 and
    the method raises instead of assigning position 0. *)
Lemma single_destination_raises :
  Connections.first_loop
    (Py.slice0 (Connections.connections Sample.one_destination) 1)
    false 0%R PosInf
  = Return ([Connection.with_ratio_absolute 2700 Sample.to_brno],
            2700%R, Finite 2700) /\
  Connections.get_geojson Sample.one_destination 1 false
  = Raise ZeroDivisionError /\
  ~ (exists self' g,
        Connections.get_geojson Sample.one_destination 1 false
        = Return (self', g)).
Proof.
  assert (H : forall c,
             In c (Py.slice0 (Connections.connections
                                Sample.one_destination) 1) ->
             Connections.score c false = Return 2700%R).
  { intros c [<-|[]]. apply score_sample_absolute. reflexivity. }
  assert (E : Connections.get_geojson Sample.one_destination 1 false
              = Raise ZeroDivisionError).
  { apply (get_geojson_equal_scores _ 1 false 2700%R);
      [lia | discriminate | lra | exact H]. }
  split; [|split].
  - rewrite (first_loop_constant _ false 2700%R H) by (auto; lra).
    reflexivity.
  - exact E.
  - intros [self' [g C]]. rewrite E in C. discriminate.
Qed.

(** The hue of line 341 in the form of the specification. *)
Lemma color_of_hue (t : R) :
  Connections.color_of (Finite t) = hsl (Finite (Spec.hue_at t)) 1 0.5.
Proof.
  unfold Connections.color_of, Spec.hue_at. do 2 f_equal. ring.
Qed.

Lemma position_range (s m mx : R) :
  (m <= s <= mx)%R -> (m < mx)%R -> (0 <= Spec.position s m mx <= 1)%R.
Proof.
  intros [H1 H2] H3. unfold Spec.position.
  assert (0 < / (mx - m))%R by (apply Rinv_0_lt_compat; lra).
  assert ((mx - m) * / (mx - m) = 1)%R by (apply Rinv_r; lra).
  unfold Rdiv. split; nra.
Qed.

Lemma first_loop_max_attained (window : list Connection.t) (ratio : bool) :
  forall (mx : R) (mn : pyfloat) w' mx' mn',
    Connections.first_loop window ratio mx mn = Return (w', mx', mn') ->
    mx' = mx \/
    exists c', In c' w' /\ Connection.ratio_absolute c' = Val mx'.
Proof.
  induction window as [|c window IH]; intros mx mn w' mx' mn' H; cbn in H.
  - inversion H; subst. left. reflexivity.
  - destruct (Connections.score c ratio) as [s|e] eqn:Es; cbn in H;
      [|discriminate].
    destruct (Connections.first_loop window ratio _ _)
      as [[[rest mx1] mn1]|e] eqn:Er; cbn in H; [|discriminate].
    inversion H; subst. clear H. apply IH in Er.
    destruct Er as [E | [c' [Hin Hc']]].
    + destruct (Rgt_dec s mx).
      * right. exists (Connection.with_ratio_absolute s c).
        split; [left; reflexivity|]. rewrite E. reflexivity.
      * left. exact E.
    + right. exists c'. split; [right|]; assumption.
Qed.

Lemma Forall2_in_l {A B} (P : A -> B -> Prop) (l : list A) (l' : list B) :
  Forall2 P l l' -> forall a, In a l -> exists b, In b l' /\ P a b.
Proof.
  induction 1 as [|x y l l' Hxy HF IH]; intros a Ha.
  - destruct Ha.
  - destruct Ha as [<-|Ha].
    + exists y. split; [left; reflexivity | assumption].
    + destruct (IH a Ha) as [b [Hb Pb]]. exists b. split; [right|]; assumption.
Qed.

(** A mean of durations that are not negative is not negative. *)
Lemma arithmetic_mean_nonneg (l : list Z) :
  Forall (fun d => 0 <= d) l -> (0 <= Spec.arithmetic_mean l)%R.
Proof.
  intros H. unfold Spec.arithmetic_mean.
  assert (Hs : 0 <= fold_right Z.add 0 l).
  { induction H as [|d l Hd _ IH]; cbn; lia. }
  apply IZR_le in Hs.
  destruct l as [|d l].
  - cbn. unfold Rdiv. rewrite Rinv_0. lra.
  - apply Rmult_le_pos; [exact Hs|].
    left. apply Rinv_0_lt_compat. apply lt_0_INR. cbn. lia.
Qed.

(** With durations and a distance that are not negative, so is the
    score. *)
Lemma score_nonneg (c : Connection.t) (ratio : bool) (s : R) :
  Forall (fun d => 0 <= d) (Connection.connections_times c) ->
  (0 <= Connection.distance c)%R ->
  Connections.score c ratio = Return s -> (0 <= s)%R.
Proof.
  intros Ht Hd Hs. unfold Connections.score in Hs.
  pose proof (arithmetic_mean_nonneg _ Ht) as Hm.
  destruct (Connection.connections_times c) as [|t ts] eqn:Et.
  { destruct ratio; discriminate. }
  rewrite mean_arithmetic in Hs by discriminate.
  destruct ratio.
  - cbn [obind] in Hs. unfold Lib.div in Hs.
    destruct (Req_EM_T (Connection.distance c) 0) as [E|N]; [discriminate|].
    inversion Hs. apply Rmult_le_pos; [exact Hm|].
    left. apply Rinv_0_lt_compat. lra.
  - inversion Hs. subst s. exact Hm.
Qed.

(** C6: after a successful [get_geojson], [min] is the least score of the
    window and [max] the greatest, or 0 when no score is above 0 (the
    search of line 292 starts at 0); every feature carries the hue
    0.3333 x (1 - t) for the position t = (score - min) / (max - min) of its
    connection, and t lies between 0 and 1; a score equal to the minimum
    gets hue 0.3333, a score equal to the maximum hue 0; saturation is 1 and
    lightness 0.5.  A non-empty collection has an entry whose score is the
    minimum, with hue 0.3333; and when no duration and no distance of the
    window is negative, as in every trip record, [max] is the greatest score
    and an entry has it, with hue 0. *)
Theorem position_in_unit_interval_and_hue
  (self self' : Connections.t) (limit : Z) (ratio : bool) (g : geojson) :
  Connections.get_geojson self limit ratio = Return (self', g) ->
  let window := Py.slice0 (Connections.connections self) limit in
  let entry (w' : list Connection.t) (s h : R) :=
    exists i c' f,
      nth_error w' i = Some c' /\ nth_error (features g) i = Some f /\
      Connection.ratio_absolute c' = Val s /\
      hue (marker_color f) = Finite h in
  exists (w' : list Connection.t) (mx : R) (mn : pyfloat),
    Connections.first_loop window ratio 0%R PosInf = Return (w', mx, mn) /\
    Forall2
      (fun c' f =>
         exists s m,
           Connection.ratio_absolute c' = Val s /\ mn = Finite m /\
           (m <= s <= mx)%R /\
           let t := Spec.position s m mx in
           (0 <= t <= 1)%R /\
           marker_color f = hsl (Finite (Spec.hue_at t)) 1 0.5 /\
           (s = m -> hue (marker_color f) = Finite 0.3333) /\
           (s = mx -> hue (marker_color f) = Finite 0))
      w' (features g) /\
    (features g <> [] ->
     exists m,
       mn = Finite m /\ (m < mx)%R /\ (0 <= mx)%R /\
       entry w' m 0.3333%R /\
       (mx = 0%R \/ entry w' mx 0%R) /\
       ((forall c, In c window ->
                   Forall (fun d => 0 <= d) (Connection.connections_times c) /\
                   (0 <= Connection.distance c)%R) ->
        entry w' mx 0%R)).
Proof.
  intros Hg window entry.
  destruct (get_geojson_inv _ _ _ _ _ Hg)
    as [w' [mx [mn [E1 [_ [_ [_ HF]]]]]]].
  fold window in E1.
  exists w', mx, mn. split; [exact E1|].
  pose proof (first_loop_scores _ _ _ _ _ _ _ E1) as HS.
  pose proof (first_loop_max _ _ _ _ _ _ _ E1) as [Hmx0 Hmax].
  pose proof (first_loop_max_attained _ _ _ _ _ _ _ E1) as Hmaxat.
  assert (Hnan : PosInf <> NaN) by discriminate.
  pose proof (first_loop_min _ _ _ _ _ _ _ Hnan E1)
    as [_ [Hfin [_ [Hmin Hminat]]]].
  assert (HF' : Forall2
            (fun c' f =>
               exists s m,
                 Connection.ratio_absolute c' = Val s /\ mn = Finite m /\
                 (m <= s <= mx)%R /\ (m < mx)%R /\
                 marker_color f
                 = hsl (Finite (Spec.hue_at (Spec.position s m mx))) 1 0.5)
            w' (features g)).
  { eapply Forall2_impl_in; [|exact HF].
    intros c' f Hin [_ [[ci [Eci Ecol]] _]].
    destruct (Forall2_in_r _ _ _ HS c' Hin) as [c [_ [s [_ Ec']]]].
    assert (Es : Connection.ratio_absolute c' = Val s)
      by (subst c'; reflexivity).
    destruct Hfin as [m Em].
    { intros C. rewrite C in Hin. destruct Hin. }
    subst mn. exists s, m.
    pose proof (Hmax c' s Hin Es) as H2.
    pose proof (Hmin m c' s eq_refl Hin Es) as H1.
    rewrite Es in Eci. cbn in Eci. unfold Lib.div in Eci.
    destruct (Req_EM_T (mx - m) 0) as [C|Hnz]; [discriminate|].
    cbn in Eci. inversion Eci; subst ci. clear Eci.
    fold (Spec.position s m mx) in Ecol. rewrite color_of_hue in Ecol.
    repeat split; try assumption. lra. }
  assert (Hat : forall c' s m,
             In c' w' -> Connection.ratio_absolute c' = Val s ->
             mn = Finite m ->
             entry w' s (Spec.hue_at (Spec.position s m mx))).
  { intros c' s m Hin Es Em.
    destruct (In_nth_error _ _ Hin) as [i Hi].
    destruct (Forall2_nth_error_l _ _ _ HF' _ _ Hi)
      as [f [Hf [s' [m' [Es' [Em' [_ [_ Hcol]]]]]]]].
    rewrite Es in Es'. inversion Es'; subst s'.
    rewrite Em in Em'. inversion Em'; subst m'.
    exists i, c', f. repeat split; try assumption.
    rewrite Hcol. reflexivity. }
  split.
  - eapply Forall2_impl; [|exact HF'].
    intros c' f [s [m [Es [Em [Hr [Hlt Hcol]]]]]].
    exists s, m. repeat split; try assumption; try apply Hr.
    + apply position_range; assumption.
    + apply position_range; assumption.
    + intros ->. rewrite Hcol. cbn. f_equal.
      unfold Spec.hue_at, Spec.position. field. lra.
    + intros ->. rewrite Hcol. cbn. f_equal.
      unfold Spec.hue_at, Spec.position. field. lra.
  - intros Hne.
    assert (Hw : w' <> []).
    { intros C. rewrite C in HF. inversion HF as [E|]. congruence. }
    destruct Hfin as [m Em]; [exact Hw|].
    exists m. split; [exact Em|].
    assert (Hlt : (m < mx)%R).
    { destruct w' as [|c0 w0]; [contradiction|].
      inversion HF' as [|? ? ? ? [s [m' [_ [Em' [_ [Hlt _]]]]]]]; subst.
      inversion Em'; subst m'. exact Hlt. }
    assert (E0 : Spec.hue_at (Spec.position m m mx) = 0.3333%R).
    { unfold Spec.hue_at, Spec.position. field. lra. }
    assert (E1' : Spec.hue_at (Spec.position mx m mx) = 0%R).
    { unfold Spec.hue_at, Spec.position. field. lra. }
    split; [exact Hlt|]. split; [exact Hmx0|]. split; [|split].
    + destruct Hminat as [C | [c' [m' [Hin [Em' Es]]]]].
      { rewrite Em in C. discriminate. }
      rewrite Em in Em'. inversion Em'; subst m'.
      rewrite <- E0. apply (Hat c' m m Hin Es Em).
    + destruct Hmaxat as [E | [c' [Hin Es]]]; [left; exact E|].
      right. rewrite <- E1'. apply (Hat c' mx m Hin Es Em).
    + intros Hpos.
      destruct Hmaxat as [E | [c' [Hin Es]]].
      * destruct w' as [|c0 w0]; [contradiction|].
        destruct (Forall2_in_r _ _ _ HS c0 (or_introl eq_refl))
          as [c [Hc [s [Es Ec0]]]].
        destruct (Hpos c Hc) as [Ht Hd].
        pose proof (score_nonneg c ratio s Ht Hd Es) as Hs.
        assert (Er : Connection.ratio_absolute c0 = Val s)
          by (subst c0; reflexivity).
        pose proof (Hmax c0 s (or_introl eq_refl) Er).
        assert (Esx : s = mx) by lra. subst s.
        rewrite <- E1'. apply (Hat c0 mx m (or_introl eq_refl) Er Em).
      * rewrite <- E1'. apply (Hat c' mx m Hin Es Em).
Qed.

(** ** When get_geojson succeeds *)

Lemma second_loop_total (self window : list Connection.t) (mx m : R) :
  self <> [] -> m <> mx ->
  (forall c, In c window ->
             (exists s, Connection.ratio_absolute c = Val s) /\
             (exists mt, Lib.mean (Connection.connections_times c)
                         = Return mt) /\
             City.coordinates (Connection.to_city c) <> Unset) ->
  forall (limit : Z) (acc : list feature),
    0 < limit ->
    exists fs,
      Connections.second_loop self window limit mx (Finite m) acc = Return fs.
Proof.
  intros Hne Hm. induction window as [|c window IH]; intros Hall limit acc Hl.
  - eexists. reflexivity.
  - cbn [Connections.second_loop]. fold (Spec.clamp self limit).
    destruct (icon_size_label self limit Hl Hne) as [cl [cm [_ [_ Hi]]]].
    rewrite Hi. cbn [obind].
    destruct (Hall c (or_introl eq_refl)) as [[s Es] [[mt Emt] Hxy]].
    rewrite Es. cbn [Connections.color_index].
    rewrite div_nonzero by lra. cbn [obind]. rewrite Emt. cbn [obind].
    unfold Connections.geometry.
    destruct (clamp_window self limit Hl Hne) as [HL _].
    destruct (City.coordinates (Connection.to_city c)) eqn:Exy;
      [contradiction|..]; cbn [obind];
      (apply IH; [intros c' Hc'; apply Hall; right; assumption | exact HL]).
Qed.

(** [get_geojson] returns a feature collection when the limit is positive,
    every connection of the window has a score and a destination with
    coordinates, and two of the scores differ. *)
Lemma get_geojson_total (self : Connections.t) (limit : Z) (ratio : bool) :
  let window := Py.slice0 (Connections.connections self) limit in
  0 < limit ->
  (forall c, In c window ->
             (exists s, Connections.score c ratio = Return s) /\
             City.coordinates (Connection.to_city c) <> Unset) ->
  (exists c1 c2 s1 s2,
      In c1 window /\ In c2 window /\
      Connections.score c1 ratio = Return s1 /\
      Connections.score c2 ratio = Return s2 /\ s1 <> s2) ->
  exists self' g, Connections.get_geojson self limit ratio = Return (self', g).
Proof.
  intros window Hl Hall [c1 [c2 [s1 [s2 [H1 [H2 [E1 [E2 Hd]]]]]]]].
  destruct (first_loop_total window ratio) with (mx := 0%R) (mn := PosInf)
    as [w' [mx [mn E]]].
  { intros c Hc. apply Hall. assumption. }
  pose proof (first_loop_scores _ _ _ _ _ _ _ E) as HS.
  pose proof (first_loop_max _ _ _ _ _ _ _ E) as [_ Hmax].
  assert (Hnan : PosInf <> NaN) by discriminate.
  pose proof (first_loop_min _ _ _ _ _ _ _ Hnan E)
    as [_ [Hfin [_ [Hmin _]]]].
  destruct (Forall2_in_r _ _ _ (Forall2_flip HS) c1 H1)
    as [c1' [Hin1 [t1 [Et1 Ec1]]]].
  destruct (Forall2_in_r _ _ _ (Forall2_flip HS) c2 H2)
    as [c2' [Hin2 [t2 [Et2 Ec2]]]].
  rewrite E1 in Et1. rewrite E2 in Et2. inversion Et1; inversion Et2.
  subst t1 t2.
  destruct Hfin as [m Em].
  { intros C. rewrite C in Hin1. destruct Hin1. }
  subst mn.
  assert (R1 : Connection.ratio_absolute c1' = Val s1)
    by (subst c1'; reflexivity).
  assert (R2 : Connection.ratio_absolute c2' = Val s2)
    by (subst c2'; reflexivity).
  pose proof (Hmax _ _ Hin1 R1). pose proof (Hmax _ _ Hin2 R2).
  pose proof (Hmin _ _ _ eq_refl Hin1 R1).
  pose proof (Hmin _ _ _ eq_refl Hin2 R2).
  assert (Hm : m <> mx) by lra.
  assert (Hlen : List.length w' = List.length window)
    by (symmetry; apply (Forall2_length HS)).
  assert (Hne : Connections.connections self <> []).
  { intros C. unfold window in H1. rewrite C in H1.
    unfold Py.slice0 in H1. destruct (limit <? 0); rewrite firstn_nil in H1;
      destruct H1. }
  assert (Hne' : Connections.scored (Connections.connections self) w' limit
                 <> []).
  { pose proof (scored_length _ _ _ Hlen) as EL. intros C. rewrite C in EL.
    destruct (Connections.connections self); [contradiction|discriminate]. }
  destruct (second_loop_total _ w' mx m Hne' Hm) with (limit := limit)
                                                       (acc := @nil feature)
    as [fs Efs].
  { intros c' Hc'.
    destruct (Forall2_in_r _ _ _ HS c' Hc') as [c [Hc [s [Es Ec']]]].
    destruct (Hall c Hc) as [_ Hxy].
    destruct (score_mean _ _ _ Es) as [mt Emt].
    subst c'. repeat split; try assumption.
    - exists s. reflexivity.
    - exists mt. exact Emt. }
  { exact Hl. }
  unfold Connections.get_geojson. fold window. rewrite E. cbn [obind].
  rewrite (slice0_scored _ _ _ Hlen), Efs. cbn [obind].
  do 2 eexists. reflexivity.
Qed.

Lemma two_destinations_geojson :
  exists self' g,
    Connections.get_geojson Sample.two_destinations 2 false
    = Return (self', g).
Proof.
  apply get_geojson_total.
  - lia.
  - intros c [<-|[<-|[]]]; (split; [|discriminate]).
    + exists 2700%R. apply score_sample_absolute. reflexivity.
    + exists 12600%R. unfold Connections.score, Lib.mean. cbn.
      f_equal. unfold Py.sum, Py.len. cbn. lra.
  - exists Sample.to_brno, Sample.to_ostrava, 2700%R, 12600%R.
    repeat split.
    + left. reflexivity.
    + right. left. reflexivity.
    + apply score_sample_absolute. reflexivity.
    + unfold Connections.score, Lib.mean. cbn.
      f_equal. unfold Py.sum, Py.len. cbn. lra.
    + lra.
Qed.

(** ** The theorems above at sample inputs *)

Lemma score_is_mean_duration_witness :
  (exists c',
      nth_error
        (Connections.connections
           (fst (Connections.get_geojson_run Sample.two_destinations 2 true)))
        0
      = Some c' /\
      Connection.ratio_absolute c' = Val 54%R) /\
  (exists c',
      nth_error
        (Connections.connections
           (fst (Connections.get_geojson_run Sample.one_destination 1 false)))
        0
      = Some c' /\
      Connection.ratio_absolute c' = Val 2700%R) /\
  Connections.get_geojson Sample.one_destination 1 false
  = Raise ZeroDivisionError.
Proof.
  split; [|split].
  - destruct (score_is_mean_duration Sample.two_destinations 2 true 0
                Sample.to_brno eq_refl) as [[c' [Hn [Hr _]]] [_ Hs]].
    + intros j cj Hj Hnj. assert (j = 0%nat) by lia. subst j.
      cbn in Hnj. inversion Hnj; subst cj.
      split; [discriminate | intros _; cbn; lra].
    + exists c'. split; [exact Hn|]. rewrite Hr. f_equal.
      destruct (Hs eq_refl) as [_ H54]. apply H54; reflexivity.
  - destruct (score_is_mean_duration Sample.one_destination 1 false 0
                Sample.to_brno eq_refl) as [[c' [Hn [Hr _]]] [_ Hs]].
    + intros j cj Hj Hnj. assert (j = 0%nat) by lia. subst j.
      cbn in Hnj. inversion Hnj; subst cj.
      split; [discriminate | intros C; discriminate].
    + exists c'. split; [exact Hn|]. rewrite Hr. f_equal.
      destruct (Hs eq_refl) as [H2700 _]. apply H2700; reflexivity.
  - apply (get_geojson_equal_scores _ 1 false 2700%R);
      [lia | discriminate | lra |].
    intros c [<-|[]]. apply score_sample_absolute. reflexivity.
Defined.

Lemma position_in_unit_interval_and_hue_witness :
  exists (g : geojson) (f1 f2 : feature),
    nth_error (features g) 0 = Some f1 /\
    hue (marker_color f1) = Finite 0.3333 /\
    nth_error (features g) 1 = Some f2 /\
    hue (marker_color f2) = Finite 0.
Proof.
  destruct two_destinations_geojson as [self' [g Hg]].
  destruct (position_in_unit_interval_and_hue
              Sample.two_destinations self' 2 false g Hg)
    as [w' [mx [mn [E [HF Hends]]]]].
  change (Py.slice0 (Connections.connections Sample.two_destinations) 2)
    with [Sample.to_brno; Sample.to_ostrava] in E, Hends.
  assert (S1 : Connections.score Sample.to_brno false = Return 2700%R).
  { apply score_sample_absolute. reflexivity. }
  assert (S2 : Connections.score Sample.to_ostrava false = Return 12600%R).
  { unfold Connections.score, Lib.mean. cbn.
    f_equal. unfold Py.sum, Py.len. cbn. lra. }
  cbn [Connections.first_loop] in E. rewrite S1, S2 in E.
  cbn [obind Connections.lt_pyfloat] in E.
  destruct (Rgt_dec 2700 0) as [_|N]; [|exfalso; apply N; lra].
  destruct (Rgt_dec 12600 2700) as [_|N]; [|exfalso; apply N; lra].
  destruct (Rlt_dec 12600 2700) as [C|_]; [exfalso; lra|].
  inversion E; subst w' mx mn. clear E.
  destruct (features g) as [|f1 [|f2 fs]] eqn:Ef;
    [exfalso; inversion HF
    | exfalso; inversion HF as [|? ? ? ? _ HF']; inversion HF' |].
  destruct Hends as [m [Em [_ [_ [Hgreen [_ Hred]]]]]]; [discriminate|].
  injection Em as <-.
  exists g, f1, f2. rewrite Ef. cbn [nth_error].
  destruct Hgreen as [i [c' [f [Hi [Hf [Hs Hh]]]]]].
  destruct Hred as [j [c2 [f' [Hj [Hf' [Hs' Hh']]]]]].
  { intros c [<-|[<-|[]]];
      (split;
       [repeat (constructor; [lia|]); constructor
       | cbn [Connection.distance Sample.to_brno Sample.to_ostrava
              Sample.connection]; lra]). }
  assert (Ei : i = 0%nat).
  { destruct i as [|[|i]]; [reflexivity | exfalso | destruct i; discriminate].
    cbn in Hi. inversion Hi; subst c'. cbn in Hs. inversion Hs. lra. }
  assert (Ej : j = 1%nat).
  { destruct j as [|[|j]]; [exfalso | reflexivity | destruct j; discriminate].
    cbn in Hj. inversion Hj; subst c2. cbn in Hs'. inversion Hs'. lra. }
  subst i j. cbn in Hf, Hf'. inversion Hf; inversion Hf'; subst f f'.
  repeat split; assumption.
Defined.

Lemma marker_size_by_population_rank_witness :
  exists cl cm,
    nth_error (Py.slice0 (Connections.connections Sample.nine_destinations) 9)
      2 = Some cl /\
    nth_error (Py.slice0 (Connections.connections Sample.nine_destinations) 9)
      5 = Some cm /\
    forall c,
      Connections.icon_size (Connections.connections Sample.nine_destinations)
        9 c
      = Return (Spec.size_label
                  (City.population (Connection.to_city c))
                  (City.population (Connection.to_city cl))
                  (City.population (Connection.to_city cm))).
Proof.
  assert (H0 : 0 < 9) by lia.
  assert (H1 : Connections.connections Sample.nine_destinations <> [])
    by discriminate.
  destruct (marker_size_by_population_rank Sample.nine_destinations 9 false
              H0 H1)
    as [_ [[cl [cm [Hl [Hm [Hi _]]]]] _]].
  exists cl, cm. split; [exact Hl|]. split; [exact Hm | exact Hi].
Defined.

(** In the window of nine the thresholds are the populations of Plzen and
    Ceske Budejovice: Brno and Ostrava are large, Plzen to Olomouc medium,
    the rest small. *)
Example nine_destinations_sizes :
  map (fun c => Connections.icon_size
                  (Connections.connections Sample.nine_destinations) 9 c)
      (Connections.connections Sample.nine_destinations)
  = map Return ["large"; "large"; "medium"; "medium"; "medium";
                "small"; "small"; "small"; "small"].
Proof. reflexivity. Qed.

(** * Extraction *)

(** ** One box *)

(** Reading a box can only stop on a missing attribute or on the subscript
    of line 127. *)
Lemma box_record_raises (b : PageElement) (e : exn) :
  Spec.box_record b = Raise e ->
  e = AttributeError \/ e = IndexError "list index out of range".
Proof.
  unfold Spec.box_record, Connection.box_time, Connection.box_distance,
    Connection.box_p, Connection.group1_int.
  cbn [Bs4.dot obind].
  destruct (Bs4.find "div" b) as [d1|]; cbn [Bs4.dot obind];
    [|intros H; inversion H; auto].
  destruct (Bs4.find "div" d1) as [d2|]; cbn [Bs4.dot obind];
    [|intros H; inversion H; auto].
  destruct (Bs4.find "label" d2) as [l|]; cbn [Bs4.dot obind];
    [|intros H; inversion H; auto].
  destruct (Bs4.find "p" l) as [p|]; cbn [Bs4.dot obind Bs4.getText];
    [|intros H; inversion H; auto].
  destruct (Bs4.find "strong" p) as [s1|]; cbn [Bs4.dot obind Bs4.getText];
    [|intros H; inversion H; auto].
  unfold Py.index. cbn [Z.ltb Z.compare].
  destruct (nth_error (Bs4.find_all "strong" p) (Z.to_nat 1)) as [s2|];
    cbn [obind Bs4.getText]; [|intros H; inversion H; auto].
  destruct (Re.search_number " km" (Bs4.text s2)); cbn [obind];
    intros H; inversion H; auto.
Qed.

(** The body of the inner [try] appends to both lists when the box yields a
    record and leaves the object as it was when it does not: everything that
    can raise comes before the first append. *)
Lemma parse_connection_record (b : PageElement) (s : Connection.state) :
  Connection.parse_connection b s
  = match Spec.box_record b with
    | Return r =>
        (Connection.mkstate (Spec.with_records [r] (Connection.self s))
           (Connection.stdout s), Return tt)
    | Raise e => (s, Raise e)
    end.
Proof.
  unfold Connection.parse_connection, Spec.box_record, Connection.bind,
    Connection.lift, Connection.modify.
  destruct (Connection.box_time b) as [time|e]; cbn [obind]; [|reflexivity].
  destruct (Connection.box_distance b) as [distance|e]; cbn [obind];
    [|reflexivity].
  destruct (Connection.group1_int " km" distance) as [km|e]; cbn [obind];
    reflexivity.
Qed.

(** One turn of the loop: a record is appended, or the box is skipped with
    its line on the output, or another exception leaves the loop. *)
Lemma try_connection_record (url : string) (b : PageElement)
  (s : Connection.state) :
  Connection.try_connection url b s
  = match Spec.box_record b with
    | Return r =>
        (Connection.mkstate (Spec.with_records [r] (Connection.self s))
           (Connection.stdout s), Return tt)
    | Raise e =>
        if Connection.is_IndexError e
        then (Connection.mkstate (Connection.self s)
                (Connection.stdout s
                 ++ [Lib.print ["Bad formatted connection box for stops:";
                                City.name (Connection.from_city
                                             (Connection.self s));
                                "--";
                                City.name (Connection.to_city
                                             (Connection.self s));
                                "for URL:"; url]]),
              Return tt)
        else (s, Raise e)
    end.
Proof.
  unfold Connection.try_connection, Connection.try_except.
  rewrite parse_connection_record.
  destruct (Spec.box_record b) as [r|e]; [reflexivity|].
  destruct (Connection.is_IndexError e); reflexivity.
Qed.

Lemma with_records_nil (c : Connection.t) : Spec.with_records [] c = c.
Proof.
  destruct c. unfold Spec.with_records. cbn. rewrite !app_nil_r. reflexivity.
Qed.

Lemma with_records_app (rs1 rs2 : list (Z * Z)) (c : Connection.t) :
  Spec.with_records rs2 (Spec.with_records rs1 c)
  = Spec.with_records (rs1 ++ rs2) c.
Proof.
  unfold Spec.with_records. cbn. rewrite !map_app, !app_assoc. reflexivity.
Qed.

(** ** The loop over the boxes *)

Lemma for_each_tolerated (url : string) (boxes : list PageElement) :
  Spec.first_fatal boxes = None ->
  forall s : Connection.state,
    Connection.for_each boxes (Connection.try_connection url) s
    = (Connection.mkstate
         (Spec.with_records (Spec.records boxes) (Connection.self s))
         (Connection.stdout s
          ++ map (fun _ =>
                    Lib.print ["Bad formatted connection box for stops:";
                               City.name (Connection.from_city
                                            (Connection.self s));
                               "--";
                               City.name (Connection.to_city
                                            (Connection.self s));
                               "for URL:"; url])
                 (filter Spec.skipped boxes)),
       Return tt).
Proof.
  induction boxes as [|b boxes IH]; intros Hf s.
  - cbn. rewrite with_records_nil, app_nil_r. destruct s. reflexivity.
  - cbn [Connection.for_each]. unfold Connection.bind.
    rewrite try_connection_record.
    cbn [Spec.first_fatal] in Hf. cbn [Spec.records flat_map filter].
    unfold Spec.skipped at 1.
    destruct (Spec.box_record b) as [r|e].
    + rewrite (IH Hf). cbn [Connection.self Connection.stdout].
      rewrite with_records_app. reflexivity.
    + destruct e; cbn [Connection.is_IndexError] in *; try discriminate.
      rewrite (IH Hf). cbn [Connection.self Connection.stdout app map].
      rewrite <- app_assoc. reflexivity.
Qed.

Lemma for_each_fatal (url : string) (boxes : list PageElement) (e : exn) :
  Spec.first_fatal boxes = Some e ->
  forall s : Connection.state,
  exists s',
    Connection.for_each boxes (Connection.try_connection url) s
    = (s', Raise e).
Proof.
  induction boxes as [|b boxes IH]; intros Hf s; [discriminate|].
  cbn [Connection.for_each]. unfold Connection.bind.
  rewrite try_connection_record. cbn [Spec.first_fatal] in Hf.
  destruct (Spec.box_record b) as [r|e'].
  - apply IH. assumption.
  - destruct (Connection.is_IndexError e').
    + apply IH. assumption.
    + inversion Hf; subst. eexists. reflexivity.
Qed.

Lemma first_fatal_attribute (boxes : list PageElement) (e : exn) :
  Spec.first_fatal boxes = Some e -> e = AttributeError.
Proof.
  induction boxes as [|b boxes IH]; [discriminate|]. cbn.
  destruct (Spec.box_record b) as [r|e'] eqn:E; [assumption|].
  destruct (box_record_raises b e' E) as [->| ->]; cbn.
  - intros H. inversion H. reflexivity.
  - assumption.
Qed.

(** ** The outer try *)

Lemma len_zero {A} (l : list A) : (Py.len l =? 0) = true <-> l = [].
Proof.
  unfold Py.len. destruct l; cbn; split; intros H; try reflexivity;
    discriminate.
Qed.

(** No matched box: the [IOError] of line 116 is caught by line 161. *)
Lemma extraction_no_boxes (soup : PageElement) (url : string)
  (s : Connection.state) :
  Bs4.find_all_boxes soup = [] ->
  Connection.extraction soup url s
  = (Connection.mkstate
       (Connection.with_connections [] (Connection.self s))
       (Connection.stdout s
        ++ [Lib.print ["Bad formatted HTML for stops:";
                       City.name (Connection.from_city (Connection.self s));
                       "--";
                       City.name (Connection.to_city (Connection.self s));
                       "for URL:"; url]]),
     Return None).
Proof.
  intros E. unfold Connection.extraction. rewrite E. reflexivity.
Qed.

(** Boxes that all yield a record or are skipped: the result is the object
    with the records appended, or [None] when a list is empty. *)
Lemma extraction_tolerated (soup : PageElement) (url : string)
  (s : Connection.state) :
  Bs4.find_all_boxes soup <> [] ->
  Spec.first_fatal (Bs4.find_all_boxes soup) = None ->
  let boxes := Bs4.find_all_boxes soup in
  let c' := Spec.with_records (Spec.records boxes)
              (Connection.with_connections boxes (Connection.self s)) in
  Connection.extraction soup url s
  = (Connection.mkstate c'
       (Connection.stdout s
        ++ map (fun _ =>
                  Lib.print ["Bad formatted connection box for stops:";
                             City.name (Connection.from_city
                                          (Connection.self s));
                             "--";
                             City.name (Connection.to_city
                                          (Connection.self s));
                             "for URL:"; url])
               (filter Spec.skipped boxes)),
     Return (if (Py.len (Connection.connections_times c') =? 0)
                || (Py.len (Connection.connections_distances c') =? 0)
             then None else Some c')).
Proof.
  intros Hne Hf boxes c'.
  unfold Connection.extraction, Connection.try_except, Connection.bind,
    Connection.modify, Connection.get, Connection.raise, Connection.ret.
  cbn [Connection.self Connection.stdout Connection.connections
       Connection.with_connections].
  fold boxes.
  destruct (Py.len boxes =? 0) eqn:E0.
  { apply len_zero in E0. contradiction. }
  rewrite (for_each_tolerated url boxes Hf).
  cbn [Connection.self Connection.stdout Connection.from_city
       Connection.to_city Connection.with_connections].
  fold c'.
  assert (Ec : Connection.connections c' = boxes) by reflexivity.
  rewrite Ec, E0. cbn [orb].
  destruct ((Py.len (Connection.connections_times c') =? 0)
            || (Py.len (Connection.connections_distances c') =? 0));
    reflexivity.
Qed.

(** A box that stops on a missing attribute ends the extraction: neither
    handler catches it. *)
Lemma extraction_fatal (soup : PageElement) (url : string)
  (s : Connection.state) (e : exn) :
  Spec.first_fatal (Bs4.find_all_boxes soup) = Some e ->
  exists s', Connection.extraction soup url s = (s', Raise AttributeError).
Proof.
  intros Hf. pose proof (first_fatal_attribute _ _ Hf) as ->.
  unfold Connection.extraction, Connection.try_except, Connection.bind,
    Connection.modify, Connection.get, Connection.raise, Connection.ret.
  cbn [Connection.self Connection.stdout Connection.connections
       Connection.with_connections].
  destruct (Py.len (Bs4.find_all_boxes soup) =? 0) eqn:E0.
  { apply len_zero in E0. rewrite E0 in Hf. discriminate. }
  destruct (for_each_fatal url _ _ Hf
              (Connection.mkstate
                 (Connection.with_connections (Bs4.find_all_boxes soup)
                    (Connection.self s))
                 (Connection.stdout s))) as [s' Es'].
  rewrite Es'. cbn. eexists. reflexivity.
Qed.

(** ** load_idos *)

Section LoadIdos.

Variable urlopen : string -> outcome response.

(** The same city on both ends: one line, no connection. *)
Lemma load_idos_same_city (s : Connection.state) :
  City.eq (Connection.from_city (Connection.self s))
          (Connection.to_city (Connection.self s)) = true ->
  Connection.load_idos urlopen s
  = (Connection.mkstate (Connection.self s)
       (Connection.stdout s ++ [Spec.same_city_line]),
     Return None).
Proof.
  intros E. unfold Connection.load_idos, Connection.bind, Connection.get.
  rewrite E. reflexivity.
Qed.

(** Different cities, a distance and a document: the rest is the
    extraction, run on the object with its distance set. *)
Lemma load_idos_fetched (s : Connection.state) (c1 : Connection.t)
  (resp : response) :
  City.eq (Connection.from_city (Connection.self s))
          (Connection.to_city (Connection.self s)) = false ->
  Connection.set_distance (Connection.self s) None None = Return c1 ->
  urlopen (Connection.url_of c1) = Return resp ->
  200 <= getcode resp < 400 ->
  Connection.load_idos urlopen s
  = Connection.extraction (soup resp) (Connection.url_of c1)
      (Connection.mkstate c1
         (Connection.stdout s ++ [Spec.getting_line c1])).
Proof.
  intros E Ed Eu [H1 H2].
  unfold Connection.load_idos, Connection.bind, Connection.get,
    Connection.lift, Connection.modify, Connection.print, Connection.ret.
  rewrite E, Ed. cbn [Connection.self Connection.stdout]. rewrite Eu.
  apply Z.leb_le in H1. apply Z.ltb_lt in H2. rewrite H1, H2.
  reflexivity.
Qed.

(** What it takes for [load_idos] to return at all. *)
Lemma load_idos_returns (s s' : Connection.state) (r : option Connection.t) :
  Connection.load_idos urlopen s = (s', Return r) ->
  City.eq (Connection.from_city (Connection.self s))
          (Connection.to_city (Connection.self s)) = true \/
  exists c1 resp,
    City.eq (Connection.from_city (Connection.self s))
            (Connection.to_city (Connection.self s)) = false /\
    Connection.set_distance (Connection.self s) None None = Return c1 /\
    urlopen (Connection.url_of c1) = Return resp /\
    200 <= getcode resp < 400.
Proof.
  intros H.
  destruct (City.eq _ _) eqn:E; [left; reflexivity | right].
  revert H.
  unfold Connection.load_idos, Connection.bind, Connection.get,
    Connection.lift, Connection.modify, Connection.print, Connection.ret,
    Connection.raise.
  rewrite E.
  destruct (Connection.set_distance _ None None) as [c1|e] eqn:Ed;
    [|discriminate].
  cbn [Connection.self Connection.stdout].
  destruct (urlopen (Connection.url_of c1)) as [resp|e] eqn:Eu;
    [|discriminate].
  destruct (200 <=? getcode resp) eqn:H1; [|discriminate].
  destruct (getcode resp <? 400) eqn:H2; [|discriminate].
  intros _. exists c1, resp.
  apply Z.leb_le in H1. apply Z.ltb_lt in H2.
  repeat split; assumption.
Qed.

End LoadIdos.

(** [set_distance] touches the distance only. *)
Lemma set_distance_fields (c c1 : Connection.t) :
  Connection.set_distance c None None = Return c1 ->
  exists d, c1 = Connection.with_distance d c.
Proof.
  unfold Connection.set_distance.
  assert (K : forall o : outcome R,
             obind o (fun d => Return (Connection.with_distance d c))
             = Return c1 ->
             exists d, c1 = Connection.with_distance d c).
  { intros [d|e] H; [|discriminate]. inversion H. exists d. reflexivity. }
  assert (K' : obind (City.coordinate (Connection.from_city c) 1)
                 (fun lat1 =>
                  obind (City.coordinate (Connection.from_city c) 0)
                    (fun lon1 =>
                     obind (City.coordinate (Connection.to_city c) 1)
                       (fun lat2 =>
                        obind (City.coordinate (Connection.to_city c) 0)
                          (fun lon2 =>
                           obind (Connection.great_circle lon1 lat1 lon2 lat2)
                             (fun d =>
                              Return (Connection.with_distance d c))))))
               = Return c1 ->
               exists d, c1 = Connection.with_distance d c).
  { destruct (City.coordinate (Connection.from_city c) 1); cbn [obind];
      [|discriminate].
    destruct (City.coordinate (Connection.from_city c) 0); cbn [obind];
      [|discriminate].
    destruct (City.coordinate (Connection.to_city c) 1); cbn [obind];
      [|discriminate].
    destruct (City.coordinate (Connection.to_city c) 0); cbn [obind];
      [|discriminate].
    apply K. }
  destruct (City.len_coordinates (Connection.to_city c)) as [lt|];
    cbn [obind]; [|discriminate].
  destruct (negb (lt =? 2)); cbn [obind]; [|exact K'].
  destruct (City.len_coordinates (Connection.from_city c)) as [lf|];
    cbn [obind]; [|discriminate].
  destruct (negb (lf =? 2)); [discriminate | exact K'].
Qed.

(** ** Sample documents *)

Example sample_url :
  Connection.url_of Sample.praha_brno
  = "https://idos.idnes.cz/vlaky/spojeni/vysledky/?date=15.09.2020&time=07:00&f=Praha&fc=1&t=Brno&tc=1".
Proof. reflexivity. Qed.

Example sample_boxes :
  Bs4.find_all_boxes
    (Sample.page [Sample.good_box; Sample.no_distance_box;
                  Sample.another_good_box])
  = [Sample.good_box; Sample.no_distance_box; Sample.another_good_box].
Proof. reflexivity. Qed.

Example sample_records :
  map Spec.box_record
    [Sample.good_box; Sample.bad_distance_box; Sample.no_distance_box;
     Sample.no_duration_box; Sample.another_good_box]
  = [Return (5400, 100); Raise AttributeError;
     Raise (IndexError "list index out of range");
     Return (0, 12); Return (2700, 60)].
Proof. reflexivity. Qed.

(** The default arguments of [set_distance] are the object's own cities. *)
Lemma set_distance_default (self : Connection.t) :
  Connection.set_distance self None None
  = Connection.set_distance self (Some (Connection.from_city self))
      (Some (Connection.to_city self)).
Proof. reflexivity. Qed.

(** With Praha and Brno in place the fetch goes through and [load_idos] is
    the extraction, whatever the document. *)
Lemma load_idos_sample (doc : PageElement) (out : list string) :
  exists d : R,
    Connection.load_idos (Sample.serve doc)
      (Connection.mkstate Sample.praha_brno out)
    = Connection.extraction doc (Connection.url_of Sample.praha_brno)
        (Connection.mkstate (Connection.with_distance d Sample.praha_brno)
           (out ++ [Spec.getting_line Sample.praha_brno])).
Proof.
  destruct (great_circle_total 14.4378 50.0755 16.6068 49.1951)
    as [d [Hd _]].
  exists d.
  apply (load_idos_fetched (Sample.serve doc)
           (Connection.mkstate Sample.praha_brno out)
           (Connection.with_distance d Sample.praha_brno)
           (mkresponse 200 doc)).
  - reflexivity.
  - cbn [Connection.self].
    change (Connection.set_distance Sample.praha_brno None None)
      with (Connection.set_distance Sample.praha_brno (Some Sample.praha)
              (Some Sample.brno)).
    rewrite (set_distance_pairs Sample.praha_brno Sample.praha Sample.brno
               14.4378 50.0755 16.6068 49.1951 eq_refl eq_refl).
    rewrite Hd. reflexivity.
  - reflexivity.
  - cbn. lia.
Qed.

(** ** How many records a document yields *)

(** When no box stops on a missing attribute, the boxes split into those
    that yield a record and those that are skipped. *)
Lemma records_count (boxes : list PageElement) :
  Spec.first_fatal boxes = None ->
  (List.length (Spec.records boxes)
   + List.length (filter Spec.skipped boxes) = List.length boxes)%nat.
Proof.
  induction boxes as [|b boxes IH]; intros Hf; [reflexivity|].
  cbn [Spec.first_fatal] in Hf. cbn [Spec.records flat_map filter].
  unfold Spec.skipped at 1.
  destruct (Spec.box_record b) as [r|e].
  - cbn. rewrite <- (IH Hf). reflexivity.
  - destruct e; cbn [Connection.is_IndexError] in Hf; try discriminate.
    cbn. rewrite <- (IH Hf). unfold Spec.records. lia.
Qed.

(** Three boxes, the second without its distance element: two records and
    one line about the skipped box. *)
Example three_boxes_one_skipped :
  exists d : R,
    Connection.load_idos
      (Sample.serve (Sample.page [Sample.good_box; Sample.no_distance_box;
                                  Sample.another_good_box]))
      (Connection.mkstate Sample.praha_brno [])
    = (Connection.mkstate
         (Connection.mk Sample.praha Sample.brno "vlaky"
            (Lib.mkdatetime 2020 9 15 7 0 0)
            [Sample.good_box; Sample.no_distance_box;
             Sample.another_good_box]
            [5400; 2700] [100; 60] d Unset)
         [Spec.getting_line Sample.praha_brno;
          Spec.bad_box_line Sample.praha_brno],
       Return
         (Some
            (Connection.mk Sample.praha Sample.brno "vlaky"
               (Lib.mkdatetime 2020 9 15 7 0 0)
               [Sample.good_box; Sample.no_distance_box;
                Sample.another_good_box]
               [5400; 2700] [100; 60] d Unset))).
Proof.
  destruct (load_idos_sample
              (Sample.page [Sample.good_box; Sample.no_distance_box;
                            Sample.another_good_box]) []) as [d E].
  exists d. rewrite E.
  rewrite extraction_tolerated; [reflexivity | discriminate | reflexivity].
Qed.

(** C4, at the failing input: a document of two boxes, the second with a
    distance text that holds no number of kilometres.  The box is not
    skipped: the [AttributeError] of line 129 passes both handlers, so
    [load_idos] and with it [Connections.__init__] stop, and no trip record
    is returned. *)
Theorem unparseable_distance_aborts_the_run :
  Spec.box_record Sample.bad_distance_box = Raise AttributeError /\
  (exists s',
      Connection.load_idos
        (Sample.serve (Sample.page [Sample.good_box;
                                    Sample.bad_distance_box]))
        (Connection.mkstate Sample.praha_brno [])
      = (s', Raise AttributeError)) /\
  (exists out,
      Connections.init
        (Sample.serve (Sample.page [Sample.good_box;
                                    Sample.bad_distance_box]))
        [Sample.brno] 1 Sample.praha "vlaky"
      = (out, Raise AttributeError)).
Proof.
  assert (H : exists s',
             Connection.load_idos
               (Sample.serve (Sample.page [Sample.good_box;
                                           Sample.bad_distance_box]))
               (Connection.mkstate Sample.praha_brno [])
             = (s', Raise AttributeError)).
  { destruct (load_idos_sample
                (Sample.page [Sample.good_box; Sample.bad_distance_box]) [])
      as [d E].
    rewrite E. apply (extraction_fatal _ _ _ AttributeError). reflexivity. }
  split; [reflexivity|]. split; [exact H|].
  destruct H as [s' Hs']. exists (Connection.stdout s').
  unfold Connections.init.
  change (Py.slice0 [Sample.brno] 1) with [Sample.brno].
  cbn [Connections.load_cities].
  change (Connection.init Sample.praha Sample.brno (Some "vlaky") None)
    with Sample.praha_brno.
  rewrite Hs'. reflexivity.
Qed.

(** ** Durations *)

(** C5 fails on the code: a box whose duration text has neither hours nor
    minutes is not a failure at all.  The document of this one box yields
    the trip record (0 s, 12 km), and [load_idos] returns the connection. *)
Lemma duration_without_components_yields_record :
  exists d : R,
    Connection.load_idos
      (Sample.serve (Sample.page [Sample.no_duration_box]))
      (Connection.mkstate Sample.praha_brno [])
    = (Connection.mkstate
         (Connection.mk Sample.praha Sample.brno "vlaky"
            (Lib.mkdatetime 2020 9 15 7 0 0)
            [Sample.no_duration_box] [0] [12] d Unset)
         [Spec.getting_line Sample.praha_brno],
       Return
         (Some
            (Connection.mk Sample.praha Sample.brno "vlaky"
               (Lib.mkdatetime 2020 9 15 7 0 0)
               [Sample.no_duration_box] [0] [12] d Unset))).
Proof.
  destruct (load_idos_sample (Sample.page [Sample.no_duration_box]) [])
    as [d E].
  exists d. rewrite E.
  rewrite extraction_tolerated; [reflexivity | discriminate | reflexivity].
Qed.

(** C5 as the code has it: the duration text never fails to parse.  For a
    box whose two texts can be read and whose distance parses, the turn of
    the loop appends the record with 3600 s per hour found plus 60 s per
    minute found, a missing component counting as 0, and goes on to the
    next box; with neither component the duration is 0. *)
Theorem duration_components_default_to_zero
  (b : PageElement) (time distance : string) (km : Z) (url : string)
  (s : Connection.state) :
  Connection.box_time b = Return time ->
  Connection.box_distance b = Return distance ->
  Connection.group1_int " km" distance = Return km ->
  let hours := match Re.search_number " hod" time with
               | Some g => Re.int_of_digits g
               | None => 0
               end in
  let minutes := match Re.search_number " min" time with
                 | Some g => Re.int_of_digits g
                 | None => 0
                 end in
  Connection.try_connection url b s
  = (Connection.mkstate
       (Spec.with_records [(hours * 3600 + minutes * 60, km)]
          (Connection.self s))
       (Connection.stdout s),
     Return tt) /\
  (Re.search_number " hod" time = None ->
   Re.search_number " min" time = None ->
   Spec.box_record b = Return (0, km)).
Proof.
  intros Ht Hd Hk hours minutes.
  assert (E : Spec.box_record b = Return (hours * 3600 + minutes * 60, km)).
  { unfold Spec.box_record. rewrite Ht, Hd. cbn [obind]. rewrite Hk.
    cbn [obind]. unfold Connection.total_seconds_of, hours, minutes.
    destruct (Re.search_number " hod" time);
      destruct (Re.search_number " min" time);
      apply f_equal; apply (f_equal (fun x => (x, km))); lia. }
  split.
  - rewrite try_connection_record, E. reflexivity.
  - intros Hh Hm. rewrite E. unfold hours, minutes. rewrite Hh, Hm.
    reflexivity.
Qed.

Lemma duration_components_default_to_zero_witness :
  Spec.box_record Sample.no_duration_box = Return (0, 12).
Proof.
  apply (duration_components_default_to_zero Sample.no_duration_box
           "soon" "12 km" 12 ""
           (Connection.mkstate Sample.praha_brno []));
    reflexivity.
Defined.

(** ** Alignment of the two lists *)

(** C10: every turn of the loop appends one entry to both lists or leaves
    both alone; and when [load_idos] returns the connection, its durations
    and distances are the old lists followed by the two halves of the same
    records, one record per box that yielded one, in document order, so the
    lists have equal length whenever they started so. *)
Theorem durations_and_distances_aligned
  (urlopen : string -> outcome response) (s s' : Connection.state)
  (c' : Connection.t) :
  Connection.load_idos urlopen s = (s', Return (Some c')) ->
  (forall url b st,
      exists out,
        Connection.try_connection url b st
        = (Connection.mkstate (Connection.self st) out, Return tt) \/
        Connection.try_connection url b st = (st, Raise AttributeError) \/
        exists r,
          Connection.try_connection url b st
          = (Connection.mkstate (Spec.with_records [r] (Connection.self st))
               out, Return tt)) /\
  exists c1 resp,
    Connection.set_distance (Connection.self s) None None = Return c1 /\
    urlopen (Connection.url_of c1) = Return resp /\
    let boxes := Bs4.find_all_boxes (soup resp) in
    let rs := Spec.records boxes in
    Spec.first_fatal boxes = None /\
    (Connection.connections_times (Connection.self s) = [] -> rs <> []) /\
    c' = Spec.with_records rs (Connection.with_connections boxes c1) /\
    Connection.connections_times c'
    = (Connection.connections_times (Connection.self s) ++ map fst rs)%list /\
    Connection.connections_distances c'
    = (Connection.connections_distances (Connection.self s)
       ++ map snd rs)%list /\
    (List.length (Connection.connections_times (Connection.self s))
     = List.length (Connection.connections_distances (Connection.self s)) ->
     List.length (Connection.connections_times c')
     = List.length (Connection.connections_distances c')).
Proof.
  intros H. split.
  - intros url b st. rewrite try_connection_record.
    destruct (Spec.box_record b) as [r|e] eqn:E.
    + eexists. right. right. exists r. reflexivity.
    + destruct (box_record_raises b e E) as [->| ->]; cbn.
      * exists []. right. left. reflexivity.
      * eexists. left. reflexivity.
  - destruct (load_idos_returns urlopen s s' _ H)
      as [Esame | [c1 [resp [Ediff [Ed [Eu Hcode]]]]]].
    { rewrite (load_idos_same_city urlopen s Esame) in H. discriminate. }
    rewrite (load_idos_fetched urlopen s c1 resp Ediff Ed Eu Hcode) in H.
    exists c1, resp. split; [exact Ed|]. split; [exact Eu|].
    cbn zeta.
    destruct (Bs4.find_all_boxes (soup resp)) as [|b0 boxes0] eqn:Eb.
    { rewrite (extraction_no_boxes _ _ _ Eb) in H. discriminate. }
    rewrite <- Eb in *.
    destruct (Spec.first_fatal (Bs4.find_all_boxes (soup resp)))
      as [e|] eqn:Ef.
    { destruct (extraction_fatal (soup resp) (Connection.url_of c1)
                  (Connection.mkstate c1
                     (Connection.stdout s ++ [Spec.getting_line c1]))
                  e Ef) as [s0 E0].
      rewrite E0 in H. discriminate. }
    rewrite extraction_tolerated in H;
      [|rewrite Eb; discriminate | exact Ef].
    cbn [Connection.self] in H.
    destruct (set_distance_fields _ _ Ed) as [d ->].
    set (boxes := Bs4.find_all_boxes (soup resp)) in *.
    set (c2 := Spec.with_records (Spec.records boxes)
                 (Connection.with_connections boxes
                    (Connection.with_distance d (Connection.self s)))) in *.
    destruct ((Py.len (Connection.connections_times c2) =? 0)
              || (Py.len (Connection.connections_distances c2) =? 0))
      eqn:Echeck; [discriminate|].
    inversion H; subst c'. clear H.
    split; [reflexivity|].
    split.
    { intros E0 C. apply orb_false_iff in Echeck. destruct Echeck as [E1 _].
      unfold c2 in E1. cbn in E1. rewrite E0, C in E1. discriminate. }
    split; [reflexivity|]. split; [reflexivity|]. split; [reflexivity|].
    intros Hlen. unfold c2. cbn. rewrite !length_app, !length_map. lia.
Qed.

Lemma durations_and_distances_aligned_witness :
  exists c' : Connection.t,
    (exists s',
        Connection.load_idos
          (Sample.serve (Sample.page [Sample.good_box;
                                      Sample.no_distance_box;
                                      Sample.another_good_box]))
          (Connection.mkstate Sample.praha_brno [])
        = (s', Return (Some c'))) /\
    List.length (Connection.connections_times c')
    = List.length (Connection.connections_distances c').
Proof.
  destruct three_boxes_one_skipped as [d E].
  eexists. split.
  - eexists. exact E.
  - destruct (durations_and_distances_aligned _ _ _ _ E)
      as [_ [c1 [resp [_ [_ [_ [_ [_ [_ [_ Hlen]]]]]]]]]].
    apply Hlen. reflexivity.
Defined.

(** ** Unusable destinations *)

Section Unusable.

Variable urlopen : string -> outcome response.

(** The ways in which [load_idos] returns, with what it printed. *)
Lemma load_idos_return_cases (s s' : Connection.state)
  (r : option Connection.t) :
  Connection.load_idos urlopen s = (s', Return r) ->
  let c := Connection.self s in
  (City.eq (Connection.from_city c) (Connection.to_city c) = true /\
   r = None /\
   Connection.stdout s'
   = (Connection.stdout s ++ [Spec.same_city_line])%list) \/
  exists d resp,
    City.eq (Connection.from_city c) (Connection.to_city c) = false /\
    urlopen (Connection.url_of c) = Return resp /\
    let boxes := Bs4.find_all_boxes (soup resp) in
    (boxes = [] /\ r = None /\
     Connection.stdout s'
     = (Connection.stdout s
        ++ [Spec.getting_line c; Spec.bad_html_line c])%list) \/
    (boxes <> [] /\ Spec.first_fatal boxes = None /\
     let c' := Spec.with_records (Spec.records boxes)
                 (Connection.with_connections boxes
                    (Connection.with_distance d c)) in
     r = (if (Py.len (Connection.connections_times c') =? 0)
             || (Py.len (Connection.connections_distances c') =? 0)
          then None else Some c') /\
     Connection.stdout s'
     = (Connection.stdout s
        ++ Spec.getting_line c
           :: map (fun _ => Spec.bad_box_line c)
                (filter Spec.skipped boxes))%list).
Proof.
  intros H c.
  destruct (load_idos_returns urlopen s s' _ H)
    as [Esame | [c1 [resp [Ediff [Ed [Eu Hcode]]]]]].
  { left. rewrite (load_idos_same_city urlopen s Esame) in H.
    inversion H. repeat split. assumption. }
  right.
  rewrite (load_idos_fetched urlopen s c1 resp Ediff Ed Eu Hcode) in H.
  destruct (set_distance_fields _ _ Ed) as [d ->]. fold c in H, Eu, Ediff.
  exists d, resp. split; [exact Ediff|]. split; [exact Eu|]. cbn zeta.
  destruct (Bs4.find_all_boxes (soup resp)) as [|b0 boxes0] eqn:Eb.
  { left. rewrite (extraction_no_boxes _ _ _ Eb) in H. inversion H.
    cbn. rewrite <- app_assoc. repeat split. }
  right. rewrite <- Eb in *.
  destruct (Spec.first_fatal (Bs4.find_all_boxes (soup resp)))
    as [e|] eqn:Ef.
  { destruct (extraction_fatal (soup resp)
                (Connection.url_of (Connection.with_distance d c))
                (Connection.mkstate (Connection.with_distance d c)
                   (Connection.stdout s
                    ++ [Spec.getting_line (Connection.with_distance d c)]))
                e Ef) as [s0 E0].
    rewrite E0 in H. discriminate. }
  rewrite extraction_tolerated in H;
    [|rewrite Eb; discriminate | exact Ef].
  inversion H. cbn [Connection.self Connection.stdout].
  rewrite <- app_assoc.
  repeat split. rewrite Eb. discriminate.
Qed.

(** A connection that [load_idos] returns leads to the city it was built
    for, which is not the origin, and the document held a record. *)
Lemma load_idos_some (origin city : City.t) (veh_type : string)
  (out : list string) (s' : Connection.state) (c' : Connection.t) :
  Connection.load_idos urlopen
    (Connection.mkstate
       (Connection.init origin city (Some veh_type) None) out)
  = (s', Return (Some c')) ->
  Connection.to_city c' = city /\
  City.eq origin city = false /\
  exists resp,
    urlopen (Connection.url_of
               (Connection.init origin city (Some veh_type) None))
    = Return resp /\
    Spec.records (Bs4.find_all_boxes (soup resp)) <> [].
Proof.
  intros H. apply load_idos_return_cases in H. cbn zeta in H.
  cbn [Connection.self] in H.
  destruct H as [[_ [C _]] | [d [resp [Ediff [Eu [[_ [C _]] | H]]]]]];
    try discriminate.
  destruct H as [_ [_ [Er _]]].
  set (boxes := Bs4.find_all_boxes (soup resp)) in *.
  destruct (Spec.records boxes) as [|r0 rs] eqn:Erec.
  { cbn in Er. discriminate. }
  cbn in Er. inversion Er. split; [reflexivity|].
  split; [exact Ediff|]. exists resp. split; [exact Eu|].
  fold boxes. rewrite Erec. discriminate.
Qed.

(** An unusable destination is skipped: no connection is returned, and
    one of the three lines is printed. *)
Lemma load_idos_unusable (origin city : City.t) (veh_type : string)
  (out : list string) (s' : Connection.state)
  (r : option Connection.t) :
  Spec.unusable urlopen origin veh_type city ->
  Connection.load_idos urlopen
    (Connection.mkstate
       (Connection.init origin city (Some veh_type) None) out)
  = (s', Return r) ->
  r = None /\
  exists line more,
    In line (Spec.diagnostics origin veh_type city) /\
    Connection.stdout s' = (out ++ more)%list /\ In line more.
Proof.
  intros Hu H. apply load_idos_return_cases in H. cbn zeta in H.
  cbn [Connection.self Connection.stdout] in H.
  set (c := Connection.init origin city (Some veh_type) None) in *.
  destruct H as [[_ [-> Hout]] | [d [resp [Ediff [Eu H]]]]].
  { split; [reflexivity|]. exists Spec.same_city_line. eexists.
    split; [left; reflexivity|]. split; [exact Hout|]. left. reflexivity. }
  destruct Hu as [Esame | [resp' [Eu' Erec]]].
  { change (City.eq origin city = false) in Ediff.
    rewrite Esame in Ediff. discriminate. }
  fold c in Eu'. rewrite Eu in Eu'. inversion Eu'; subst resp'. clear Eu'.
  destruct H as [[_ [-> Hout]] | [Hne [Hf [-> Hout]]]].
  { split; [reflexivity|]. exists (Spec.bad_html_line c). eexists.
    split; [right; left; reflexivity|]. split; [exact Hout|].
    right. left. reflexivity. }
  rewrite Erec. split; [reflexivity|].
  exists (Spec.bad_box_line c). eexists.
  split; [right; right; left; reflexivity|]. split; [exact Hout|].
  right.
  pose proof (records_count _ Hf) as Hcount. rewrite Erec in Hcount.
  destruct (filter Spec.skipped (Bs4.find_all_boxes (soup resp)))
    as [|b bs].
  - cbn in Hcount. destruct (Bs4.find_all_boxes (soup resp));
      [contradiction | discriminate].
  - left. reflexivity.
Qed.

End Unusable.

(** ** The loop of Connections.__init__ *)

Section LoadCities.

Variable urlopen : string -> outcome response.

Lemma load_idos_stdout (s s' : Connection.state)
  (r : option Connection.t) :
  Connection.load_idos urlopen s = (s', Return r) ->
  exists more, Connection.stdout s' = (Connection.stdout s ++ more)%list.
Proof.
  intros H. apply load_idos_return_cases in H. cbn zeta in H.
  destruct H as [[_ [_ E]] | [d [resp [_ [_ [[_ [_ E]] | [_ [_ [_ E]]]]]]]]];
    eexists; exact E.
Qed.

(** A run of the loop that completes called [load_idos] for every city
    and got an answer each time; the collection holds the connections
    returned, after those it started with, and the output only grew. *)
Lemma load_cities_inv (origin : City.t) (veh_type : string)
  (cities : list City.t) :
  forall (acc : list Connection.t) (out0 out : list string)
         (l : list Connection.t),
    Connections.load_cities urlopen cities origin veh_type acc out0
    = (out, Return l) ->
    (exists more, out = (out0 ++ more)%list) /\
    (forall c, In c l ->
               In c acc \/
               exists city o s',
                 In city cities /\
                 Connection.load_idos urlopen
                   (Connection.mkstate
                      (Connection.init origin city (Some veh_type) None) o)
                 = (s', Return (Some c))) /\
    (forall city, In city cities ->
                  exists o s' r rest,
                    Connection.load_idos urlopen
                      (Connection.mkstate
                         (Connection.init origin city (Some veh_type) None)
                         o)
                    = (s', Return r) /\
                    out = (Connection.stdout s' ++ rest)%list).
Proof.
  induction cities as [|city cities IH]; intros acc out0 out l H.
  - cbn in H. inversion H; subst. repeat split.
    + exists []. rewrite app_nil_r. reflexivity.
    + intros c Hc. left. assumption.
    + intros city [].
  - cbn [Connections.load_cities] in H.
    destruct (Connection.load_idos urlopen _) as [s1 [r|e]] eqn:E;
      [|discriminate].
    destruct (load_idos_stdout _ _ _ E) as [more1 Hmore1].
    cbn [Connection.stdout] in Hmore1.
    apply IH in H. destruct H as [[more Hout] [Hl Hc]].
    repeat split.
    + exists (more1 ++ more)%list. rewrite Hout, Hmore1, app_assoc.
      reflexivity.
    + intros c Hin. destruct (Hl c Hin) as [Hacc | [d [o [s' [Hd Hs']]]]].
      * destruct r as [c0|]; [|left; assumption].
        apply in_app_or in Hacc. destruct Hacc as [Hacc | [<- | []]];
          [left; assumption|].
        right. exists city, out0, s1. split; [left; reflexivity | exact E].
      * right. exists d, o, s'. split; [right; assumption | exact Hs'].
    + intros d [<- | Hd].
      * exists out0, s1, r, more. split; [exact E | exact Hout].
      * apply Hc. assumption.
Qed.

End LoadCities.

Lemma in_slice0 {A} (l : list A) (stop : Z) (a : A) :
  In a (Py.slice0 l stop) -> In a l.
Proof.
  destruct (slice0_prefix l stop) as [n [-> _]]. intros H.
  rewrite <- (firstn_skipn n l). apply in_or_app. left. exact H.
Qed.

(** The name on every feature is the name of a destination of the
    collection. *)
Lemma get_geojson_names (self self' : Connections.t) (limit : Z)
  (ratio : bool) (g : geojson) (f : feature) :
  Connections.get_geojson self limit ratio = Return (self', g) ->
  In f (features g) ->
  exists c, In c (Connections.connections self) /\
            name f = City.name (Connection.to_city c).
Proof.
  intros Hg Hf.
  destruct (get_geojson_inv _ _ _ _ _ Hg)
    as [w' [mx [mn [E1 [_ [_ [_ HF]]]]]]].
  pose proof (first_loop_scores _ _ _ _ _ _ _ E1) as HS.
  destruct (Forall2_in_r _ _ _ HF f Hf) as [c' [Hc' [_ [_ [Hn _]]]]].
  destruct (Forall2_in_r _ _ _ HS c' Hc') as [c [Hc [s [_ ->]]]].
  exists c. split; [eapply in_slice0; exact Hc | exact Hn].
Qed.

(** The address only depends on the names of the two cities, the vehicle
    type and the date. *)
Lemma url_of_names (origin city city' : City.t) (veh_type : string) :
  City.name city = City.name city' ->
  Connection.url_of (Connection.init origin city (Some veh_type) None)
  = Connection.url_of (Connection.init origin city' (Some veh_type) None).
Proof.
  intros E. unfold Connection.url_of. cbn. rewrite E. reflexivity.
Qed.

(** In a run of [Connections.__init__] that completes, a destination of
    the window that is unusable (it is the origin, or its document has no
    matched box, or none of its boxes yields a record) is reported on the
    output, no connection of the collection leads to a city of that name,
    and no feature of any feature collection made from the collection
    carries that name. *)
Lemma completed_run_skips_unusable
  (urlopen : string -> outcome response) (cities : list City.t) (limit : Z)
  (origin : City.t) (veh_type : string) (out : list string)
  (self : Connections.t) :
  Connections.init urlopen cities limit origin veh_type = (out, Return self) ->
  forall city,
    In city (Py.slice0 cities limit) ->
    Spec.unusable urlopen origin veh_type city ->
    (exists line,
        In line (Spec.diagnostics origin veh_type city) /\ In line out) /\
    (forall c, In c (Connections.connections self) ->
               City.name (Connection.to_city c) <> City.name city) /\
    (forall limit' ratio self' g f,
        Connections.get_geojson self limit' ratio = Return (self', g) ->
        In f (features g) -> name f <> City.name city).
Proof.
  intros H city Hcity Hu. unfold Connections.init in H.
  destruct (Connections.load_cities urlopen _ origin veh_type [] [])
    as [out1 [l|e]] eqn:E; [|discriminate].
  inversion H; subst out1 self. clear H.
  destruct (load_cities_inv urlopen origin veh_type _ _ _ _ _ E)
    as [_ [Hl Hc]].
  assert (Hnames : forall c, In c l ->
                     City.name (Connection.to_city c) <> City.name city).
  { intros c Hin Hname.
    destruct (Hl c Hin) as [[] | [d [o [s' [_ Hs']]]]].
    destruct (load_idos_some urlopen origin d veh_type o s' c Hs')
      as [Hto [Hdiff [resp [Eu Hrec]]]].
    subst d. destruct Hu as [Hsame | [resp' [Eu' Hrec']]].
    - unfold City.eq in *. rewrite Hname, Hsame in Hdiff. discriminate.
    - rewrite (url_of_names origin _ city veh_type Hname) in Eu.
      rewrite Eu in Eu'. inversion Eu'; subst resp'. contradiction. }
  split; [|split].
  - destruct (Hc city Hcity) as [o [s' [r [rest [Hs' Hout]]]]].
    destruct (load_idos_unusable urlopen origin city veh_type o s' r Hu Hs')
      as [_ [line [more [Hd [Hstd Hin]]]]].
    exists line. split; [exact Hd|]. rewrite Hout, Hstd.
    apply in_or_app. left. apply in_or_app. right. exact Hin.
  - exact Hnames.
  - intros limit' ratio self' g f Hg Hf Hname.
    destruct (get_geojson_names _ _ _ _ _ _ Hg Hf) as [c [Hin Hn]].
    apply (Hnames c Hin). rewrite <- Hn. exact Hname.
Qed.

(** With coordinate pairs on both cities and a document fetched,
    [load_idos] is the extraction on that document. *)
Lemma load_idos_pairs (urlopen : string -> outcome response)
  (origin city : City.t) (veh_type : string) (out : list string)
  (lonA latA lonB latB : R) (resp : response) :
  let c := Connection.init origin city (Some veh_type) None in
  City.eq origin city = false ->
  City.coordinates origin = Val [lonA; latA] ->
  City.coordinates city = Val [lonB; latB] ->
  urlopen (Connection.url_of c) = Return resp ->
  200 <= getcode resp < 400 ->
  exists d : R,
    Connection.load_idos urlopen (Connection.mkstate c out)
    = Connection.extraction (soup resp) (Connection.url_of c)
        (Connection.mkstate (Connection.with_distance d c)
           (out ++ [Spec.getting_line c])).
Proof.
  intros c Hdiff HA HB Eu Hcode.
  destruct (great_circle_total lonA latA lonB latB) as [d [Hd _]].
  exists d.
  apply (load_idos_fetched urlopen (Connection.mkstate c out)
           (Connection.with_distance d c) resp).
  - exact Hdiff.
  - cbn [Connection.self].
    change (Connection.set_distance c None None)
      with (Connection.set_distance c (Some origin) (Some city)).
    rewrite (set_distance_pairs c origin city lonA latA lonB latB HA HB).
    rewrite Hd. reflexivity.
  - exact Eu.
  - exact Hcode.
Qed.

(** A run over Praha, Brno and Ostrava from Praha: the first is the origin,
    the second has an empty page, the third is kept. *)
Lemma sample_run :
  exists out self,
    Connections.init Sample.network
      [Sample.praha; Sample.brno; Sample.ostrava] 3 Sample.praha "vlaky"
    = (out, Return self) /\
    map (fun c => City.name (Connection.to_city c))
        (Connections.connections self) = ["Ostrava"].
Proof.
  unfold Connections.init.
  change (Py.slice0 [Sample.praha; Sample.brno; Sample.ostrava] 3)
    with [Sample.praha; Sample.brno; Sample.ostrava].
  cbn [Connections.load_cities].
  rewrite load_idos_same_city by reflexivity.
  cbn [Connection.stdout Connection.self].
  destruct (load_idos_pairs Sample.network Sample.praha Sample.brno "vlaky"
              ([] ++ [Spec.same_city_line])
              14.4378 50.0755 16.6068 49.1951
              (mkresponse 200 (Sample.page []))
              eq_refl eq_refl eq_refl eq_refl)
    as [d1 E1]; [cbn; lia|].
  rewrite E1, extraction_no_boxes by reflexivity.
  cbn [Connection.stdout Connection.self].
  match goal with
  | |- context [Connection.mkstate
                  (Connection.init Sample.praha Sample.ostrava _ _) ?o] =>
      destruct (load_idos_pairs Sample.network Sample.praha Sample.ostrava
                  "vlaky" o 14.4378 50.0755 18.2625 49.8209
                  (mkresponse 200
                     (Sample.page [Sample.good_box; Sample.another_good_box]))
                  eq_refl eq_refl eq_refl eq_refl)
        as [d2 E2]; [cbn; lia|]
  end.
  rewrite E2.
  rewrite extraction_tolerated; [|discriminate | reflexivity].
  cbn. do 2 eexists. split; reflexivity.
Qed.

Example completed_run_skips_unusable_sample :
  exists out self,
    Connections.init Sample.network
      [Sample.praha; Sample.brno; Sample.ostrava] 3 Sample.praha "vlaky"
    = (out, Return self) /\
    (exists line,
        In line (Spec.diagnostics Sample.praha "vlaky" Sample.brno) /\
        In line out) /\
    (forall c, In c (Connections.connections self) ->
               City.name (Connection.to_city c) <> "Brno").
Proof.
  destruct sample_run as [out [self [E _]]].
  exists out, self. split; [exact E|].
  assert (Hin : In Sample.brno
                  (Py.slice0 [Sample.praha; Sample.brno; Sample.ostrava] 3)).
  { right. left. reflexivity. }
  assert (Hu : Spec.unusable Sample.network Sample.praha "vlaky" Sample.brno).
  { right. exists (mkresponse 200 (Sample.page [])). split; reflexivity. }
  destruct (completed_run_skips_unusable Sample.network
              [Sample.praha; Sample.brno; Sample.ostrava] 3 Sample.praha
              "vlaky" out self E Sample.brno Hin Hu)
    as [Hline [Hnames _]].
  split; [exact Hline | exact Hnames].
Qed.

(** When the first box stops on something other than an [IndexError],
    nothing is printed and the exception leaves the extraction. *)
Lemma extraction_first_fatal (soup : PageElement) (url : string)
  (s : Connection.state) (b : PageElement) (boxes : list PageElement) :
  Bs4.find_all_boxes soup = b :: boxes ->
  Spec.box_record b = Raise AttributeError ->
  Connection.extraction soup url s
  = (Connection.mkstate
       (Connection.with_connections (b :: boxes) (Connection.self s))
       (Connection.stdout s),
     Raise AttributeError).
Proof.
  intros Hb Hr.
  unfold Connection.extraction, Connection.try_except, Connection.bind,
    Connection.modify, Connection.get, Connection.raise, Connection.ret.
  cbn [Connection.self Connection.stdout Connection.connections
       Connection.with_connections].
  rewrite Hb.
  change (Py.len (b :: boxes) =? 0) with false. cbn iota.
  cbn [Connection.for_each]. unfold Connection.bind.
  rewrite try_connection_record, Hr. reflexivity.
Qed.

(** C8, at the failing input: the result page of Brno holds one box, whose
    distance text has no number of kilometres, so that no box yields a trip
    record and the destination is unusable.  It is not skipped: the
    [AttributeError] of line 129 passes both handlers and
    [Connections.__init__] stops on it, after the line that announces the
    fetch and before any of the three diagnostic lines; no collection
    exists, and Ostrava, which on its own gives a collection of one
    connection, is never visited. *)
Theorem unusable_destination_aborts_the_run :
  Spec.unusable Sample.network_with_bad_distance Sample.praha "vlaky"
    Sample.brno /\
  Connections.init Sample.network_with_bad_distance
    [Sample.brno; Sample.ostrava] 2 Sample.praha "vlaky"
  = ([Spec.getting_line Sample.praha_brno], Raise AttributeError) /\
  (forall line,
      In line (Spec.diagnostics Sample.praha "vlaky" Sample.brno) ->
      line <> Spec.getting_line Sample.praha_brno) /\
  (exists out self,
      Connections.init Sample.network_with_bad_distance
        [Sample.ostrava] 1 Sample.praha "vlaky"
      = (out, Return self) /\
      map (fun c => City.name (Connection.to_city c))
        (Connections.connections self) = ["Ostrava"]).
Proof.
  split; [|split; [|split]].
  - right. exists (mkresponse 200 (Sample.page [Sample.bad_distance_box])).
    split; reflexivity.
  - unfold Connections.init.
    change (Py.slice0 [Sample.brno; Sample.ostrava] 2)
      with [Sample.brno; Sample.ostrava].
    cbn [Connections.load_cities].
    destruct (load_idos_pairs Sample.network_with_bad_distance Sample.praha
                Sample.brno "vlaky" []
                14.4378 50.0755 16.6068 49.1951
                (mkresponse 200 (Sample.page [Sample.bad_distance_box]))
                eq_refl eq_refl eq_refl eq_refl)
      as [d E]; [cbn; lia|].
    rewrite E. cbn [soup].
    rewrite (extraction_first_fatal (Sample.page [Sample.bad_distance_box])
               _ _ Sample.bad_distance_box [] eq_refl eq_refl).
    reflexivity.
  - intros line [<-|[<-|[<-|[]]]] C; cbn in C; discriminate C.
  - unfold Connections.init.
    change (Py.slice0 [Sample.ostrava] 1) with [Sample.ostrava].
    cbn [Connections.load_cities].
    destruct (load_idos_pairs Sample.network_with_bad_distance Sample.praha
                Sample.ostrava "vlaky" [] 14.4378 50.0755 18.2625 49.8209
                (mkresponse 200
                   (Sample.page [Sample.good_box; Sample.another_good_box]))
                eq_refl eq_refl eq_refl eq_refl)
      as [d E]; [cbn; lia|].
    rewrite E.
    rewrite extraction_tolerated; [|discriminate | reflexivity].
    cbn. do 2 eexists. split; reflexivity.
Qed.

(** * Further properties *)

(** ** The range of the great-circle distance *)

Lemma atan2_le_half_pi (y x : R) :
  (0 <= y)%R -> (0 <= x)%R -> (Lib.atan2 y x <= PI / 2)%R.
Proof.
  intros Hy Hx. unfold Lib.atan2. pose proof PI_RGT_0.
  destruct (Rlt_dec 0 x).
  - pose proof (atan_bound (y / x)). lra.
  - destruct (Rlt_dec x 0); [lra|].
    destruct (Rlt_dec 0 y); [lra|].
    destruct (Rlt_dec y 0); lra.
Qed.

Lemma great_circle_range (lon1 lat1 lon2 lat2 : R) :
  exists d, Connection.great_circle lon1 lat1 lon2 lat2 = Return d /\
            (0 <= d <= 6373 * PI)%R.
Proof.
  unfold Connection.great_circle.
  set (a := (sin _ ^ 2 + _)%R).
  assert (Ha : (0 <= a <= 1)%R) by apply haversine_range.
  rewrite (lib_sqrt_nonneg a) by lra. cbn [obind].
  rewrite (lib_sqrt_nonneg (1 - a)) by lra. cbn [obind].
  eexists. split; [reflexivity|].
  pose proof (atan2_nonneg (sqrt a) (sqrt (1 - a))
                (sqrt_pos _) (sqrt_pos _)).
  pose proof (atan2_le_half_pi (sqrt a) (sqrt (1 - a))
                (sqrt_pos _) (sqrt_pos _)).
  split; nra.
Qed.

(** With exact arithmetic the quantity [a] stays in the unit interval. *)
Lemma haversine_exact_range (lon1 lat1 lon2 lat2 : R) :
  (0 <= Connection.haversine Float.exact lon1 lat1 lon2 lat2 <= 1)%R.
Proof.
  unfold Connection.haversine, Float.add, Float.sub, Float.mul, Float.div.
  cbn [Float.rnd Float.sin Float.cos Float.pow2 Float.radians Float.exact].
  apply haversine_range.
Qed.

(** X1: between two cities that carry a coordinate pair, [set_distance]
    with its default arguments, on any machine arithmetic that rounds as
    IEEE 754 does, fails in one way only: with the [ValueError] of line 191,
    and only when rounding has taken the quantity [a] of line 190 out of the
    interval from 0 to 1.  Whenever [a] is inside, the call changes the
    distance of the object and nothing else, and the distance is not
    negative. *)
Theorem set_distance_fails_only_on_sqrt
  (F : Float.arith) (self : Connection.t) (lonA latA lonB latB : R) :
  Float.ieee F ->
  City.coordinates (Connection.from_city self) = Val [lonA; latA] ->
  City.coordinates (Connection.to_city self) = Val [lonB; latB] ->
  let a := Connection.haversine F lonA latA lonB latB in
  ((0 <= a <= 1)%R ->
   exists d : R,
     Connection.set_distance_float F self None None
     = Return (Connection.with_distance d self) /\ (0 <= d)%R) /\
  ((a < 0)%R \/ (Float.sub F 1 a < 0)%R ->
   Connection.set_distance_float F self None None = Raise ValueError) /\
  (forall e,
      Connection.set_distance_float F self None None = Raise e ->
      e = ValueError /\ ((a < 0)%R \/ (1 < a)%R)).
Proof.
  intros HF HA HB a.
  change (Connection.set_distance_float F self None None)
    with (Connection.set_distance_float F self
            (Some (Connection.from_city self))
            (Some (Connection.to_city self))).
  rewrite (set_distance_float_pairs F self _ _ lonA latA lonB latB HA HB).
  destruct (great_circle_float_cases F HF lonA latA lonB latB) as [Hr Hf].
  cbn zeta in Hr, Hf. fold a in Hr, Hf.
  split; [|split].
  - intros [H0 H1]. destruct Hr as [d [Hd Hpos]]; [exact H0 | |].
    + apply (float_rnd_nonneg F HF). lra.
    + exists d. rewrite Hd. split; [reflexivity | exact Hpos].
  - intros H. rewrite (Hf H). reflexivity.
  - intros e H.
    destruct (Connection.great_circle_float F lonA latA lonB latB)
      as [d|e'] eqn:E; cbn [obind] in H; [discriminate|].
    inversion H; subst e'.
    apply (great_circle_float_raises F HF lonA latA lonB latB e E).
Qed.

Lemma set_distance_fails_only_on_sqrt_witness :
  exists d : R,
    Connection.set_distance_float Float.exact Sample.praha_brno None None
    = Return (Connection.with_distance d Sample.praha_brno) /\ (0 <= d)%R.
Proof.
  destruct (set_distance_fails_only_on_sqrt Float.exact Sample.praha_brno
              14.4378 50.0755 16.6068 49.1951 exact_ieee eq_refl eq_refl)
    as [H _].
  apply H. apply haversine_exact_range.
Defined.

(** X2: how [set_distance] fails.  A destination without the attribute
    stops it with an [AttributeError] and one holding [None] with a
    [TypeError], both on the first [len]; when the destination's list is not
    a pair, the origin is examined the same way, and only when its list is
    not a pair either is the error of line 175 raised; with a pair on the
    destination the origin is first looked at by the subscript of line 182,
    so a missing attribute there is an [AttributeError] and a list of
    fewer than two numbers an [IndexError] of the subscript. *)
Theorem set_distance_failures (self : Connection.t) (A B : City.t) :
  (City.coordinates B = Unset ->
   Connection.set_distance self (Some A) (Some B) = Raise AttributeError) /\
  (City.coordinates B = PyNone ->
   Connection.set_distance self (Some A) (Some B) = Raise TypeError) /\
  (forall cB, City.coordinates B = Val cB -> Py.len cB <> 2 ->
     (City.coordinates A = Unset ->
      Connection.set_distance self (Some A) (Some B) = Raise AttributeError)
     /\
     (City.coordinates A = PyNone ->
      Connection.set_distance self (Some A) (Some B) = Raise TypeError) /\
     (forall cA, City.coordinates A = Val cA -> Py.len cA <> 2 ->
        Connection.set_distance self (Some A) (Some B)
        = Raise (IndexError "City coordinates are not set"))) /\
  (forall cB, City.coordinates B = Val cB -> Py.len cB = 2 ->
     (City.coordinates A = Unset ->
      Connection.set_distance self (Some A) (Some B) = Raise AttributeError)
     /\
     (City.coordinates A = PyNone ->
      Connection.set_distance self (Some A) (Some B) = Raise TypeError) /\
     (forall cA, City.coordinates A = Val cA -> Py.len cA < 2 ->
        Connection.set_distance self (Some A) (Some B)
        = Raise (IndexError "list index out of range"))).
Proof.
  unfold Connection.set_distance, City.len_coordinates, City.coordinate.
  repeat split.
  - intros ->. reflexivity.
  - intros ->. reflexivity.
  - intros ->. apply Z.eqb_neq in H0. rewrite H. cbn [obind]. rewrite H0.
    reflexivity.
  - intros ->. apply Z.eqb_neq in H0. rewrite H. cbn [obind]. rewrite H0.
    reflexivity.
  - intros cA HA NA. apply Z.eqb_neq in H0, NA. rewrite H, HA. cbn [obind].
    rewrite H0. cbn [negb obind]. rewrite NA. reflexivity.
  - intros ->. apply Z.eqb_eq in H0. rewrite H. cbn [obind]. rewrite H0.
    reflexivity.
  - intros ->. apply Z.eqb_eq in H0. rewrite H. cbn [obind]. rewrite H0.
    reflexivity.
  - intros cA HA NA. apply Z.eqb_eq in H0. rewrite H, HA. cbn [obind].
    rewrite H0. cbn [negb obind].
    destruct cA as [|x [|y cA]]; [reflexivity | reflexivity |].
    unfold Py.len in NA. cbn in NA. lia.
Qed.

Lemma set_distance_failures_witness :
  Connection.set_distance Sample.praha_brno
    (Some (City.mk "Praha" "" 1 (Val [14.4378%R])))
    (Some (City.mk "Brno" "" 1 (Val [])))
  = Raise (IndexError "City coordinates are not set").
Proof.
  destruct (set_distance_failures Sample.praha_brno
              (City.mk "Praha" "" 1 (Val [14.4378%R]))
              (City.mk "Brno" "" 1 (Val [])))
    as [_ [_ [H _]]].
  destruct (H [] eq_refl) as [_ [_ H']]; [discriminate|].
  apply (H' [14.4378%R] eq_refl). discriminate.
Defined.

(** ** What the feature collection holds *)

Lemma mean_returns (l : list Z) (m : R) :
  Lib.mean l = Return m -> l <> [] /\ m = Spec.arithmetic_mean l.
Proof.
  intros H. destruct l as [|x l]; [discriminate|].
  split; [discriminate|].
  rewrite mean_arithmetic in H by discriminate. inversion H. reflexivity.
Qed.

(** The features of a successful run against the connections of the window
    as they were before the call. *)
Lemma get_geojson_window (self self' : Connections.t) (limit : Z)
  (ratio : bool) (g : geojson) :
  Connections.get_geojson self limit ratio = Return (self', g) ->
  exists mx mn,
    Forall2
      (fun c f =>
         exists s,
           Connections.score c ratio = Return s /\
           Spec.feature_of (Connections.connections self') limit mx mn
             (Connection.with_ratio_absolute s c) f)
      (Py.slice0 (Connections.connections self) limit) (features g).
Proof.
  intros Hg.
  destruct (get_geojson_inv _ _ _ _ _ Hg)
    as [w' [mx [mn [E1 [_ [_ [_ HF]]]]]]].
  pose proof (first_loop_scores _ _ _ _ _ _ _ E1) as HS.
  exists mx, mn.
  eapply Forall2_compose; [|exact HS|exact HF].
  intros c c' f [s [Es ->]] Hf. exists s. split; assumption.
Qed.

(** X3: a feature collection that [get_geojson] returns has one feature
    per connection of the window, in the order of the window, so for a
    limit that is not negative it has [min(limit, len)] features; each
    feature carries the destination's name and coordinates, the two lists,
    the distance and the kept boxes of its connection unchanged, the
    arithmetic mean of the durations, and a colour of saturation 1 and
    lightness 0.5. *)
Theorem features_follow_the_window
  (self self' : Connections.t) (limit : Z) (ratio : bool) (g : geojson) :
  Connections.get_geojson self limit ratio = Return (self', g) ->
  let window := Py.slice0 (Connections.connections self) limit in
  type g = "FeatureCollection" /\
  map name (features g)
  = map (fun c => City.name (Connection.to_city c)) window /\
  (0 <= limit ->
   Py.len (features g)
   = Z.min limit (Py.len (Connections.connections self))) /\
  Forall2
    (fun c f =>
       connections_times f = Connection.connections_times c /\
       connections_distances f = Connection.connections_distances c /\
       distance f = Connection.distance c /\
       connections_details f = Connection.connections c /\
       mean_time f = Spec.arithmetic_mean (Connection.connections_times c) /\
       City.coordinates (Connection.to_city c)
       = match coordinates f with Some xy => Val xy | None => PyNone end /\
       saturation (marker_color f) = 1%R /\
       luminance (marker_color f) = 0.5%R)
    window (features g).
Proof.
  intros Hg window.
  destruct (get_geojson_inv _ _ _ _ _ Hg) as [_ [_ [_ [_ [_ [_ [Ht _]]]]]]].
  destruct (get_geojson_window _ _ _ _ _ Hg) as [mx [mn HF]].
  fold window in HF.
  split; [exact Ht|].
  assert (Hnames : map name (features g)
                   = map (fun c => City.name (Connection.to_city c)) window).
  { clear Hg. induction HF as [|c f l fs [s [_ Hf]] HF IH]; [reflexivity|].
    cbn [map]. rewrite IH. f_equal.
    destruct Hf as [_ [_ [Hn _]]]. exact Hn. }
  split; [exact Hnames|]. split.
  - intros Hl. unfold Py.len.
    rewrite <- (length_map name), Hnames, length_map.
    apply slice0_length. exact Hl.
  - eapply Forall2_impl; [|exact HF].
    intros c f [s [_ [_ [[ci [_ Hcol]] [_ [Ht' [Hd' [Hm [Hdist [Hdet Hxy]]]]]]]]]].
    cbn in Ht', Hd', Hm, Hdist, Hdet, Hxy.
    repeat split; try assumption.
    + apply mean_returns in Hm. destruct Hm as [_ Hm]. exact Hm.
    + unfold Connections.geometry in Hxy.
      destruct (City.coordinates (Connection.to_city c));
        [discriminate | inversion Hxy; reflexivity
        | inversion Hxy; reflexivity].
    + rewrite Hcol. reflexivity.
    + rewrite Hcol. reflexivity.
Qed.

Lemma features_follow_the_window_witness :
  exists g : geojson,
    map name (features g) = ["Brno"; "Ostrava"] /\
    Py.len (features g) = 2.
Proof.
  destruct two_destinations_geojson as [self' [g Hg]].
  destruct (features_follow_the_window Sample.two_destinations self' 2 false
              g Hg) as [_ [Hn [Hl _]]].
  exists g. split; [exact Hn|]. apply Hl. lia.
Defined.

(** X4: [get_geojson] returns a feature collection, one feature per
    connection of the window, when the limit is positive, every connection
    of the window has a score (a non-empty batch and, in ratio mode, a
    non-zero distance) and a destination whose coordinates are assigned,
    and two of the scores differ. *)
Theorem get_geojson_returns (self : Connections.t) (limit : Z)
  (ratio : bool) :
  let window := Py.slice0 (Connections.connections self) limit in
  0 < limit ->
  (forall c, In c window ->
             Connection.connections_times c <> [] /\
             (ratio = true -> Connection.distance c <> 0%R) /\
             City.coordinates (Connection.to_city c) <> Unset) ->
  (exists c1 c2 s1 s2,
      In c1 window /\ In c2 window /\
      Connections.score c1 ratio = Return s1 /\
      Connections.score c2 ratio = Return s2 /\ s1 <> s2) ->
  exists self' g,
    Connections.get_geojson self limit ratio = Return (self', g) /\
    List.length (features g) = List.length window.
Proof.
  intros window Hl Hall Hdiff.
  destruct (get_geojson_total self limit ratio Hl) as [self' [g Hg]].
  - intros c Hc. destruct (Hall c Hc) as [Ht [Hd Hxy]].
    split; [|exact Hxy]. eexists. apply score_spec; assumption.
  - exact Hdiff.
  - exists self', g. split; [exact Hg|].
    destruct (get_geojson_window _ _ _ _ _ Hg) as [mx [mn HF]].
    symmetry. apply (Forall2_length HF).
Qed.

Lemma get_geojson_returns_witness :
  exists self' g,
    Connections.get_geojson Sample.two_destinations 2 true
    = Return (self', g) /\
    List.length (features g) = 2%nat.
Proof.
  apply (get_geojson_returns Sample.two_destinations 2 true).
  - lia.
  - intros c [<-|[<-|[]]]; repeat split; try discriminate;
      intros _; cbn; lra.
  - exists Sample.to_brno, Sample.to_ostrava, 54%R, 45%R.
    repeat split.
    + left. reflexivity.
    + right. left. reflexivity.
    + apply score_sample_ratio; reflexivity.
    + unfold Connections.score, Lib.mean. cbn [Sample.to_ostrava
        Sample.connection Connection.connections_times Connection.distance
        obind].
      rewrite div_nonzero by lra. f_equal. unfold Py.sum, Py.len. cbn. lra.
    + lra.
Defined.

(** ** Colours *)




(** ** Display sizes, continued *)

(** The label only depends on the connection through the population of its
    destination. *)
Lemma icon_size_population (self : list Connection.t) (limit : Z)
  (c c' : Connection.t) :
  City.population (Connection.to_city c)
  = City.population (Connection.to_city c') ->
  Connections.icon_size self limit c = Connections.icon_size self limit c'.
Proof.
  intros E. unfold Connections.icon_size. rewrite E. reflexivity.
Qed.

(** The labels of a successful run, against the connections of the window
    as they were before the call. *)
Lemma get_geojson_sizes (self self' : Connections.t) (limit : Z)
  (ratio : bool) (g : geojson) :
  Connections.get_geojson self limit ratio = Return (self', g) ->
  Forall2
    (fun c f =>
       Connections.icon_size (Connections.connections self')
         (Spec.clamp (Connections.connections self') limit) c
       = Return (marker_size f))
    (Py.slice0 (Connections.connections self) limit) (features g).
Proof.
  intros Hg. destruct (get_geojson_window _ _ _ _ _ Hg) as [mx [mn HF]].
  eapply Forall2_impl; [|exact HF].
  intros c f [s [_ [Hsize _]]].
  rewrite <- Hsize. apply icon_size_population. reflexivity.
Qed.

Lemma icon_size_monotone (self : list Connection.t) (limit : Z)
  (c1 c2 : Connection.t) (t1 t2 : string) :
  Connections.icon_size self limit c1 = Return t1 ->
  Connections.icon_size self limit c2 = Return t2 ->
  City.population (Connection.to_city c2)
  <= City.population (Connection.to_city c1) ->
  Spec.tier t2 <= Spec.tier t1.
Proof.
  unfold Connections.icon_size.
  destruct (Py.index _ ((limit - 1) * 2 / 3)) as [cm|]; cbn [obind];
    [|discriminate].
  destruct (Py.index _ ((limit - 1) / 3)) as [cl|]; cbn [obind];
    [|discriminate].
  intros H1 H2 Hle. inversion H1; inversion H2; subst. clear H1 H2.
  destruct (City.population (Connection.to_city c1)
            >? City.population (Connection.to_city cl)) eqn:L1;
    destruct (City.population (Connection.to_city c2)
              >? City.population (Connection.to_city cl)) eqn:L2;
    destruct (City.population (Connection.to_city c1)
              >? City.population (Connection.to_city cm)) eqn:M1;
    destruct (City.population (Connection.to_city c2)
              >? City.population (Connection.to_city cm)) eqn:M2;
    cbn; try lia;
    rewrite ?Z.gtb_ltb in *;
    repeat match goal with
           | H : (_ <? _) = true |- _ => apply Z.ltb_lt in H
           | H : (_ <? _) = false |- _ => apply Z.ltb_ge in H
           end; lia.
Qed.

(** X6: the display size is monotone in the population.  Of two
    destinations of one feature collection, the one with the larger
    population never gets the smaller label. *)
Theorem marker_size_monotone_in_population
  (self self' : Connections.t) (limit : Z) (ratio : bool) (g : geojson)
  (i j : nat) (c1 c2 : Connection.t) (f1 f2 : feature) :
  Connections.get_geojson self limit ratio = Return (self', g) ->
  nth_error (Py.slice0 (Connections.connections self) limit) i = Some c1 ->
  nth_error (Py.slice0 (Connections.connections self) limit) j = Some c2 ->
  nth_error (features g) i = Some f1 ->
  nth_error (features g) j = Some f2 ->
  City.population (Connection.to_city c2)
  <= City.population (Connection.to_city c1) ->
  Spec.tier (marker_size f2) <= Spec.tier (marker_size f1).
Proof.
  intros Hg N1 N2 F1 F2 Hle.
  pose proof (get_geojson_sizes _ _ _ _ _ Hg) as HF.
  destruct (Forall2_nth_error_l _ _ _ HF _ _ N1) as [f1' [F1' S1]].
  destruct (Forall2_nth_error_l _ _ _ HF _ _ N2) as [f2' [F2' S2]].
  rewrite F1 in F1'. rewrite F2 in F2'. inversion F1'; inversion F2'.
  subst f1' f2'.
  eapply icon_size_monotone; eassumption.
Qed.

Lemma marker_size_monotone_in_population_witness :
  exists (g : geojson) (f1 f2 : feature),
    nth_error (features g) 0 = Some f1 /\
    nth_error (features g) 1 = Some f2 /\
    Spec.tier (marker_size f2) <= Spec.tier (marker_size f1).
Proof.
  destruct two_destinations_geojson as [self' [g Hg]].
  destruct (get_geojson_window _ _ _ _ _ Hg) as [mx [mn HF]].
  change (Py.slice0 (Connections.connections Sample.two_destinations) 2)
    with [Sample.to_brno; Sample.to_ostrava] in HF.
  destruct (features g) as [|f1 [|f2 fs]] eqn:Ef;
    [exfalso; inversion HF
    | exfalso; inversion HF as [|? ? ? ? _ HF']; inversion HF' |].
  exists g, f1, f2. rewrite Ef. repeat split.
  apply (marker_size_monotone_in_population Sample.two_destinations self' 2
           false g 0 1 Sample.to_brno Sample.to_ostrava f1 f2 Hg
           eq_refl eq_refl).
  - rewrite Ef. reflexivity.
  - rewrite Ef. reflexivity.
  - cbn. lia.
Defined.

(** The labels of a successful run in terms of the two threshold
    populations of the window. *)
Lemma get_geojson_labels (self self' : Connections.t) (limit : Z)
  (ratio : bool) (g : geojson) :
  0 < limit -> Connections.connections self <> [] ->
  Connections.get_geojson self limit ratio = Return (self', g) ->
  let window := Py.slice0 (Connections.connections self) limit in
  let population c := City.population (Connection.to_city c) in
  exists cl cm,
    nth_error window (Z.to_nat (Spec.large_rank (Py.len window))) = Some cl /\
    nth_error window (Z.to_nat (Spec.medium_rank (Py.len window)))
    = Some cm /\
    Forall2 (fun c f =>
               marker_size f
               = Spec.size_label (population c) (population cl)
                   (population cm))
            window (features g).
Proof.
  intros Hl Hne Hg window population.
  destruct (clamp_window _ limit Hl Hne) as [HL [Hlen Hw]].
  destruct (icon_size_label _ limit Hl Hne) as [cl [cm [Nl [Nm Hi]]]].
  unfold window. rewrite Hlen. exists cl, cm.
  split; [exact Nl|]. split; [exact Nm|].
  destruct (get_geojson_inv _ _ _ _ _ Hg)
    as [w' [mx [mn [E1 [Es [Ew [_ HF]]]]]]].
  pose proof (first_loop_scores _ _ _ _ _ _ _ E1) as HS.
  assert (Hlen' : List.length (Connections.connections self')
                  = List.length (Connections.connections self)).
  { rewrite Es. apply scored_length. symmetry. apply (Forall2_length HS). }
  assert (Hne' : Connections.connections self' <> []).
  { intros C. rewrite C in Hlen'. destruct (Connections.connections self);
      [contradiction | discriminate]. }
  destruct (icon_size_label _ limit Hl Hne') as [cl' [cm' [Nl' [Nm' Hi']]]].
  assert (Ec : Spec.clamp (Connections.connections self') limit
               = Spec.clamp (Connections.connections self) limit).
  { unfold Spec.clamp, Py.len. rewrite Hlen'. reflexivity. }
  rewrite Ew, Ec in Nl', Nm'.
  destruct (Forall2_nth_error_l _ _ _ HS _ _ Nl) as [b [Nb [s [_ Eb]]]].
  destruct (Forall2_nth_error_l _ _ _ HS _ _ Nm) as [b' [Nb' [s' [_ Eb']]]].
  rewrite Nb in Nl'. rewrite Nb' in Nm'. inversion Nl'; inversion Nm'; subst.
  eapply Forall2_compose; [|exact HS|exact HF].
  intros c c' f [sc [_ Hc]] [Hsize _]. cbn beta in *.
  rewrite Hi' in Hsize. inversion Hsize. subst c'. reflexivity.
Qed.

Lemma size_label_large (p pl pm : Z) :
  p <= pl -> Spec.size_label p pl pm <> "large".
Proof.
  intros H. unfold Spec.size_label.
  destruct (p >? pl) eqn:E; [apply Z.gtb_lt in E; lia|].
  destruct (p >? pm); discriminate.
Qed.

Lemma size_label_small (p pl pm : Z) :
  p <= pl -> p <= pm -> Spec.size_label p pl pm = "small".
Proof.
  intros H1 H2. unfold Spec.size_label.
  destruct (p >? pl) eqn:E; [apply Z.gtb_lt in E; lia|].
  destruct (p >? pm) eqn:E'; [apply Z.gtb_lt in E'; lia|]. reflexivity.
Qed.

(** X7: when the populations of the window do not rise along it (the order
    the program expects), a destination at or after rank [(L-1)/3] is never
    "large" and one at or after rank [2(L-1)/3] is "small"; so at most
    [(L-1)/3] destinations are large, and in a window of three or fewer
    none is. *)
Theorem sizes_in_a_descending_window
  (self self' : Connections.t) (limit : Z) (ratio : bool) (g : geojson) :
  0 < limit ->
  Connections.get_geojson self limit ratio = Return (self', g) ->
  let window := Py.slice0 (Connections.connections self) limit in
  let population c := City.population (Connection.to_city c) in
  (forall i j ci cj,
      (i <= j)%nat -> nth_error window i = Some ci ->
      nth_error window j = Some cj -> population cj <= population ci) ->
  forall i f,
    nth_error (features g) i = Some f ->
    (Spec.large_rank (Py.len window) <= Z.of_nat i ->
     marker_size f <> "large") /\
    (Spec.medium_rank (Py.len window) <= Z.of_nat i ->
     marker_size f = "small") /\
    (Py.len window <= 3 -> marker_size f <> "large").
Proof.
  intros Hl Hg window population Hsorted i f Hf.
  assert (Hne : Connections.connections self <> []).
  { intros C. destruct (get_geojson_window _ _ _ _ _ Hg) as [mx [mn HF]].
    apply Forall2_length in HF. rewrite C in HF.
    assert (E : List.length (Py.slice0 (@nil Connection.t) limit) = 0%nat).
    { unfold Py.slice0. destruct (limit <? 0); rewrite firstn_nil;
        reflexivity. }
    rewrite E in HF. destruct (features g); [|discriminate].
    destruct i; discriminate. }
  destruct (get_geojson_labels _ _ _ _ _ Hl Hne Hg)
    as [cl [cm [Nl [Nm HF]]]].
  fold window in Nl, Nm, HF.
  destruct (Forall2_nth_error_l _ _ _ (Forall2_flip HF) _ _ Hf)
    as [c [Nc Hsize]]. cbn beta in Hsize.
  destruct (clamp_window _ limit Hl Hne) as [HL [Hlen _]].
  fold window in Hlen.
  set (L := Py.len window) in *.
  assert (H0 : 0 <= Spec.large_rank L).
  { unfold Spec.large_rank. apply Z.div_pos; lia. }
  assert (H1 : Spec.large_rank L <= Spec.medium_rank L).
  { unfold Spec.large_rank, Spec.medium_rank.
    apply Z.div_le_mono; lia. }
  assert (Hlarge : Spec.large_rank L <= Z.of_nat i ->
                   City.population (Connection.to_city c)
                   <= City.population (Connection.to_city cl)).
  { intros Hi. apply (Hsorted (Z.to_nat (Spec.large_rank L)) i cl c);
      [lia | exact Nl | exact Nc]. }
  assert (Hmedium : Spec.medium_rank L <= Z.of_nat i ->
                    City.population (Connection.to_city c)
                    <= City.population (Connection.to_city cm)).
  { intros Hi. apply (Hsorted (Z.to_nat (Spec.medium_rank L)) i cm c);
      [lia | exact Nm | exact Nc]. }
  rewrite Hsize. repeat split.
  - intros Hi. apply size_label_large. apply Hlarge. exact Hi.
  - intros Hi. apply size_label_small; [apply Hlarge; lia | apply Hmedium].
    exact Hi.
  - intros H3. apply size_label_large. apply Hlarge.
    assert (Spec.large_rank L = 0).
    { unfold Spec.large_rank. apply Z.div_small. lia. }
    lia.
Qed.

Lemma sizes_in_a_descending_window_witness :
  exists (g : geojson) (f : feature),
    nth_error (features g) 0 = Some f /\ marker_size f <> "large".
Proof.
  destruct two_destinations_geojson as [self' [g Hg]].
  destruct (get_geojson_window _ _ _ _ _ Hg) as [mx [mn HF]].
  change (Py.slice0 (Connections.connections Sample.two_destinations) 2)
    with [Sample.to_brno; Sample.to_ostrava] in HF.
  destruct (features g) as [|f fs] eqn:Ef; [exfalso; inversion HF|].
  exists g, f. rewrite Ef. split; [reflexivity|].
  assert (H0 : 0 < 2) by lia.
  assert (Hs : forall i j ci cj,
             (i <= j)%nat ->
             nth_error (Py.slice0 (Connections.connections
                                     Sample.two_destinations) 2) i
             = Some ci ->
             nth_error (Py.slice0 (Connections.connections
                                     Sample.two_destinations) 2) j
             = Some cj ->
             City.population (Connection.to_city cj)
             <= City.population (Connection.to_city ci)).
  { intros i j ci cj Hij Hi Hj.
    destruct i as [|[|i]]; destruct j as [|[|j]]; cbn in Hi, Hj;
      try lia; try (destruct i; discriminate);
      try (destruct j; discriminate);
      inversion Hi; inversion Hj; subst; cbn; lia. }
  destruct (sizes_in_a_descending_window Sample.two_destinations self' 2
              false g H0 Hg Hs 0%nat f) as [_ [_ H3]].
  - rewrite Ef. reflexivity.
  - apply H3. change (2 <= 3). lia.
Defined.

(** ** The limit *)

(** The second loop only ever uses the limit lowered to the number of
    connections. *)
Lemma second_loop_clamp (self window : list Connection.t) (limit : Z)
  (mx : R) (mn : pyfloat) (acc : list feature) :
  Connections.second_loop self window limit mx mn acc
  = Connections.second_loop self window (Spec.clamp self limit) mx mn acc.
Proof.
  destruct window as [|c window]; [reflexivity|].
  cbn [Connections.second_loop].
  fold (Spec.clamp self limit).
  fold (Spec.clamp self (Spec.clamp self limit)).
  rewrite clamp_idem. reflexivity.
Qed.

(** It looks at the collection only through that lowered limit and the
    slice up to it. *)
Lemma second_loop_self (self1 self2 window : list Connection.t) :
  forall (limit : Z) (mx : R) (mn : pyfloat) (acc : list feature),
    Spec.clamp self1 limit = Spec.clamp self2 limit ->
    Py.slice0 self1 (Spec.clamp self1 limit)
    = Py.slice0 self2 (Spec.clamp self2 limit) ->
    Connections.second_loop self1 window limit mx mn acc
    = Connections.second_loop self2 window limit mx mn acc.
Proof.
  induction window as [|c window IH]; intros limit mx mn acc Ec Es;
    [reflexivity|].
  cbn [Connections.second_loop].
  fold (Spec.clamp self1 limit). fold (Spec.clamp self2 limit).
  assert (Ei : Connections.icon_size self1 (Spec.clamp self1 limit) c
               = Connections.icon_size self2 (Spec.clamp self2 limit) c).
  { unfold Connections.icon_size. rewrite Es, Ec. reflexivity. }
  rewrite Ei.
  destruct (Connections.icon_size self2 _ c) as [size|e]; [|reflexivity].
  cbn [obind].
  destruct (Connections.color_index _ mx mn) as [ci|e]; [|reflexivity].
  cbn [obind].
  destruct (Lib.mean _) as [m|e]; [|reflexivity]. cbn [obind].
  destruct (Connections.geometry _) as [xy|e]; [|reflexivity]. cbn [obind].
  rewrite Ec. apply IH.
  - rewrite <- Ec at 1. rewrite !clamp_idem. exact Ec.
  - rewrite <- Ec at 1. rewrite !clamp_idem. exact Es.
Qed.

Lemma slice0_all {A} (l : list A) (stop : Z) :
  Py.len l <= stop -> Py.slice0 l stop = l.
Proof.
  intros H. unfold Py.len in H. rewrite slice0_positive by lia.
  apply firstn_all2. lia.
Qed.

(** X8: a limit at or above the number of connections is the same as the
    number of connections: the whole method then returns, or raises, what
    it does for [limit = len(self.connections)]. *)
Theorem limit_beyond_the_collection (self : Connections.t) (limit : Z)
  (ratio : bool) :
  Py.len (Connections.connections self) <= limit ->
  Connections.get_geojson self limit ratio
  = Connections.get_geojson self (Py.len (Connections.connections self))
      ratio.
Proof.
  intros H. unfold Connections.get_geojson, Connections.scored.
  set (l := Connections.connections self) in *.
  rewrite (slice0_all l limit H), (slice0_all l (Py.len l)) by lia.
  destruct (Connections.first_loop l ratio 0%R PosInf)
    as [[[w' mx] mn]|e] eqn:E1; [|reflexivity].
  cbn [obind].
  pose proof (first_loop_scores _ _ _ _ _ _ _ E1) as HS.
  apply Forall2_length in HS.
  rewrite skipn_all, app_nil_r.
  assert (Hlen : Py.len w' = Py.len l) by (unfold Py.len; lia).
  rewrite (slice0_all w' limit), (slice0_all w' (Py.len l)) by lia.
  rewrite (second_loop_clamp w' w' limit).
  rewrite (second_loop_clamp w' w' (Py.len l)).
  assert (Ec : Spec.clamp w' limit = Spec.clamp w' (Py.len l)).
  { unfold Spec.clamp. rewrite Hlen.
    destruct (limit >? Py.len l) eqn:E.
    - rewrite Z.gtb_ltb, Z.ltb_irrefl. reflexivity.
    - rewrite Z.gtb_ltb in E. apply Z.ltb_ge in E.
      rewrite Z.gtb_ltb, Z.ltb_irrefl. lia. }
  rewrite Ec. reflexivity.
Qed.

Lemma limit_beyond_the_collection_witness :
  Connections.get_geojson Sample.two_destinations 20 false
  = Connections.get_geojson Sample.two_destinations 2 false.
Proof.
  apply (limit_beyond_the_collection Sample.two_destinations 20 false).
  cbn. lia.
Defined.

(** X9: the cut at the limit is hard.  For a limit that is not negative,
    the feature collection (or the exception) is the one the method gives
    for the collection reduced to its first [limit] connections: what comes
    after the limit has no influence on scores, bounds, colours or
    sizes. *)
Theorem connections_after_the_limit_are_ignored
  (self : Connections.t) (limit : Z) (ratio : bool) :
  0 <= limit ->
  obind (Connections.get_geojson self limit ratio)
    (fun r => Return (snd r))
  = obind (Connections.get_geojson
             (Connections.mk
                (Py.slice0 (Connections.connections self) limit))
             limit ratio)
      (fun r => Return (snd r)).
Proof.
  intros Hl. unfold Connections.get_geojson.
  cbn [Connections.connections].
  set (l := Connections.connections self) in *.
  set (window := Py.slice0 l limit).
  assert (Hww : Py.slice0 window limit = window).
  { unfold window. rewrite !slice0_positive by lia. rewrite firstn_firstn, Nat.min_id.
    reflexivity. }
  rewrite Hww.
  destruct (Connections.first_loop window ratio 0%R PosInf)
    as [[[w' mx] mn]|e] eqn:E1; [|reflexivity].
  cbn [obind].
  pose proof (first_loop_scores _ _ _ _ _ _ _ E1) as HS.
  apply Forall2_length in HS. symmetry in HS.
  assert (H1 : List.length w' = List.length (Py.slice0 l limit))
    by exact HS.
  assert (H2 : List.length w' = List.length (Py.slice0 window limit))
    by (rewrite Hww; exact HS).
  rewrite (slice0_scored l w' limit H1).
  rewrite (slice0_scored window w' limit H2).
  rewrite (second_loop_self (Connections.scored l w' limit)
             (Connections.scored window w' limit) w' limit mx mn []).
  - destruct (Connections.second_loop _ w' limit mx mn []); reflexivity.
  - unfold Spec.clamp, Py.len.
    rewrite (scored_length l w' limit H1).
    rewrite (scored_length window w' limit H2).
    assert (Hw : Z.of_nat (List.length window)
                 = Z.min limit (Z.of_nat (List.length l))).
    { apply (slice0_length l limit Hl). }
    rewrite Hw.
    destruct (limit >? Z.of_nat (List.length l)) eqn:E;
      destruct (limit >? Z.min limit (Z.of_nat (List.length l))) eqn:E';
      rewrite Z.gtb_ltb in E, E';
      try apply Z.ltb_lt in E; try apply Z.ltb_ge in E;
      try apply Z.ltb_lt in E'; try apply Z.ltb_ge in E'; lia.
  - unfold Spec.clamp. rewrite !slice0_clamp by lia.
    rewrite (slice0_scored l w' limit H1).
    rewrite (slice0_scored window w' limit H2). reflexivity.
Qed.

Lemma connections_after_the_limit_are_ignored_witness :
  obind (Connections.get_geojson Sample.nine_destinations 2 false)
    (fun r => Return (snd r))
  = obind (Connections.get_geojson
             (Connections.mk
                (Py.slice0 (Connections.connections Sample.nine_destinations)
                   2))
             2 false)
      (fun r => Return (snd r)).
Proof.
  apply (connections_after_the_limit_are_ignored Sample.nine_destinations 2
           false).
  lia.
Defined.

(** ** Calling the method again *)

(** The first loop over connections that already carry their score gives
    the same bounds and changes nothing. *)
Lemma first_loop_again (window : list Connection.t) (ratio : bool) :
  forall (mx : R) (mn : pyfloat) w' mx' mn',
    Connections.first_loop window ratio mx mn = Return (w', mx', mn') ->
    Connections.first_loop w' ratio mx mn = Return (w', mx', mn').
Proof.
  induction window as [|c window IH]; intros mx mn w' mx' mn' H; cbn in H.
  - inversion H; subst. reflexivity.
  - destruct (Connections.score c ratio) as [s|e] eqn:Es; cbn in H;
      [|discriminate].
    destruct (Connections.first_loop window ratio _ _)
      as [[[rest mx1] mn1]|e] eqn:Er; cbn in H; [|discriminate].
    inversion H; subst. clear H. apply IH in Er.
    cbn [Connections.first_loop].
    change (Connections.score (Connection.with_ratio_absolute s c) ratio)
      with (Connections.score c ratio).
    rewrite Es. cbn [obind]. rewrite Er. reflexivity.
Qed.

(** X10: [get_geojson] can be repeated.  Called again with the same
    arguments on the object it left, it returns the same feature collection
    and leaves the object as it is: the scores it stored do not feed back
    into the scores it computes. *)
Theorem get_geojson_again
  (self self' : Connections.t) (limit : Z) (ratio : bool) (g : geojson) :
  Connections.get_geojson self limit ratio = Return (self', g) ->
  Connections.get_geojson self' limit ratio = Return (self', g).
Proof.
  intros Hg. pose proof Hg as Hg0. unfold Connections.get_geojson in Hg.
  destruct (Connections.first_loop _ ratio 0%R PosInf)
    as [[[w' mx] mn]|e] eqn:E1; cbn [obind] in Hg; [|discriminate].
  pose proof (first_loop_scores _ _ _ _ _ _ _ E1) as HS.
  apply Forall2_length in HS. symmetry in HS.
  set (l' := Connections.scored (Connections.connections self) w' limit)
    in *.
  destruct (Connections.second_loop l' _ limit mx mn [])
    as [fs|e] eqn:E2; cbn [obind] in Hg; [|discriminate].
  inversion Hg; subst self' g. clear Hg.
  unfold Connections.get_geojson. cbn [Connections.connections].
  pose proof (slice0_scored _ _ _ HS) as Ew. fold l' in Ew.
  rewrite Ew in *.
  rewrite (first_loop_again _ _ _ _ _ _ _ E1). cbn [obind].
  assert (El : Connections.scored l' w' limit = l').
  { unfold Connections.scored at 1. rewrite Ew.
    unfold l', Connections.scored.
    rewrite skipn_app, skipn_all, Nat.sub_diag, skipn_O.
    reflexivity. }
  rewrite El, Ew, E2. reflexivity.
Qed.

Lemma get_geojson_again_witness :
  exists self' g,
    Connections.get_geojson Sample.two_destinations 2 false
    = Return (self', g) /\
    Connections.get_geojson self' 2 false = Return (self', g).
Proof.
  destruct two_destinations_geojson as [self' [g Hg]].
  exists self', g. split; [exact Hg|].
  exact (get_geojson_again Sample.two_destinations self' 2 false g Hg).
Defined.

(** ** The ends of the colour scale *)

(** X11: every feature collection with at least one feature has a feature
    of hue exactly 0.3333 (green), the one of a connection with the lowest
    score; and when no score of the window is negative it also has a
    feature of hue 0 (red), the one of a connection with the highest
    score. *)
Theorem both_ends_of_the_scale_are_used
  (self self' : Connections.t) (limit : Z) (ratio : bool) (g : geojson) :
  Connections.get_geojson self limit ratio = Return (self', g) ->
  features g <> [] ->
  (exists f, In f (features g) /\
             hue (marker_color f) = Finite 0.3333) /\
  ((forall c s, In c (Py.slice0 (Connections.connections self) limit) ->
                Connections.score c ratio = Return s -> (0 <= s)%R) ->
   exists f, In f (features g) /\ hue (marker_color f) = Finite 0).
Proof.
  intros Hg Hne.
  destruct (get_geojson_inv _ _ _ _ _ Hg)
    as [w' [mx [mn [E1 [_ [_ [_ HF]]]]]]].
  pose proof (first_loop_scores _ _ _ _ _ _ _ E1) as HS.
  pose proof (first_loop_max _ _ _ _ _ _ _ E1) as [Hmx0 Hmax].
  pose proof (first_loop_max_attained _ _ _ _ _ _ _ E1) as Hmaxat.
  assert (Hnan : PosInf <> NaN) by discriminate.
  pose proof (first_loop_min _ _ _ _ _ _ _ Hnan E1)
    as [_ [Hfin [_ [Hmin Hminat]]]].
  assert (Hw : w' <> []).
  { intros C. rewrite C in HF. inversion HF as [E|]. congruence. }
  destruct Hfin as [m Em]; [exact Hw|]. subst mn.
  assert (Hhue : forall c' s f,
             In c' w' -> Connection.ratio_absolute c' = Val s ->
             Spec.feature_of (Connections.connections self') limit mx
               (Finite m) c' f ->
             (m < mx)%R /\
             hue (marker_color f)
             = Finite (Spec.hue_at (Spec.position s m mx))).
  { intros c' s f Hin Es [_ [[ci [Eci Ecol]] _]].
    pose proof (Hmax c' s Hin Es). pose proof (Hmin m c' s eq_refl Hin Es).
    rewrite Es in Eci. cbn in Eci. unfold Lib.div in Eci.
    destruct (Req_EM_T (mx - m) 0) as [C|Hnz]; [discriminate|].
    cbn in Eci. inversion Eci; subst ci.
    fold (Spec.position s m mx) in Ecol. rewrite color_of_hue in Ecol.
    rewrite Ecol. split; [lra | reflexivity]. }
  split.
  - destruct Hminat as [C | [c' [m' [Hin [Em' Es]]]]]; [discriminate|].
    inversion Em'; subst m'.
    destruct (Forall2_in_l _ _ _ HF c' Hin) as [f [Hf Hfe]].
    destruct (Hhue c' m f Hin Es Hfe) as [Hlt Hh].
    exists f. split; [exact Hf|]. rewrite Hh. f_equal.
    unfold Spec.hue_at, Spec.position. field. lra.
  - intros Hpos.
    assert (Hat : exists c', In c' w' /\
                             Connection.ratio_absolute c' = Val mx).
    { destruct Hmaxat as [E0 | Hat]; [|exact Hat].
      destruct w' as [|c0 w0]; [contradiction|].
      destruct (Forall2_in_r _ _ _ HS c0 (or_introl eq_refl))
        as [c [Hc [s [Es Ec0]]]].
      pose proof (Hpos c s Hc Es) as Hs.
      assert (Er : Connection.ratio_absolute c0 = Val s)
        by (subst c0; reflexivity).
      pose proof (Hmax c0 s (or_introl eq_refl) Er).
      exists c0. split; [left; reflexivity|]. rewrite Er. f_equal. lra. }
    destruct Hat as [c' [Hin Es]].
    destruct (Forall2_in_l _ _ _ HF c' Hin) as [f [Hf Hfe]].
    destruct (Hhue c' mx f Hin Es Hfe) as [Hlt Hh].
    exists f. split; [exact Hf|]. rewrite Hh. f_equal.
    unfold Spec.hue_at, Spec.position. field. lra.
Qed.

Lemma both_ends_of_the_scale_are_used_witness :
  exists g : geojson,
    (exists f, In f (features g) /\
               hue (marker_color f) = Finite 0.3333) /\
    (exists f, In f (features g) /\ hue (marker_color f) = Finite 0).
Proof.
  destruct two_destinations_geojson as [self' [g Hg]].
  assert (Hne : features g <> []).
  { destruct (get_geojson_window _ _ _ _ _ Hg) as [mx [mn HF]].
    intros C. rewrite C in HF. inversion HF. }
  destruct (both_ends_of_the_scale_are_used Sample.two_destinations self' 2
              false g Hg Hne) as [Hgreen Hred].
  exists g. split; [exact Hgreen|]. apply Hred.
  intros c s [<-|[<-|[]]] Hs.
  - rewrite (score_sample_absolute Sample.to_brno eq_refl) in Hs.
    inversion Hs. lra.
  - unfold Connections.score, Lib.mean, Py.sum, Py.len in Hs. cbn in Hs.
    inversion Hs. lra.
Defined.

(** ** Failures of the first loop *)

Lemma first_loop_stops (pre post : list Connection.t) (c : Connection.t)
  (ratio : bool) (e : exn) :
  (forall c0, In c0 pre -> exists s, Connections.score c0 ratio = Return s) ->
  Connections.score c ratio = Raise e ->
  forall (mx : R) (mn : pyfloat),
    Connections.first_loop (pre ++ c :: post) ratio mx mn = Raise e.
Proof.
  intros Hpre Hc. induction pre as [|c0 pre IH]; intros mx mn.
  - cbn. rewrite Hc. reflexivity.
  - cbn [app Connections.first_loop].
    destruct (Hpre c0 (or_introl eq_refl)) as [s Es]. rewrite Es.
    cbn [obind]. rewrite IH; [reflexivity|].
    intros c1 H1. apply Hpre. right. exact H1.
Qed.

(** X12: the first connection of the window without a score decides how
    [get_geojson] fails: an empty list of durations raises the error of
    [statistics.mean], in either mode, and in ratio mode a distance of zero
    raises a division error; no feature collection is built. *)
Theorem first_connection_without_score_fails
  (self : Connections.t) (limit : Z) (ratio : bool)
  (pre post : list Connection.t) (c : Connection.t) :
  Py.slice0 (Connections.connections self) limit = (pre ++ c :: post)%list ->
  (forall c0, In c0 pre ->
              Connection.connections_times c0 <> [] /\
              (ratio = true -> Connection.distance c0 <> 0%R)) ->
  (Connection.connections_times c = [] ->
   Connections.get_geojson self limit ratio = Raise StatisticsError) /\
  (ratio = true -> Connection.connections_times c <> [] ->
   Connection.distance c = 0%R ->
   Connections.get_geojson self limit ratio = Raise ZeroDivisionError).
Proof.
  intros Hw Hpre.
  assert (Hs : forall c0, In c0 pre ->
                 exists s, Connections.score c0 ratio = Return s).
  { intros c0 H0. destruct (Hpre c0 H0) as [Ht Hd]. eexists.
    apply score_spec; assumption. }
  split.
  - intros Ht. unfold Connections.get_geojson. rewrite Hw.
    rewrite (first_loop_stops pre post c ratio StatisticsError Hs);
      [reflexivity|].
    unfold Connections.score. rewrite Ht. destruct ratio; reflexivity.
  - intros -> Ht Hd. unfold Connections.get_geojson. rewrite Hw.
    rewrite (first_loop_stops pre post c true ZeroDivisionError Hs);
      [reflexivity|].
    unfold Connections.score. rewrite (mean_arithmetic _ Ht). cbn [obind].
    apply div_zero. exact Hd.
Qed.

Lemma first_connection_without_score_fails_witness :
  Connections.get_geojson
    (Connections.mk [Sample.to_brno;
                     Sample.connection Sample.ostrava [] [] 280])
    2 false
  = Raise StatisticsError.
Proof.
  destruct (first_connection_without_score_fails
              (Connections.mk [Sample.to_brno;
                               Sample.connection Sample.ostrava [] [] 280])
              2 false [Sample.to_brno] []
              (Sample.connection Sample.ostrava [] [] 280) eq_refl)
    as [H _].
  - intros c0 [<-|[]]. split; [discriminate | intros C; discriminate].
  - apply H. reflexivity.
Defined.

(** * Further properties of the extraction *)

Section Fetching.

Variable urlopen : string -> outcome response.

(** X13: a pair of equal cities is turned away before anything else is
    done: whatever the network and whatever the state of the coordinates,
    [load_idos] prints its one line, returns no connection and leaves the
    object as it was; no distance is computed and nothing is fetched. *)
Theorem same_city_is_turned_away (s : Connection.state)
  (urlopen' : string -> outcome response) :
  City.name (Connection.from_city (Connection.self s))
  = City.name (Connection.to_city (Connection.self s)) ->
  Connection.load_idos urlopen s
  = (Connection.mkstate (Connection.self s)
       (Connection.stdout s ++ [Spec.same_city_line]),
     Return None) /\
  Connection.load_idos urlopen s = Connection.load_idos urlopen' s.
Proof.
  intros E.
  assert (Eq : City.eq (Connection.from_city (Connection.self s))
                 (Connection.to_city (Connection.self s)) = true).
  { unfold City.eq. rewrite E. apply String.eqb_refl. }
  rewrite !load_idos_same_city by exact Eq. split; reflexivity.
Qed.

(** X14: a failed fetch is not absorbed.  Between different cities with a
    distance, an exception of [urlopen] leaves [load_idos] as it is, and a
    status code outside 200..399 leaves it as the [IOError] of line 105;
    both happen before the [try] and so pass through
    [Connections.__init__] as well, which stops at that city. *)
Theorem failed_fetch_stops_the_run (origin city : City.t)
  (veh_type : string) (c1 : Connection.t) (out : list string)
  (cities : list City.t) (acc : list Connection.t) :
  let c := Connection.init origin city (Some veh_type) None in
  City.eq origin city = false ->
  Connection.set_distance c None None = Return c1 ->
  (forall e,
      urlopen (Connection.url_of c) = Raise e ->
      Connections.load_cities urlopen (city :: cities) origin veh_type acc
        out
      = ((out ++ [Spec.getting_line c])%list, Raise e)) /\
  (forall resp,
      urlopen (Connection.url_of c) = Return resp ->
      ~ (200 <= getcode resp < 400) ->
      Connections.load_cities urlopen (city :: cities) origin veh_type acc
        out
      = ((out ++ [Spec.getting_line c])%list,
         Raise (IOError "IDOS does not load for URL:"))).
Proof.
  intros c Hdiff Hd.
  destruct (set_distance_fields _ _ Hd) as [d ->].
  assert (Hl : forall o,
             (urlopen (Connection.url_of c) = Raise o \/
              exists resp, urlopen (Connection.url_of c) = Return resp /\
                           ~ (200 <= getcode resp < 400) /\
                           o = IOError "IDOS does not load for URL:") ->
             Connection.load_idos urlopen (Connection.mkstate c out)
             = (Connection.mkstate (Connection.with_distance d c)
                  (out ++ [Spec.getting_line c]), Raise o)).
  { intros o Ho.
    unfold Connection.load_idos, Connection.bind, Connection.get,
      Connection.lift, Connection.modify, Connection.print, Connection.ret,
      Connection.raise.
    cbn [Connection.self Connection.stdout].
    change (City.eq (Connection.from_city c) (Connection.to_city c))
      with (City.eq origin city).
    rewrite Hdiff, Hd. cbn [Connection.self Connection.stdout].
    change (Connection.url_of (Connection.with_distance d c))
      with (Connection.url_of c).
    destruct Ho as [-> | [resp [-> [Hcode ->]]]]; [reflexivity|].
    destruct (200 <=? getcode resp) eqn:H1;
      destruct (getcode resp <? 400) eqn:H2; try reflexivity.
    exfalso. apply Hcode. apply Z.leb_le in H1. apply Z.ltb_lt in H2.
    split; assumption. }
  split.
  - intros e He. cbn [Connections.load_cities]. fold c.
    rewrite (Hl e (or_introl He)). reflexivity.
  - intros resp Hr Hcode. cbn [Connections.load_cities]. fold c.
    rewrite (Hl _ (or_intror (ex_intro _ resp (conj Hr
                                (conj Hcode eq_refl))))).
    reflexivity.
Qed.

End Fetching.

Lemma same_city_is_turned_away_witness :
  Connection.load_idos Sample.network
    (Connection.mkstate
       (Connection.init (City.init "Praha" "Hlavni mesto Praha" 1300000)
          (City.init "Praha" "Praha-vychod" 10) None None) [])
  = (Connection.mkstate
       (Connection.init (City.init "Praha" "Hlavni mesto Praha" 1300000)
          (City.init "Praha" "Praha-vychod" 10) None None)
       [Spec.same_city_line],
     Return None).
Proof.
  apply (same_city_is_turned_away Sample.network
           (Connection.mkstate
              (Connection.init
                 (City.init "Praha" "Hlavni mesto Praha" 1300000)
                 (City.init "Praha" "Praha-vychod" 10) None None) [])
           Sample.network).
  reflexivity.
Defined.

Lemma praha_brno_distance :
  exists d : R,
    Connection.set_distance Sample.praha_brno None None
    = Return (Connection.with_distance d Sample.praha_brno).
Proof.
  destruct (great_circle_range 14.4378 50.0755 16.6068 49.1951)
    as [d [Hd _]].
  exists d.
  change (Connection.set_distance Sample.praha_brno None None)
    with (Connection.set_distance Sample.praha_brno (Some Sample.praha)
            (Some Sample.brno)).
  rewrite (set_distance_pairs Sample.praha_brno Sample.praha Sample.brno
             14.4378 50.0755 16.6068 49.1951 eq_refl eq_refl).
  rewrite Hd. reflexivity.
Qed.

Lemma failed_fetch_stops_the_run_witness :
  exists out,
    Connections.init (fun _ => Return (mkresponse 503 (Sample.page [])))
      [Sample.brno; Sample.ostrava] 2 Sample.praha "vlaky"
    = (out, Raise (IOError "IDOS does not load for URL:")).
Proof.
  destruct praha_brno_distance as [d Hd].
  eexists. unfold Connections.init.
  change (Py.slice0 [Sample.brno; Sample.ostrava] 2)
    with [Sample.brno; Sample.ostrava].
  destruct (failed_fetch_stops_the_run
              (fun _ => Return (mkresponse 503 (Sample.page [])))
              Sample.praha Sample.brno "vlaky"
              (Connection.with_distance d Sample.praha_brno) []
              [Sample.ostrava] [] eq_refl Hd) as [_ H].
  rewrite (H (mkresponse 503 (Sample.page [])) eq_refl).
  - reflexivity.
  - cbn. lia.
Defined.

(** ** Counting boxes *)

(** X15: when [load_idos] returns for a pair of different cities, every
    matched box of the document either yielded a record or was skipped for
    lack of its distance element: with K boxes of which M were skipped,
    K - M records were appended to each list, in document order, and M
    lines about a badly formatted box were printed after the line that
    announces the fetch. *)
Theorem boxes_are_kept_or_skipped
  (urlopen : string -> outcome response) (s s' : Connection.state)
  (r : option Connection.t) :
  Connection.load_idos urlopen s = (s', Return r) ->
  let c := Connection.self s in
  City.eq (Connection.from_city c) (Connection.to_city c) = false ->
  exists resp,
    urlopen (Connection.url_of c) = Return resp /\
    let boxes := Bs4.find_all_boxes (soup resp) in
    let M := List.length (filter Spec.skipped boxes) in
    (List.length (Spec.records boxes) + M = List.length boxes)%nat /\
    Connection.connections_times (Connection.self s')
    = (Connection.connections_times c ++ map fst (Spec.records boxes))%list /\
    Connection.connections_distances (Connection.self s')
    = (Connection.connections_distances c
       ++ map snd (Spec.records boxes))%list /\
    (boxes <> [] ->
     Connection.stdout s'
     = (Connection.stdout s
        ++ Spec.getting_line c :: repeat (Spec.bad_box_line c) M)%list) /\
    (boxes = [] ->
     r = None /\
     Connection.stdout s'
     = (Connection.stdout s
        ++ [Spec.getting_line c; Spec.bad_html_line c])%list).
Proof.
  intros H c Hdiff.
  destruct (load_idos_returns urlopen s s' _ H)
    as [Esame | [c1 [resp [_ [Ed [Eu Hcode]]]]]].
  { fold c in Esame. rewrite Esame in Hdiff. discriminate. }
  assert (Hd : City.eq (Connection.from_city (Connection.self s))
                 (Connection.to_city (Connection.self s)) = false)
    by exact Hdiff.
  rewrite (load_idos_fetched urlopen s c1 resp Hd Ed Eu Hcode) in H.
  destruct (set_distance_fields _ _ Ed) as [d ->]. fold c in H, Eu.
  change (Connection.url_of (Connection.with_distance d c))
    with (Connection.url_of c) in *.
  exists resp. split; [exact Eu|]. cbn zeta.
  destruct (Bs4.find_all_boxes (soup resp)) as [|b0 boxes0] eqn:Eb.
  { rewrite (extraction_no_boxes _ _ _ Eb) in H. inversion H.
    cbn. rewrite !app_nil_r, <- app_assoc.
    repeat split; try reflexivity. intros C. contradiction. }
  rewrite <- Eb in *.
  destruct (Spec.first_fatal (Bs4.find_all_boxes (soup resp)))
    as [e|] eqn:Ef.
  { destruct (extraction_fatal (soup resp) (Connection.url_of c)
                (Connection.mkstate (Connection.with_distance d c)
                   (Connection.stdout s
                    ++ [Spec.getting_line (Connection.with_distance d c)]))
                e Ef) as [s0 E0].
    rewrite E0 in H. discriminate. }
  rewrite extraction_tolerated in H;
    [|rewrite Eb; discriminate | exact Ef].
  inversion H. cbn [Connection.self Connection.stdout].
  split; [apply records_count; exact Ef|].
  split; [reflexivity|]. split; [reflexivity|]. split.
  - intros _. rewrite <- app_assoc. cbn [app]. do 2 f_equal.
    generalize (filter Spec.skipped (Bs4.find_all_boxes (soup resp))).
    intros l. induction l as [|x l IH]; [reflexivity|].
    cbn. f_equal. exact IH.
  - intros C. rewrite Eb in C. discriminate.
Qed.

Lemma boxes_are_kept_or_skipped_witness :
  exists s' : Connection.state,
    Connection.connections_times (Connection.self s') = [5400; 2700] /\
    Connection.connections_distances (Connection.self s') = [100; 60] /\
    Connection.stdout s'
    = [Spec.getting_line Sample.praha_brno;
       Spec.bad_box_line Sample.praha_brno].
Proof.
  destruct three_boxes_one_skipped as [d E].
  eexists. 
  destruct (boxes_are_kept_or_skipped _ _ _ _ E eq_refl)
    as [resp [Eu [_ [Ht [Hd [Hout _]]]]]].
  inversion Eu; subst resp. clear Eu.
  split; [exact Ht|]. split; [exact Hd|].
  apply Hout. discriminate.
Defined.

(** ** The numbers read from a box *)

Lemma span_digits_run (s : string) :
  Spec.digits (fst (Re.span_digits s)).
Proof.
  unfold Spec.digits. induction s as [|c s IH]; cbn.
  - constructor.
  - destruct (Re.is_digit c) eqn:E.
    + destruct (Re.span_digits s) as [run rest]. cbn in *.
      constructor; assumption.
    + constructor.
Qed.

Lemma match_here_digits (lit s g : string) :
  Re.match_here lit s = Some g -> Spec.digits g /\ g <> EmptyString.
Proof.
  unfold Re.match_here. pose proof (span_digits_run s) as H.
  destruct (Re.span_digits s) as [run rest]. cbn in H.
  destruct run as [|c run]; [discriminate|].
  destruct (prefix lit rest); [|discriminate].
  intros E. inversion E; subst. split; [exact H | discriminate].
Qed.

(** The group of a match is a non-empty string of digits. *)
Lemma search_number_digits (lit s g : string) :
  Re.search_number lit s = Some g -> Spec.digits g /\ g <> EmptyString.
Proof.
  induction s as [|c s IH]; cbn [Re.search_number].
  - destruct (Re.match_here lit EmptyString) eqn:E; [|discriminate].
    intros H. inversion H; subst. eapply match_here_digits. exact E.
  - destruct (Re.match_here lit (String c s)) eqn:E.
    + intros H. inversion H; subst. eapply match_here_digits. exact E.
    + exact IH.
Qed.

Lemma is_digit_value (c : ascii) :
  Re.is_digit c = true -> 0 <= Z.of_nat (nat_of_ascii c) - 48 <= 9.
Proof.
  unfold Re.is_digit. intros H. apply andb_true_iff in H.
  destruct H as [H1 H2]. apply Nat.leb_le in H1, H2. lia.
Qed.

Lemma int_of_digits_nonneg (g : string) :
  Spec.digits g -> 0 <= Re.int_of_digits g.
Proof.
  unfold Spec.digits, Re.int_of_digits.
  assert (H : forall l acc,
             Forall (fun c => Re.is_digit c = true) l -> 0 <= acc ->
             0 <= fold_left
                    (fun acc c => 10 * acc + (Z.of_nat (nat_of_ascii c) - 48))
                    l acc).
  { induction l as [|c l IH]; intros acc Hl Hacc; cbn [fold_left];
      [exact Hacc|].
    inversion Hl as [|? ? Hc Hl']; subst. apply IH; [exact Hl'|].
    pose proof (is_digit_value c Hc). lia. }
  intros Hg. apply H; [exact Hg | lia].
Qed.

Lemma total_seconds_of_range (time : string) :
  0 <= Connection.total_seconds_of time /\
  (Connection.total_seconds_of time) mod 60 = 0.
Proof.
  unfold Connection.total_seconds_of.
  destruct (Re.search_number " hod" time) as [h|] eqn:Eh;
    destruct (Re.search_number " min" time) as [m|] eqn:Em;
    try (apply search_number_digits in Eh; destruct Eh as [Eh _];
         apply int_of_digits_nonneg in Eh);
    try (apply search_number_digits in Em; destruct Em as [Em _];
         apply int_of_digits_nonneg in Em).
  - split; [lia|].
    replace (0 + Re.int_of_digits h * 60 * 60 + Re.int_of_digits m * 60)
      with ((Re.int_of_digits h * 60 + Re.int_of_digits m) * 60) by lia.
    apply Z.mod_mul. lia.
  - split; [lia|].
    replace (0 + Re.int_of_digits h * 60 * 60)
      with ((Re.int_of_digits h * 60) * 60) by lia.
    apply Z.mod_mul. lia.
  - split; [lia|].
    replace (0 + Re.int_of_digits m * 60)
      with (Re.int_of_digits m * 60) by lia.
    apply Z.mod_mul. lia.
  - split; [lia | reflexivity].
Qed.

Lemma records_are_whole_minutes_aux (b : PageElement) (seconds km : Z) :
  Spec.box_record b = Return (seconds, km) ->
  0 <= seconds /\ seconds mod 60 = 0 /\ 0 <= km.
Proof.
  unfold Spec.box_record.
  destruct (Connection.box_time b) as [time|]; cbn [obind]; [|discriminate].
  destruct (Connection.box_distance b) as [distance|]; cbn [obind];
    [|discriminate].
  unfold Connection.group1_int.
  destruct (Re.search_number " km" distance) as [g|] eqn:Eg; cbn [obind];
    [|discriminate].
  intros H. inversion H; subst.
  destruct (total_seconds_of_range time) as [H1 H2].
  apply search_number_digits in Eg. destruct Eg as [Eg _].
  apply int_of_digits_nonneg in Eg. repeat split; assumption.
Qed.

(** X16: whatever the document, every record that [load_idos] appends for
    a box holds a duration that is a whole, non-negative number of minutes
    (a multiple of 60 seconds) and a distance that is not negative. *)
Theorem records_are_whole_minutes (url : string) (b : PageElement)
  (s s' : Connection.state) :
  Connection.try_connection url b s = (s', Return tt) ->
  Connection.self s' = Connection.self s \/
  exists seconds km,
    Connection.self s'
    = Spec.with_records [(seconds, km)] (Connection.self s) /\
    0 <= seconds /\ seconds mod 60 = 0 /\ 0 <= km.
Proof.
  rewrite try_connection_record.
  destruct (Spec.box_record b) as [[seconds km]|e] eqn:E.
  - intros H. inversion H. right. exists seconds, km.
    split; [reflexivity|]. eapply records_are_whole_minutes_aux. exact E.
  - destruct (Connection.is_IndexError e); [|discriminate].
    intros H. inversion H. left. reflexivity.
Qed.

Lemma records_are_whole_minutes_witness :
  exists seconds km,
    Spec.box_record Sample.good_box = Return (seconds, km) /\
    0 <= seconds /\ seconds mod 60 = 0 /\ 0 <= km.
Proof.
  destruct (records_are_whole_minutes "" Sample.good_box
              (Connection.mkstate Sample.praha_brno [])
              (Connection.mkstate
                 (Spec.with_records [(5400, 100)] Sample.praha_brno) [])
              eq_refl) as [C | [seconds [km [E H]]]].
  - discriminate.
  - cbn in E. inversion E; subst. exists 5400, 100.
    split; [reflexivity | exact H].
Defined.

(** ** What Connections.__init__ collects *)

Lemma great_circle_returns (lon1 lat1 lon2 lat2 d : R) :
  Connection.great_circle lon1 lat1 lon2 lat2 = Return d ->
  (0 <= d <= 6373 * PI)%R.
Proof.
  intros H. destruct (great_circle_range lon1 lat1 lon2 lat2) as [d' [E Hr]].
  rewrite E in H. inversion H; subst. exact Hr.
Qed.

(** When [set_distance] returns, the destination holds a list of
    coordinates and the distance is in range. *)
Lemma set_distance_returns (c c1 : Connection.t) :
  Connection.set_distance c None None = Return c1 ->
  (exists xy, City.coordinates (Connection.to_city c) = Val xy) /\
  (0 <= Connection.distance c1 <= 6373 * PI)%R.
Proof.
  unfold Connection.set_distance, City.len_coordinates, City.coordinate.
  destruct (City.coordinates (Connection.to_city c)) as [| |xy];
    cbn [obind]; try discriminate.
  intros H. split; [exists xy; reflexivity|].
  assert (K : forall k : outcome bool,
             obind k (fun unset : bool =>
               if unset then Raise (IndexError "City coordinates are not set")
               else
                 obind (match City.coordinates (Connection.from_city c) with
                        | Unset => Raise AttributeError
                        | PyNone => Raise TypeError
                        | Val l => Py.index l 1
                        end) (fun lat1 =>
                 obind (match City.coordinates (Connection.from_city c) with
                        | Unset => Raise AttributeError
                        | PyNone => Raise TypeError
                        | Val l => Py.index l 0
                        end) (fun lon1 =>
                 obind (Py.index xy 1) (fun lat2 =>
                 obind (Py.index xy 0) (fun lon2 =>
                 obind (Connection.great_circle lon1 lat1 lon2 lat2)
                   (fun d => Return (Connection.with_distance d c)))))))
             = Return c1 ->
             (0 <= Connection.distance c1 <= 6373 * PI)%R).
  { intros [[|]|e]; cbn [obind]; try discriminate.
    destruct (match City.coordinates (Connection.from_city c) with
              | Unset => Raise AttributeError
              | PyNone => Raise TypeError
              | Val l => Py.index l 1
              end) as [lat1|]; cbn [obind]; [|discriminate].
    destruct (match City.coordinates (Connection.from_city c) with
              | Unset => Raise AttributeError
              | PyNone => Raise TypeError
              | Val l => Py.index l 0
              end) as [lon1|]; cbn [obind]; [|discriminate].
    destruct (Py.index xy 1) as [lat2|]; cbn [obind]; [|discriminate].
    destruct (Py.index xy 0) as [lon2|]; cbn [obind]; [|discriminate].
    destruct (Connection.great_circle lon1 lat1 lon2 lat2) as [d|] eqn:Ed;
      cbn [obind]; [|discriminate].
    intros E. inversion E; subst. cbn.
    eapply great_circle_returns. exact Ed. }
  eapply K. exact H.
Qed.

Section Collected.

Variable urlopen : string -> outcome response.

(** The shape of a connection that [load_idos] returns for a fresh
    object. *)
Lemma load_idos_fresh (origin city : City.t) (veh_type : string)
  (out : list string) (s' : Connection.state) (c' : Connection.t) :
  let c0 := Connection.init origin city (Some veh_type) None in
  Connection.load_idos urlopen (Connection.mkstate c0 out)
  = (s', Return (Some c')) ->
  exists d resp,
    Connection.set_distance c0 None None
    = Return (Connection.with_distance d c0) /\
    urlopen (Connection.url_of c0) = Return resp /\
    Spec.records (Bs4.find_all_boxes (soup resp)) <> [] /\
    c' = Connection.mk origin city veh_type (Lib.mkdatetime 2020 9 15 7 0 0)
           (Bs4.find_all_boxes (soup resp))
           (map fst (Spec.records (Bs4.find_all_boxes (soup resp))))
           (map snd (Spec.records (Bs4.find_all_boxes (soup resp))))
           d Unset.
Proof.
  intros c0 H.
  destruct (load_idos_returns urlopen _ _ _ H)
    as [Esame | [c1 [resp [Ediff [Ed [Eu Hcode]]]]]].
  { rewrite (load_idos_same_city urlopen _ Esame) in H. discriminate. }
  rewrite (load_idos_fetched urlopen _ c1 resp Ediff Ed Eu Hcode) in H.
  cbn [Connection.self Connection.stdout] in *.
  destruct (set_distance_fields _ _ Ed) as [d ->].
  change (Connection.url_of (Connection.with_distance d c0))
    with (Connection.url_of c0) in *.
  exists d, resp. split; [exact Ed|]. split; [exact Eu|].
  destruct (Bs4.find_all_boxes (soup resp)) as [|b0 boxes0] eqn:Eb.
  { rewrite (extraction_no_boxes _ _ _ Eb) in H. discriminate. }
  rewrite <- Eb in *.
  destruct (Spec.first_fatal (Bs4.find_all_boxes (soup resp)))
    as [e|] eqn:Ef.
  { destruct (extraction_fatal (soup resp) (Connection.url_of c0)
                (Connection.mkstate (Connection.with_distance d c0)
                   (out ++ [Spec.getting_line
                              (Connection.with_distance d c0)]))
                e Ef) as [s0 E0].
    rewrite E0 in H. discriminate. }
  rewrite extraction_tolerated in H;
    [|rewrite Eb; discriminate | exact Ef].
  cbn [Connection.self] in H.
  destruct (Spec.records (Bs4.find_all_boxes (soup resp))) as [|r0 rs]
    eqn:Er.
  { cbn in H. discriminate. }
  split; [discriminate|].
  cbn in H. inversion H. reflexivity.
Qed.

(** The connections added by the loop lead to cities of the list, in the
    order of the list. *)
Lemma load_cities_order (origin : City.t) (veh_type : string)
  (cities : list City.t) :
  forall (acc : list Connection.t) (out0 out : list string)
         (l : list Connection.t),
    Connections.load_cities urlopen cities origin veh_type acc out0
    = (out, Return l) ->
    exists added,
      l = (acc ++ added)%list /\
      Spec.subsequence (map Connection.to_city added) cities.
Proof.
  induction cities as [|city cities IH]; intros acc out0 out l H.
  - cbn in H. inversion H; subst. exists []. rewrite app_nil_r.
    split; [reflexivity | constructor].
  - cbn [Connections.load_cities] in H.
    destruct (Connection.load_idos urlopen _) as [s1 [r|e]] eqn:E;
      [|discriminate].
    apply IH in H. destruct H as [added [-> Hsub]].
    destruct r as [c|].
    + destruct (load_idos_fresh _ _ _ _ _ _ E) as [d [resp [_ [_ [_ Ec]]]]].
      exists (c :: added). rewrite <- app_assoc. split; [reflexivity|].
      cbn [map]. subst c. cbn [Connection.to_city].
      apply Spec.subsequence_keep. exact Hsub.
    + exists added. split; [reflexivity|].
      apply Spec.subsequence_skip. exact Hsub.
Qed.

(** X17: every connection that a completed [Connections.__init__] put
    into the collection starts at the origin, uses the vehicle type and the
    default date, and leads to another city, one of the first [limit]
    cities, which has its coordinates; its two lists are not empty, have
    the same length and hold whole non-negative minutes and non-negative
    kilometres; its distance is between 0 and 6373 x pi; it carries no score
    yet.  The destinations keep the order of the cities. *)
Theorem collected_connections_are_well_formed
  (cities : list City.t) (limit : Z) (origin : City.t) (veh_type : string)
  (out : list string) (self : Connections.t) :
  Connections.init urlopen cities limit origin veh_type = (out, Return self) ->
  Spec.subsequence (map Connection.to_city (Connections.connections self))
    (Py.slice0 cities limit) /\
  forall c, In c (Connections.connections self) ->
    Connection.from_city c = origin /\
    Connection.veh_type c = veh_type /\
    Connection.date_time c = Lib.mkdatetime 2020 9 15 7 0 0 /\
    In (Connection.to_city c) (Py.slice0 cities limit) /\
    City.name (Connection.to_city c) <> City.name origin /\
    (exists xy, City.coordinates (Connection.to_city c) = Val xy) /\
    Connection.connections_times c <> [] /\
    List.length (Connection.connections_times c)
    = List.length (Connection.connections_distances c) /\
    Forall (fun t => 0 <= t /\ t mod 60 = 0)
      (Connection.connections_times c) /\
    Forall (fun k => 0 <= k) (Connection.connections_distances c) /\
    (0 <= Connection.distance c <= 6373 * PI)%R /\
    Connection.ratio_absolute c = Unset.
Proof.
  intros H. unfold Connections.init in H.
  destruct (Connections.load_cities urlopen _ origin veh_type [] [])
    as [out1 [l|e]] eqn:E; [|discriminate].
  inversion H; subst out1 self. clear H. cbn [Connections.connections].
  split.
  { destruct (load_cities_order _ _ _ _ _ _ _ E) as [added [-> Hsub]].
    exact Hsub. }
  intros c Hc.
  destruct (load_cities_inv urlopen origin veh_type _ _ _ _ _ E)
    as [_ [Hl _]].
  destruct (Hl c Hc) as [[] | [city [o [s' [Hcity Hs']]]]].
  pose proof (load_idos_some urlopen _ _ _ _ _ _ Hs') as [_ [Hdiff _]].
  destruct (load_idos_fresh _ _ _ _ _ _ Hs')
    as [d [resp [Ed [_ [Hrec ->]]]]].
  destruct (set_distance_returns _ _ Ed) as [Hxy Hrange].
  cbn in Hxy, Hrange. cbn.
  set (rs := Spec.records (Bs4.find_all_boxes (soup resp))) in *.
  assert (Hrs : Forall (fun r => 0 <= fst r /\ fst r mod 60 = 0 /\
                                 0 <= snd r) rs).
  { unfold rs, Spec.records.
    generalize (Bs4.find_all_boxes (soup resp)). intros boxes.
    induction boxes as [|b boxes IH]; [constructor|].
    cbn [flat_map].
    destruct (Spec.box_record b) as [[sec km]|e] eqn:Eb; [|exact IH].
    cbn [app]. constructor; [|exact IH].
    cbn. eapply records_are_whole_minutes_aux. exact Eb. }
  repeat split; try assumption.
  - intros En. unfold City.eq in Hdiff. rewrite <- En in Hdiff.
    rewrite String.eqb_refl in Hdiff. discriminate.
  - destruct rs; [contradiction | discriminate].
  - rewrite !length_map. reflexivity.
  - apply Forall_map. eapply Forall_impl; [|exact Hrs].
    intros r [H1 [H2 _]]. split; assumption.
  - apply Forall_map. eapply Forall_impl; [|exact Hrs].
    intros r [_ [_ H3]]. exact H3.
  - apply Hrange.
  - apply Hrange.
Qed.

End Collected.

Lemma collected_connections_are_well_formed_witness :
  exists out self,
    Connections.init Sample.network
      [Sample.praha; Sample.brno; Sample.ostrava] 3 Sample.praha "vlaky"
    = (out, Return self) /\
    forall c, In c (Connections.connections self) ->
              Connection.connections_times c <> [] /\
              List.length (Connection.connections_times c)
              = List.length (Connection.connections_distances c).
Proof.
  destruct sample_run as [out [self [E _]]].
  exists out, self. split; [exact E|].
  intros c Hc.
  destruct (collected_connections_are_well_formed Sample.network
              [Sample.praha; Sample.brno; Sample.ostrava] 3 Sample.praha
              "vlaky" out self E) as [_ H].
  destruct (H c Hc) as [_ [_ [_ [_ [_ [_ [Ht [Hlen _]]]]]]]].
  split; [exact Ht | exact Hlen].
Defined.

(** ** A collected run rendered *)

Lemma first_loop_outcome (window : list Connection.t) (ratio : bool) :
  (forall c, In c window -> Connection.connections_times c <> []) ->
  forall (mx : R) (mn : pyfloat),
    (exists r, Connections.first_loop window ratio mx mn = Return r) \/
    Connections.first_loop window ratio mx mn = Raise ZeroDivisionError.
Proof.
  induction window as [|c window IH]; intros Hall mx mn.
  - left. eexists. reflexivity.
  - cbn [Connections.first_loop].
    assert (Hs : (exists s, Connections.score c ratio = Return s) \/
                 Connections.score c ratio = Raise ZeroDivisionError).
    { unfold Connections.score.
      rewrite (mean_arithmetic _ (Hall c (or_introl eq_refl))).
      destruct ratio; [|left; eexists; reflexivity].
      cbn [obind]. unfold Lib.div.
      destruct (Req_EM_T (Connection.distance c) 0);
        [right; reflexivity | left; eexists; reflexivity]. }
    destruct Hs as [[s ->] | ->]; [|right; reflexivity].
    cbn [obind].
    edestruct IH as [[[[w' mx'] mn'] E] | E].
    + intros c' Hc'. apply Hall. right. exact Hc'.
    + rewrite E. left. eexists. reflexivity.
    + rewrite E. right. reflexivity.
Qed.

Lemma second_loop_outcome (self window : list Connection.t) (mx : R)
  (mn : pyfloat) :
  self <> [] ->
  (forall c, In c window ->
             (exists s, Connection.ratio_absolute c = Val s) /\
             Connection.connections_times c <> [] /\
             City.coordinates (Connection.to_city c) <> Unset) ->
  forall (limit : Z) (acc : list feature),
    0 < limit ->
    (exists fs,
        Connections.second_loop self window limit mx mn acc = Return fs) \/
    Connections.second_loop self window limit mx mn acc
    = Raise ZeroDivisionError.
Proof.
  intros Hne. induction window as [|c window IH]; intros Hall limit acc Hl.
  - left. eexists. reflexivity.
  - cbn [Connections.second_loop]. fold (Spec.clamp self limit).
    destruct (icon_size_label self limit Hl Hne) as [cl [cm [_ [_ Hi]]]].
    rewrite Hi. cbn [obind].
    destruct (Hall c (or_introl eq_refl)) as [[s Es] [Ht Hxy]].
    rewrite Es.
    assert (Hci : (exists ci, Connections.color_index (Val s) mx mn
                              = Return ci) \/
                  Connections.color_index (Val s) mx mn
                  = Raise ZeroDivisionError).
    { unfold Connections.color_index, Lib.div.
      destruct mn as [m| |]; try (left; eexists; reflexivity).
      destruct (Req_EM_T (mx - m) 0);
        [right; reflexivity | left; eexists; reflexivity]. }
    destruct Hci as [[ci ->] | ->]; [|right; reflexivity].
    cbn [obind]. rewrite (mean_arithmetic _ Ht). cbn [obind].
    unfold Connections.geometry.
    destruct (clamp_window self limit Hl Hne) as [HL _].
    destruct (City.coordinates (Connection.to_city c)) eqn:Exy;
      [contradiction|..]; cbn [obind];
      (apply IH; [intros c' Hc'; apply Hall; right; assumption | exact HL]).
Qed.

(** Every collected connection has a batch and a destination with
    coordinates. *)
Lemma collected_have_batches
  (urlopen : string -> outcome response) (cities : list City.t)
  (limit : Z) (origin : City.t) (veh_type : string) (out : list string)
  (self : Connections.t) :
  Connections.init urlopen cities limit origin veh_type = (out, Return self) ->
  forall c, In c (Connections.connections self) ->
            Connection.connections_times c <> [] /\
            City.coordinates (Connection.to_city c) <> Unset.
Proof.
  intros H c Hc. unfold Connections.init in H.
  destruct (Connections.load_cities urlopen _ origin veh_type [] [])
    as [out1 [l|e]] eqn:E; [|discriminate].
  inversion H; subst out1 self. clear H. cbn [Connections.connections] in Hc.
  destruct (load_cities_inv urlopen origin veh_type _ _ _ _ _ E)
    as [_ [Hl _]].
  destruct (Hl c Hc) as [[] | [city [o [s' [_ Hs']]]]].
  destruct (load_idos_fresh _ _ _ _ _ _ _ Hs')
    as [d [resp [Ed [_ [Hrec ->]]]]].
  destruct (set_distance_returns _ _ Ed) as [[xy Hxy] _].
  cbn in Hxy. cbn. split.
  - destruct (Spec.records (Bs4.find_all_boxes (soup resp)));
      [contradiction | discriminate].
  - rewrite Hxy. discriminate.
Qed.

(** X18: the collection of a completed [Connections.__init__] can be
    rendered with any positive limit, in either mode, with one kind of
    failure only: [get_geojson] returns a feature collection or raises a
    division error (equal bounds, or a zero distance in ratio mode); it
    never fails on an empty batch, on the ranks of the size thresholds or
    on missing coordinates. *)
Theorem collected_run_renders_or_divides_by_zero
  (urlopen : string -> outcome response) (cities : list City.t)
  (limit : Z) (origin : City.t) (veh_type : string) (out : list string)
  (self : Connections.t) (limit' : Z) (ratio : bool) :
  Connections.init urlopen cities limit origin veh_type = (out, Return self) ->
  0 < limit' ->
  (exists self' g,
      Connections.get_geojson self limit' ratio = Return (self', g)) \/
  Connections.get_geojson self limit' ratio = Raise ZeroDivisionError.
Proof.
  intros Hinit Hl.
  pose proof (collected_have_batches urlopen cities limit origin veh_type
                out self Hinit) as Hall.
  unfold Connections.get_geojson.
  set (window := Py.slice0 (Connections.connections self) limit').
  destruct (first_loop_outcome window ratio) with (mx := 0%R) (mn := PosInf)
    as [[[[w' mx] mn] E1] | E1].
  { intros c Hc. apply Hall. eapply in_slice0. exact Hc. }
  2:{ rewrite E1. right. reflexivity. }
  rewrite E1. cbn [obind].
  pose proof (first_loop_scores _ _ _ _ _ _ _ E1) as HS.
  assert (Hlen : List.length w' = List.length window)
    by (symmetry; apply (Forall2_length HS)).
  rewrite (slice0_scored _ _ _ Hlen).
  destruct w' as [|c0 w0] eqn:Ew.
  { left. do 2 eexists. reflexivity. }
  rewrite <- Ew in *.
  assert (Hne : Connections.scored (Connections.connections self) w' limit'
                <> []).
  { unfold Connections.scored. rewrite Ew. discriminate. }
  destruct (second_loop_outcome _ w' mx mn Hne) with (limit := limit')
                                                      (acc := @nil feature)
    as [[fs Efs] | Efs].
  - intros c' Hc'.
    destruct (Forall2_in_r _ _ _ HS c' Hc') as [c [Hc [s [_ ->]]]].
    destruct (Hall c (in_slice0 _ _ _ Hc)) as [Ht Hxy].
    repeat split; try assumption. exists s. reflexivity.
  - exact Hl.
  - rewrite Efs. left. do 2 eexists. reflexivity.
  - rewrite Efs. right. reflexivity.
Qed.

Lemma collected_run_renders_or_divides_by_zero_witness :
  exists self : Connections.t,
    (exists self' g,
        Connections.get_geojson self 20 false = Return (self', g)) \/
    Connections.get_geojson self 20 false = Raise ZeroDivisionError.
Proof.
  destruct sample_run as [out [self [E _]]].
  exists self.
  apply (collected_run_renders_or_divides_by_zero Sample.network
           [Sample.praha; Sample.brno; Sample.ostrava] 3 Sample.praha
           "vlaky" out self 20 false E).
  lia.
Defined.

(** * The list of cities *)

(** X19: [get_city_by_name] returns the first city of the list with the
    given name, and [None] exactly when no city has it; so looking up the
    name of any listed city succeeds and gives a city equal to it in the
    sense of [City.__eq__]. *)
Theorem get_city_by_name_finds_the_first (self : Cities.t) (n : string) :
  (forall c,
      Cities.get_city_by_name self n = Some c ->
      City.name c = n /\
      exists before after,
        Cities.cities self = (before ++ c :: after)%list /\
        forall c0, In c0 before -> City.name c0 <> n) /\
  (Cities.get_city_by_name self n = None <->
   forall c, In c (Cities.cities self) -> City.name c <> n) /\
  (forall c, In c (Cities.cities self) ->
             exists c', Cities.get_city_by_name self (City.name c) = Some c' /\
                        City.eq c' c = true).
Proof.
  unfold Cities.get_city_by_name.
  generalize (Cities.cities self). intros l. repeat split.
  - revert H. induction l as [|c0 l IH]; cbn; [discriminate|].
    destruct (String.eqb (City.name c0) n) eqn:E.
    + intros H. inversion H; subst. apply String.eqb_eq. exact E.
    + exact IH.
  - revert H. induction l as [|c0 l IH]; cbn; [discriminate|].
    destruct (String.eqb (City.name c0) n) eqn:E.
    + intros H. inversion H; subst. exists [], l. split; [reflexivity|].
      intros c0 [].
    + intros H. destruct (IH H) as [before [after [-> Hb]]].
      exists (c0 :: before), after. split; [reflexivity|].
      intros c1 [<-|H1].
      * apply String.eqb_neq. exact E.
      * apply Hb. exact H1.
  - intros H c Hc Hn.
    apply (find_none _ _ H) in Hc. rewrite Hn, String.eqb_refl in Hc.
    discriminate.
  - intros H. induction l as [|c0 l IH]; cbn; [reflexivity|].
    destruct (String.eqb (City.name c0) n) eqn:E.
    + apply String.eqb_eq in E. exfalso.
      apply (H c0 (or_introl eq_refl)). exact E.
    + apply IH. intros c Hc. apply H. right. exact Hc.
  - intros c Hc. induction l as [|c0 l IH]; [destruct Hc|]. cbn.
    destruct (String.eqb (City.name c0) (City.name c)) eqn:E.
    + exists c0. split; [reflexivity | exact E].
    + destruct Hc as [->|Hc]; [rewrite String.eqb_refl in E; discriminate|].
      apply IH. exact Hc.
Qed.

(** ** Coordinates *)

Section Geocoding.

Variable geocode : string -> outcome (option (R * R)).

Lemma load_missing_fills (l l' : list City.t) :
  Cities.load_missing geocode l = Return l' ->
  Forall2
    (fun c c' =>
       City.name c' = City.name c /\ City.district c' = City.district c /\
       City.population c' = City.population c /\
       match City.coordinates c with
       | Val _ => c' = c
       | _ =>
           exists lon lat,
             geocode (City._get_address_formatted c)
             = Return (Some (lon, lat)) /\
             City.coordinates c' = Val [lon; lat]
       end)
    l l'.
Proof.
  revert l'. induction l as [|c l IH]; intros l' H; cbn in H.
  - inversion H. constructor.
  - assert (Hc : forall c1,
               match City.coordinates c with
               | Unset | PyNone => City.load_coordinates geocode c
               | Val _ => Return c
               end = Return c1 ->
               City.name c1 = City.name c /\
               City.district c1 = City.district c /\
               City.population c1 = City.population c /\
               match City.coordinates c with
               | Val _ => c1 = c
               | _ =>
                   exists lon lat,
                     geocode (City._get_address_formatted c)
                     = Return (Some (lon, lat)) /\
                     City.coordinates c1 = Val [lon; lat]
               end).
    { intros c1. unfold City.load_coordinates.
      destruct (City.coordinates c);
        try (intros E; inversion E; subst; repeat split; reflexivity);
        (destruct (geocode (City._get_address_formatted c))
          as [[[lon lat]|]|e]; cbn [obind]; try discriminate;
         intros E; inversion E; subst; cbn; repeat split;
         exists lon, lat; split; reflexivity). }
    destruct (match City.coordinates c with
              | Unset | PyNone => City.load_coordinates geocode c
              | Val _ => Return c
              end) as [c1|e]; cbn [obind] in H; [|discriminate].
    destruct (Cities.load_missing geocode l) as [rest|e]; cbn [obind] in H;
      [|discriminate].
    inversion H; subst. constructor; [apply Hc; reflexivity|].
    apply IH. reflexivity.
Qed.

(** X20: when [set_all_coordinates] completes, it printed its one line;
    every city keeps its name, district and population; a city that had a
    list of coordinates is untouched, and every other city now holds the
    pair (longitude, latitude) the geocoder gave for its address. *)
Theorem set_all_coordinates_fills_the_gaps (self self' : Cities.t)
  (out : list string) :
  Cities.set_all_coordinates geocode self = (out, Return self') ->
  out = ["Get all coordinates may take some time..."] /\
  Forall2
    (fun c c' =>
       City.name c' = City.name c /\ City.district c' = City.district c /\
       City.population c' = City.population c /\
       match City.coordinates c with
       | Val _ => c' = c
       | _ =>
           exists lon lat,
             geocode (City.name c ++ ", " ++ City.district c ++ ", Czechia")
             = Return (Some (lon, lat)) /\
             City.coordinates c' = Val [lon; lat]
       end)
    (Cities.cities self) (Cities.cities self').
Proof.
  unfold Cities.set_all_coordinates. intros H. inversion H as [[Ho Hr]].
  split; [reflexivity|].
  destruct (Cities.load_missing geocode (Cities.cities self)) as [l'|e]
    eqn:E; cbn [obind] in Hr; [|discriminate].
  inversion Hr; subst. cbn [Cities.cities].
  apply load_missing_fills. exact E.
Qed.

Lemma load_missing_stops (before after : list City.t) (c : City.t)
  (e : exn) :
  (forall c0, In c0 before ->
              (exists xy, City.coordinates c0 = Val xy) \/
              exists p, geocode (City._get_address_formatted c0)
                        = Return (Some p)) ->
  (forall xy, City.coordinates c <> Val xy) ->
  City.load_coordinates geocode c = Raise e ->
  Cities.load_missing geocode (before ++ c :: after) = Raise e.
Proof.
  intros Hb Hc He. induction before as [|c0 before IH].
  - cbn. destruct (City.coordinates c) as [| |xy];
      [rewrite He; reflexivity | rewrite He; reflexivity|].
    exfalso. apply (Hc xy). reflexivity.
  - cbn [app Cities.load_missing].
    rewrite IH by (intros c1 H1; apply Hb; right; exact H1).
    destruct (Hb c0 (or_introl eq_refl)) as [[xy ->] | [[lon lat] Hg]];
      [reflexivity|].
    unfold City.load_coordinates. rewrite Hg. cbn [obind].
    destruct (City.coordinates c0); reflexivity.
Qed.

(** X21: the first city without coordinates that the geocoder does not
    find stops [set_all_coordinates] with an [AttributeError] (the answer
    [None] has no longitude), and an exception of the geocoder for that
    city passes through unchanged; nothing is returned. *)
Theorem set_all_coordinates_stops_at_unknown_address
  (self : Cities.t) (before after : list City.t) (c : City.t) :
  Cities.cities self = (before ++ c :: after)%list ->
  (forall c0, In c0 before ->
              (exists xy, City.coordinates c0 = Val xy) \/
              exists p, geocode (City._get_address_formatted c0)
                        = Return (Some p)) ->
  (forall xy, City.coordinates c <> Val xy) ->
  (geocode (City._get_address_formatted c) = Return None ->
   snd (Cities.set_all_coordinates geocode self) = Raise AttributeError) /\
  (forall e,
      geocode (City._get_address_formatted c) = Raise e ->
      snd (Cities.set_all_coordinates geocode self) = Raise e).
Proof.
  intros Hl Hb Hc. unfold Cities.set_all_coordinates. cbn [snd].
  rewrite Hl. split.
  - intros Hg.
    rewrite (load_missing_stops before after c AttributeError Hb Hc);
      [reflexivity|].
    unfold City.load_coordinates. rewrite Hg. reflexivity.
  - intros e Hg.
    rewrite (load_missing_stops before after c e Hb Hc); [reflexivity|].
    unfold City.load_coordinates. rewrite Hg. reflexivity.
Qed.

(** X22: once [set_all_coordinates] has completed on cities that came
    without coordinates, every city holds a pair, so [set_distance] between
    any two of them gets past the checks of the coordinates: on any machine
    arithmetic that rounds as IEEE 754 does it returns a distance that is
    not negative, or stops with the [ValueError] of line 191; it raises no
    [AttributeError], [TypeError] or [IndexError]. *)
Theorem geocoded_cities_reach_the_formula (F : Float.arith)
  (self self' : Cities.t) (out : list string) (conn : Connection.t)
  (a b : City.t) :
  Float.ieee F ->
  Cities.set_all_coordinates geocode self = (out, Return self') ->
  (forall c xy, In c (Cities.cities self) -> City.coordinates c <> Val xy) ->
  In a (Cities.cities self') -> In b (Cities.cities self') ->
  (exists lonA latA lonB latB,
      City.coordinates a = Val [lonA; latA] /\
      City.coordinates b = Val [lonB; latB]) /\
  ((exists d : R,
       Connection.set_distance_float F conn (Some a) (Some b)
       = Return (Connection.with_distance d conn) /\ (0 <= d)%R) \/
   Connection.set_distance_float F conn (Some a) (Some b)
   = Raise ValueError).
Proof.
  intros HF H Hun Ha Hb.
  unfold Cities.set_all_coordinates in H. inversion H as [[Ho Hr]].
  destruct (Cities.load_missing geocode (Cities.cities self)) as [l'|e]
    eqn:E; cbn [obind] in Hr; [|discriminate].
  inversion Hr; subst. cbn [Cities.cities] in *.
  pose proof (load_missing_fills _ _ E) as HFill.
  assert (Hpair : forall c', In c' l' ->
                    exists lon lat, City.coordinates c' = Val [lon; lat]).
  { intros c' Hc'.
    destruct (Forall2_in_r _ _ _ HFill c' Hc') as [c [Hc [_ [_ [_ Hm]]]]].
    destruct (City.coordinates c) as [| |xy] eqn:Ec.
    - destruct Hm as [lon [lat [_ Hv]]]. exists lon, lat. exact Hv.
    - destruct Hm as [lon [lat [_ Hv]]]. exists lon, lat. exact Hv.
    - exfalso. apply (Hun c xy Hc). exact Ec. }
  destruct (Hpair a Ha) as [lonA [latA HA]].
  destruct (Hpair b Hb) as [lonB [latB HB]].
  split; [exists lonA, latA, lonB, latB; split; assumption|].
  rewrite (set_distance_float_pairs F conn a b lonA latA lonB latB HA HB).
  destruct (great_circle_float_cases F HF lonA latA lonB latB) as [Hret Hf].
  cbn zeta in Hret, Hf.
  set (x := Connection.haversine F lonA latA lonB latB) in *.
  destruct (Rlt_dec x 0) as [H0|H0].
  { right. rewrite (Hf (or_introl H0)). reflexivity. }
  destruct (Rlt_dec (Float.sub F 1 x) 0) as [H1|H1].
  { right. rewrite (Hf (or_intror H1)). reflexivity. }
  left. destruct Hret as [d [Hd Hpos]]; [lra | lra |].
  exists d. rewrite Hd. split; [reflexivity | exact Hpos].
Qed.

End Geocoding.

Lemma set_all_coordinates_fills_the_gaps_witness :
  Cities.set_all_coordinates Sample.geocoder Sample.registry
  = (["Get all coordinates may take some time..."],
     Return (Cities.mk [Sample.praha; Sample.brno])) /\
  Forall2 (fun c c' => City.name c' = City.name c)
    (Cities.cities Sample.registry) [Sample.praha; Sample.brno].
Proof.
  assert (E : Cities.set_all_coordinates Sample.geocoder Sample.registry
              = (["Get all coordinates may take some time..."],
                 Return (Cities.mk [Sample.praha; Sample.brno])))
    by reflexivity.
  split; [exact E|].
  destruct (set_all_coordinates_fills_the_gaps Sample.geocoder
              Sample.registry _ _ E) as [_ HF].
  eapply Forall2_impl; [|exact HF].
  intros c c' [Hn _]. exact Hn.
Defined.

Lemma set_all_coordinates_stops_at_unknown_address_witness :
  snd (Cities.set_all_coordinates Sample.geocoder
         Sample.registry_with_unknown)
  = Raise AttributeError.
Proof.
  destruct (set_all_coordinates_stops_at_unknown_address Sample.geocoder
              Sample.registry_with_unknown
              [City.init "Praha" "Hlavni mesto Praha" 1300000]
              [City.init "Brno" "Brno-mesto" 380000]
              (City.init "Kocourkov" "Nikde" 1) eq_refl) as [H _].
  - intros c0 [<-|[]]. right. eexists. reflexivity.
  - intros xy. discriminate.
  - apply H. reflexivity.
Defined.

Lemma geocoded_cities_reach_the_formula_witness :
  (exists lonA latA lonB latB,
      City.coordinates Sample.praha = Val [lonA; latA] /\
      City.coordinates Sample.brno = Val [lonB; latB]) /\
  ((exists d : R,
       Connection.set_distance_float Float.exact Sample.praha_brno
         (Some Sample.praha) (Some Sample.brno)
       = Return (Connection.with_distance d Sample.praha_brno) /\
       (0 <= d)%R) \/
   Connection.set_distance_float Float.exact Sample.praha_brno
     (Some Sample.praha) (Some Sample.brno)
   = Raise ValueError).
Proof.
  apply (geocoded_cities_reach_the_formula Sample.geocoder Float.exact
           Sample.registry (Cities.mk [Sample.praha; Sample.brno])
           ["Get all coordinates may take some time..."]
           Sample.praha_brno Sample.praha Sample.brno).
  - exact exact_ieee.
  - reflexivity.
  - intros c xy [<-|[<-|[]]]; discriminate.
  - left. reflexivity.
  - right. left. reflexivity.
Defined.

(** * Reading a duration text *)

Lemma span_digits_app (h rest : string) :
  Spec.digits h ->
  (forall c r, rest = String c r -> Re.is_digit c = false) ->
  Re.span_digits (h ++ rest) = (h, rest).
Proof.
  unfold Spec.digits. intros Hh Hr. induction h as [|c h IH].
  - change (EmptyString ++ rest) with rest.
    destruct rest as [|c r]; [reflexivity|].
    cbn [Re.span_digits]. rewrite (Hr c r eq_refl). reflexivity.
  - change (String c h ++ rest) with (String c (h ++ rest)).
    cbn [Re.span_digits].
    cbn [list_ascii_of_string] in Hh.
    inversion Hh as [|? ? Hc Hh']; subst. rewrite Hc.
    rewrite (IH Hh'). reflexivity.
Qed.

(** A run of digits followed by the literal is found at once. *)
Lemma search_number_here (lit h rest : string) :
  Spec.digits h -> h <> EmptyString ->
  (forall c r, (lit ++ rest) = String c r -> Re.is_digit c = false) ->
  Re.search_number lit (h ++ lit ++ rest) = Some h.
Proof.
  intros Hh Hne Hr.
  assert (E : Re.match_here lit (h ++ lit ++ rest) = Some h).
  { unfold Re.match_here. rewrite (span_digits_app h (lit ++ rest) Hh Hr).
    destruct h as [|c h]; [contradiction|].
    assert (P : prefix lit (lit ++ rest) = true).
    { clear. induction lit as [|c lit IH]; cbn.
      - destruct rest; reflexivity.
      - destruct (ascii_dec c c); [exact IH | contradiction]. }
    rewrite P. reflexivity. }
  destruct (h ++ lit ++ rest) eqn:Es; cbn [Re.search_number]; rewrite E;
    reflexivity.
Qed.

(** A run of digits followed by something that does not begin with the
    literal, nor with a digit, is passed over. *)
Lemma search_number_skip (lit h rest : string) :
  Spec.digits h ->
  (forall c r, rest = String c r -> Re.is_digit c = false) ->
  prefix lit rest = false ->
  Re.search_number lit (h ++ rest) = Re.search_number lit rest.
Proof.
  unfold Spec.digits. intros Hh Hr Hp. induction h as [|c h IH];
    [reflexivity|].
  pose proof Hh as Hh0.
  cbn [list_ascii_of_string] in Hh. inversion Hh as [|? ? Hc Hh']; subst.
  change (String c h ++ rest) with (String c (h ++ rest)).
  cbn [Re.search_number].
  assert (E : Re.match_here lit (String c (h ++ rest)) = None).
  { unfold Re.match_here.
    change (String c (h ++ rest)) with (String c h ++ rest).
    rewrite (span_digits_app (String c h) rest Hh0 Hr). rewrite Hp.
    reflexivity. }
  rewrite E. apply IH. exact Hh'.
Qed.

(** X23: a duration text of the form "<h> hod <m> min", "<h> hod" or
    "<m> min", with <h> and <m> non-empty strings of digits, is read as
    3600 h + 60 m seconds, the missing part counting as 0. *)
Theorem total_seconds_of_hours_and_minutes (h m : string) :
  Spec.digits h -> h <> EmptyString ->
  Spec.digits m -> m <> EmptyString ->
  Connection.total_seconds_of (h ++ " hod " ++ m ++ " min")
  = Re.int_of_digits h * 3600 + Re.int_of_digits m * 60 /\
  Connection.total_seconds_of (h ++ " hod") = Re.int_of_digits h * 3600 /\
  Connection.total_seconds_of (m ++ " min") = Re.int_of_digits m * 60.
Proof.
  intros Hh Hhne Hm Hmne.
  assert (Nd : forall (lit rest : string) c r,
             (String " " lit ++ rest) = String c r ->
             Re.is_digit c = false).
  { intros lit rest c r E. inversion E. reflexivity. }
  split; [|split].
  - unfold Connection.total_seconds_of.
    assert (E1 : Re.search_number " hod" (h ++ " hod " ++ m ++ " min")
                 = Some h).
    { apply (search_number_here " hod" h (" " ++ m ++ " min") Hh Hhne).
      apply Nd. }
    assert (E2 : Re.search_number " min" (h ++ " hod " ++ m ++ " min")
                 = Some m).
    { rewrite (search_number_skip " min" h (" hod " ++ m ++ " min") Hh);
        [|apply (Nd "hod " (m ++ " min")) | reflexivity].
      change (" hod " ++ m ++ " min")
        with (String " " (String "h" (String "o" (String "d"
               (String " " (m ++ " min")))))).
      do 5 (cbn [Re.search_number];
            match goal with
            | |- context [Re.match_here ?l (String ?c ?s)] =>
                change (Re.match_here l (String c s)) with (@None string)
            end).
      change (m ++ " min") with (m ++ " min" ++ "").
      apply (search_number_here " min" m "" Hm Hmne). apply Nd. }
    rewrite E1, E2. lia.
  - unfold Connection.total_seconds_of.
    assert (E1 : Re.search_number " hod" (h ++ " hod") = Some h).
    { change (h ++ " hod") with (h ++ " hod" ++ "").
      apply (search_number_here " hod" h "" Hh Hhne). apply Nd. }
    assert (E2 : Re.search_number " min" (h ++ " hod") = None).
    { rewrite (search_number_skip " min" h " hod" Hh);
        [reflexivity | apply (Nd "hod" "") | reflexivity]. }
    rewrite E1, E2. lia.
  - unfold Connection.total_seconds_of.
    assert (E1 : Re.search_number " min" (m ++ " min") = Some m).
    { change (m ++ " min") with (m ++ " min" ++ "").
      apply (search_number_here " min" m "" Hm Hmne). apply Nd. }
    assert (E2 : Re.search_number " hod" (m ++ " min") = None).
    { rewrite (search_number_skip " hod" m " min" Hm);
        [reflexivity | apply (Nd "min" "") | reflexivity]. }
    rewrite E1, E2. lia.
Qed.

Lemma total_seconds_of_hours_and_minutes_witness :
  Connection.total_seconds_of "1 hod 30 min" = 5400.
Proof.
  destruct (total_seconds_of_hours_and_minutes "1" "30") as [H _].
  - repeat constructor.
  - discriminate.
  - repeat constructor.
  - discriminate.
  - exact H.
Defined.

(** * What the method leaves behind *)

(** X24: a successful [get_geojson] changes the object in one way only:
    every connection of the window has its score stored in
    [ratio_absolute]; its other attributes, the connections after the
    limit, their number and their order stay as they were. *)
Theorem get_geojson_only_stores_scores
  (self self' : Connections.t) (limit : Z) (ratio : bool) (g : geojson) :
  Connections.get_geojson self limit ratio = Return (self', g) ->
  let window := Py.slice0 (Connections.connections self) limit in
  exists w',
    Connections.connections self'
    = (w' ++ skipn (List.length window) (Connections.connections self))%list /\
    Forall2 (fun c c' =>
               exists s, Connections.score c ratio = Return s /\
                         c' = Connection.with_ratio_absolute s c)
            window w' /\
    List.length (Connections.connections self')
    = List.length (Connections.connections self).
Proof.
  intros Hg window.
  destruct (get_geojson_inv _ _ _ _ _ Hg)
    as [w' [mx [mn [E1 [Es [_ _]]]]]].
  pose proof (first_loop_scores _ _ _ _ _ _ _ E1) as HS.
  exists w'. split; [exact Es|]. split; [exact HS|].
  rewrite Es. apply scored_length. symmetry. apply (Forall2_length HS).
Qed.

Lemma get_geojson_only_stores_scores_witness :
  exists self' : Connections.t,
    List.length (Connections.connections self') = 2%nat.
Proof.
  destruct two_destinations_geojson as [self' [g Hg]].
  destruct (get_geojson_only_stores_scores Sample.two_destinations self' 2
              false g Hg) as [w' [_ [_ Hlen]]].
  exists self'. exact Hlen.
Defined.
